(** * RaspAP touch panel: orchestration layer of [raspap_touch_kivy.py]

    A shallow embedding of the task-and-state layer of the panel: the busy
    indicator, the background job runner, the state store, the debounced
    GeoIP trigger and the Wi-Fi reconciliation and connect workflow.

    Python values are modelled as follows.
    - [str] is a sequence of Unicode code points ([list N]);
    - [int] is [Z]; the floats of the state store are exact rationals ([Q]);
    - a [dict] is an insertion-ordered association list with unique keys;
    - a [set] of strings is a [gset str];
    - an external process is described by what [subprocess.run] observes of
      it: an exit status with the captured standard output, or a timeout. *)

From Stdlib Require Import ZArith QArith Ascii String.
From stdpp Require Import base tactics option list gmap sorting.

Local Open Scope Z_scope.

(* ===================================================================== *)
(** * Python strings *)
(* ===================================================================== *)

Module PyStr.

(** A Python [str]: its code points, in order. *)
Abbreviation str := (list N).

(** Source literals: the code points of an ASCII literal. *)
Definition lit (s : string) : str :=
  List.map N_of_ascii (list_ascii_of_string s).
Arguments lit s%_string.

Definition TAB : N := 9.
Definition LF : N := 10.
Definition CR : N := 13.
Definition COLON : N := 58.

(** [str.isspace] on one code point (CPython's [_PyUnicode_IsWhitespace]). *)
Definition isspace (c : N) : bool :=
  ((9 <=? c) && (c <=? 13) || (28 <=? c) && (c <=? 32)
   || (c =? 133) || (c =? 160) || (c =? 5760)
   || (8192 <=? c) && (c <=? 8202)
   || (c =? 8232) || (c =? 8233) || (c =? 8239) || (c =? 8287)
   || (c =? 12288))%N.

(** Line boundaries of [str.splitlines] ([_PyUnicode_IsLinebreak]). *)
Definition islinebreak (c : N) : bool :=
  ((10 <=? c) && (c <=? 13) || (28 <=? c) && (c <=? 30)
   || (c =? 133) || (c =? 8232) || (c =? 8233))%N.

(** Truth value of a string: [if s:] holds for the non-empty ones. *)
Definition truthy (s : str) : bool :=
  match s with [] => false | _ => true end.

Fixpoint lstrip (s : str) : str :=
  match s with
  | [] => []
  | c :: s' => if isspace c then lstrip s' else s
  end.

Fixpoint rstrip (s : str) : str :=
  match s with
  | [] => []
  | c :: s' =>
      match rstrip s' with
      | [] => if isspace c then [] else [c]
      | r => c :: r
      end
  end.

(** [s.strip()] *)
Definition strip (s : str) : str := rstrip (lstrip s).

(** [s.split(sep)] for a one-character separator. *)
Fixpoint split (sep : N) (s : str) : list str :=
  match s with
  | [] => [[]]
  | c :: s' =>
      if (c =? sep)%N then [] :: split sep s'
      else match split sep s' with
           | p :: ps => (c :: p) :: ps
           | [] => [[c]]
           end
  end.

(** [s.partition(sep)] for a one-character separator: the text before the
    first separator, the separator if it was found, and the rest. *)
Fixpoint partition (sep : N) (s : str) : str * str * str :=
  match s with
  | [] => ([], [], [])
  | c :: s' =>
      if (c =? sep)%N then ([], [c], s')
      else let '(h, m, t) := partition sep s' in (c :: h, m, t)
  end.

(** [s.splitlines()]: [cur] is the line being read.  A carriage return
    followed by a line feed is one boundary; no empty last line. *)
Fixpoint splitlines_from (cur : str) (s : str) : list str :=
  match s with
  | [] => match cur with [] => [] | _ => [cur] end
  | c :: s' =>
      if islinebreak c then
        match s' with
        | d :: s'' =>
            if ((c =? CR) && (d =? LF))%N
            then cur :: splitlines_from [] s''
            else cur :: splitlines_from [] s'
        | [] => [cur]
        end
      else splitlines_from (cur ++ [c]) s'
  end.

Definition splitlines (s : str) : list str := splitlines_from [] s.

(** Code-point order of [str], as [<] compares two strings. *)
Fixpoint ltb (a b : str) : bool :=
  match a, b with
  | _, [] => false
  | [], _ :: _ => true
  | x :: a', y :: b' => (x <? y)%N || (x =? y)%N && ltb a' b'
  end.

End PyStr.

Abbreviation str := PyStr.str.
Abbreviation lit := PyStr.lit.

(* ===================================================================== *)
(** * Python dictionaries *)
(* ===================================================================== *)

(** A [dict] keeps its keys in insertion order, and assigning to a key that
    is present keeps the key's position. *)
Abbreviation pydict K V := (list (K * V)).

Module PyDict.
Section ops.
Context {K V : Type} `{EqDecision K}.

(** [d.get(k)] *)
Fixpoint getitem (d : pydict K V) (k : K) : option V :=
  match d with
  | [] => None
  | (k', v) :: d' => if decide (k' = k) then Some v else getitem d' k
  end.

(** [d[k] = v] *)
Fixpoint setitem (d : pydict K V) (k : K) (v : V) : pydict K V :=
  match d with
  | [] => [(k, v)]
  | (k', v') :: d' =>
      if decide (k' = k) then (k, v) :: d' else (k', v') :: setitem d' k v
  end.

Definition keys (d : pydict K V) : list K := d.*1.

(** What every dictionary satisfies: no key occurs twice. *)
Definition wf (d : pydict K V) : Prop := NoDup (keys d).
End ops.
End PyDict.

(* ===================================================================== *)
(** * Busy indicator ([show_busy_indicator], [hide_busy_indicator]) *)
(* ===================================================================== *)

(** The two module globals, and whether the overlay widget is among the
    children of [Window]. *)
Record busy_state := {
  BUSY_DEPTH : Z;
  BUSY_OVERLAY : bool;       (* [BUSY_OVERLAY is not None] *)
  window_overlay : bool      (* the overlay is on screen *)
}.

Inductive window_event := AddWidget | RemoveWidget.

Definition busy_init : busy_state :=
  {| BUSY_DEPTH := 0; BUSY_OVERLAY := false; window_overlay := false |}.

Definition show_busy_indicator (s : busy_state) : busy_state * option window_event :=
  let depth := BUSY_DEPTH s + 1 in
  if BUSY_OVERLAY s then
    ({| BUSY_DEPTH := depth; BUSY_OVERLAY := true;
        window_overlay := window_overlay s |}, None)
  else
    ({| BUSY_DEPTH := depth; BUSY_OVERLAY := true; window_overlay := true |},
     Some AddWidget).

Definition hide_busy_indicator (s : busy_state) : busy_state * option window_event :=
  let depth := Z.max 0 (BUSY_DEPTH s - 1) in
  if BUSY_OVERLAY s && (depth =? 0) then
    ({| BUSY_DEPTH := depth; BUSY_OVERLAY := false; window_overlay := false |},
     Some RemoveWidget)
  else
    ({| BUSY_DEPTH := depth; BUSY_OVERLAY := BUSY_OVERLAY s;
        window_overlay := window_overlay s |}, None).

Inductive busy_call := Enter | Exit.

Definition busy_step (c : busy_call) (s : busy_state) : busy_state * option window_event :=
  match c with
  | Enter => show_busy_indicator s
  | Exit => hide_busy_indicator s
  end.

(** One call as an observer sees it: the call, the state it found, the state
    it left and what it did to the window. *)
Record busy_obs := {
  obs_call : busy_call;
  obs_before : busy_state;
  obs_after : busy_state;
  obs_event : option window_event
}.

Fixpoint busy_trace (calls : list busy_call) (s : busy_state) : list busy_obs :=
  match calls with
  | [] => []
  | c :: calls' =>
      let '(s', e) := busy_step c s in
      {| obs_call := c; obs_before := s; obs_after := s'; obs_event := e |}
        :: busy_trace calls' s'
  end.

Definition busy_run (calls : list busy_call) (s : busy_state) : busy_state :=
  fold_left (fun s c => (busy_step c s).1) calls s.

(** What holds between calls: the depth is not negative and the overlay
    exists, and is on screen, exactly when the depth is positive. *)
Definition busy_inv (s : busy_state) : Prop :=
  0 <= BUSY_DEPTH s
  /\ (BUSY_OVERLAY s = true <-> 0 < BUSY_DEPTH s)
  /\ window_overlay s = BUSY_OVERLAY s.

(** What one call may do. *)
Definition busy_obs_ok (o : busy_obs) : Prop :=
  let d := BUSY_DEPTH (obs_before o) in
  let d' := BUSY_DEPTH (obs_after o) in
  0 <= d'
  /\ (window_overlay (obs_after o) = true <-> 0 < d')
  /\ d' = match obs_call o with Enter => d + 1 | Exit => Z.max 0 (d - 1) end
  /\ (obs_event o = Some AddWidget <-> obs_call o = Enter /\ d = 0 /\ d' = 1)
  /\ (obs_event o = Some RemoveWidget <-> obs_call o = Exit /\ d = 1 /\ d' = 0).

(* ===================================================================== *)
(** * External processes ([run_cmd]) *)
(* ===================================================================== *)

(** What [subprocess.run] observes of a child: it exits with a status and
    its captured output, or it outlives the timeout.  The child is taken to
    start: the Wi-Fi tools are run through [sudo] or after [has_cmd] found
    them, and a program that cannot be started at all is not modelled. *)
Inductive proc_result :=
| Exited (returncode : Z) (stdout : str)
| TimedOut.

Inductive subprocess_error := TimeoutExpired | CalledProcessError.

(** [subprocess.run(cmd, check=check, stdout=PIPE, text=True, timeout=...)] *)
Definition subprocess_run (check : bool) (p : proc_result)
  : subprocess_error + Z * str :=
  match p with
  | TimedOut => inl TimeoutExpired
  | Exited rc out =>
      if check && negb (rc =? 0) then inl CalledProcessError else inr (rc, out)
  end.

(** [run_cmd]: the stripped output, or the empty string when the command
    timed out or failed. *)
Definition run_cmd (p : proc_result) : str :=
  match subprocess_run true p with
  | inr (_, out) => PyStr.strip out
  | inl TimeoutExpired => []
  | inl CalledProcessError => []
  end.

(* ===================================================================== *)
(** * Wi-Fi utilities *)
(* ===================================================================== *)

Definition dbm_to_percent (dbm : option Z) : Z :=
  match dbm with
  | None => 0
  | Some dbm => let pct := 2 * (dbm + 100) in Z.max 0 (Z.min 100 pct)
  end.

(** A scan entry: [{"signal": ..., "security": ...}]. *)
Record scan_info := { info_signal : Z; info_security : str }.

(** The update shared by both scanners and by the merge of the refresh:
    [if ssid not in d or info["signal"] > d[ssid]["signal"]: d[ssid] = info]. *)
Definition keep_stronger (d : pydict str scan_info) (ssid : str) (info : scan_info)
  : pydict str scan_info :=
  match PyDict.getitem d ssid with
  | None => PyDict.setitem d ssid info
  | Some old =>
      if info_signal info >? info_signal old then PyDict.setitem d ssid info else d
  end.

(** Of the entry already stored, if any, and a new one, the one that the
    update leaves in the dictionary. *)
Definition stronger (old : option scan_info) (new : scan_info) : scan_info :=
  match old with
  | None => new
  | Some o => if info_signal new >? info_signal o then new else o
  end.

(** [d.setdefault(k, v)], for its effect on [d]. *)
Definition setdefault {V} (d : pydict str V) (k : str) (v : V) : pydict str V :=
  match PyDict.getitem d k with
  | None => PyDict.setitem d k v
  | Some _ => d
  end.

Definition get_saved_networks_wpa_cli_line (acc : gset str * pydict str str)
    (line : str) : gset str * pydict str str :=
  match PyStr.split PyStr.TAB line with
  | nid :: ssid :: _ =>                         (* [len(parts) >= 2] *)
      if PyStr.truthy ssid then
        let s := PyStr.strip ssid in
        ({[ s ]} ∪ acc.1, setdefault acc.2 s nid)
      else acc
  | _ => acc
  end.

(** [get_saved_networks_wpa_cli], from the outcome of
    [sudo wpa_cli -i iface list_networks]. *)
Definition get_saved_networks_wpa_cli (list_networks : proc_result)
  : gset str * pydict str str :=
  let out := run_cmd list_networks in
  if negb (PyStr.truthy out) then (∅, [])
  else fold_left get_saved_networks_wpa_cli_line
         (drop 1 (PyStr.splitlines out)) (∅, []).

Definition nmcli_wifi_names_line (names : list str) (line : str) : list str :=
  if negb (PyStr.truthy line) then names
  else
    let '(name, _, typ) := PyStr.partition PyStr.COLON line in
    if bool_decide (typ = lit "wifi") || bool_decide (typ = lit "802-11-wireless")
    then names ++ [name] else names.

(** [get_saved_networks_nmcli]: [has_nmcli] is [has_cmd("nmcli")],
    [connection_show] the listing of the connections and [connection_ssid]
    the query of one connection's SSID. *)
Definition get_saved_networks_nmcli (has_nmcli : bool)
    (connection_show : proc_result) (connection_ssid : str -> proc_result)
  : gset str :=
  if negb has_nmcli then ∅
  else
    match subprocess_run false connection_show with
    | inl _ => ∅                       (* [except Exception]: nothing added yet *)
    | inr (rc, out) =>
        if negb (rc =? 0) || negb (PyStr.truthy out) then ∅
        else
          let names := fold_left nmcli_wifi_names_line (PyStr.splitlines out) [] in
          fold_left
            (fun (ssids : gset str) name =>
               let ssid := run_cmd (connection_ssid name) in
               if PyStr.truthy ssid then {[ PyStr.strip ssid ]} ∪ ssids else ssids)
            names ∅
    end.

Section Scanners.

(** The builtin [int] on a string: [None] stands for [ValueError].  The
    development does not depend on which strings it accepts. *)
Variable py_int : str -> option Z.

Definition scan_nmcli_line (results : pydict str scan_info) (line : str)
  : pydict str scan_info :=
  if negb (PyStr.truthy line) then results
  else
    match PyStr.split PyStr.COLON line with
    | p0 :: p1 :: rest =>                     (* [len(parts) >= 2] *)
        let ssid := PyStr.strip p0 in
        if negb (PyStr.truthy ssid) then results
        else
          let signal := match py_int p1 with Some n => n | None => 0 end in
          let security := match rest with p2 :: _ => p2 | [] => [] end in
          keep_stronger results ssid
            {| info_signal := signal; info_security := security |}
    | _ => results
    end.

(** [scan_nmcli]: the outcome of the rescan is dropped, the listing is
    parsed. *)
Definition scan_nmcli (rescan wifi_list : proc_result) : pydict str scan_info :=
  let _ := run_cmd rescan in
  let out := run_cmd wifi_list in
  if negb (PyStr.truthy out) then []
  else fold_left scan_nmcli_line (PyStr.splitlines out) [].

Definition scan_wpa_cli_line (results : pydict str scan_info) (line : str)
  : pydict str scan_info :=
  match PyStr.split PyStr.TAB line with
  | _ :: _ :: p2 :: p3 :: p4 :: _ =>          (* [len(parts) >= 5] *)
      let level_dbm := match py_int p2 with Some n => n | None => -90 end in
      let flags := p3 in
      let ssid := PyStr.strip p4 in
      if negb (PyStr.truthy ssid) then results
      else
        let pct := dbm_to_percent (Some level_dbm) in
        let sec := flags in                   (* [flags or ""] *)
        keep_stronger results ssid {| info_signal := pct; info_security := sec |}
  | _ => results
  end.

(** The polling loop of [scan_wpa_cli] over the outcomes of the successive
    [scan_results] commands. *)
Fixpoint scan_wpa_cli_polls (polls : list proc_result)
    (results : pydict str scan_info) : pydict str scan_info :=
  match polls with
  | [] => results
  | p :: polls' =>
      let out := run_cmd p in
      if negb (PyStr.truthy out) then scan_wpa_cli_polls polls' results
      else
        let results' :=
          fold_left scan_wpa_cli_line (drop 1 (PyStr.splitlines out)) results in
        match results' with
        | [] => scan_wpa_cli_polls polls' results'
        | _ => results'                        (* [if results: break] *)
        end
  end.

Definition scan_wpa_cli (scan : proc_result) (scan_results : nat -> proc_result)
  : pydict str scan_info :=
  let _ := run_cmd scan in
  scan_wpa_cli_polls (scan_results <$> seq 0 4) [].

End Scanners.

(* ===================================================================== *)
(** * Sorting ([list.sort], [sorted]) *)
(* ===================================================================== *)

(** Python's sort is stable and compares with [<] only.  Given the order,
    the result of a stable sort is determined; it is computed here by
    insertion from the right. *)
Section PySort.
Context {A : Type} (lt : A -> A -> bool).

Fixpoint py_insert (x : A) (l : list A) : list A :=
  match l with
  | [] => [x]
  | y :: l' => if lt y x then y :: py_insert x l' else x :: l
  end.

Definition py_sort (l : list A) : list A := foldr py_insert [] l.
End PySort.

(* ===================================================================== *)
(** * Wi-Fi screen: [WifiScreen.refresh_networks] *)
(* ===================================================================== *)

(** An entry of [in_range]. *)
Record network_entry := {
  entry_ssid : str;
  entry_signal : Z;
  entry_security : str;
  entry_current : bool
}.

Record refresh_result := {
  in_range : list network_entry;
  out_of_range : list str
}.

(** [current_ssid = (STATE.client_ssid or "").strip()] *)
Definition refresh_current_ssid (client_ssid : str) : str :=
  PyStr.strip (if PyStr.truthy client_ssid then client_ssid else []).

(** [saved = {s.strip() for s in saved_wpa} | {s.strip() for s in saved_nm}] *)
Definition refresh_saved (saved_wpa saved_nm : gset str) : gset str :=
  set_map PyStr.strip saved_wpa ∪ set_map PyStr.strip saved_nm.

(** The inner loop of the merge, over the items of one scan. *)
Definition merge_src (merged src : pydict str scan_info) : pydict str scan_info :=
  fold_left (fun merged '(ssid, info) => keep_stronger merged ssid info) src merged.

(** The merge loop over [(nm, wp)]. *)
Definition refresh_merged (nm wp : pydict str scan_info) : pydict str scan_info :=
  fold_left merge_src [nm; wp] [].

Definition refresh_in_range_step (saved : gset str) (current_ssid : str)
    (acc : list network_entry) (item : str * scan_info) : list network_entry :=
  let '(ssid, info) := item in
  let s := if PyStr.truthy ssid then PyStr.strip ssid else [] in
  if PyStr.truthy s && bool_decide (s ∈ saved) then
    acc ++ [ {| entry_ssid := s;
                entry_signal := info_signal info;
                entry_security := info_security info;
                entry_current := bool_decide (s = current_ssid) |} ]
  else acc.

(** [in_range] as the loop over [merged.items()] leaves it, before the sort. *)
Definition refresh_in_range_unsorted (saved : gset str) (current_ssid : str)
    (merged : pydict str scan_info) : list network_entry :=
  fold_left (refresh_in_range_step saved current_ssid) merged [].

(** The sort key [(x["current"] is False, -x["signal"])]. *)
Definition in_range_key (x : network_entry) : bool * Z :=
  (negb (entry_current x), - entry_signal x).

(** [<] on such tuples: [False < True], then the integers. *)
Definition key_lt (a b : bool * Z) : bool :=
  match a.1, b.1 with
  | false, true => true
  | true, false => false
  | _, _ => a.2 <? b.2
  end.

Definition in_range_lt (x y : network_entry) : bool :=
  key_lt (in_range_key x) (in_range_key y).

(** The body of [_task] once the four backends have answered. *)
Definition refresh_reconcile (saved_wpa saved_nm : gset str)
    (nm wp : pydict str scan_info) (current_ssid : str) : refresh_result :=
  let saved := refresh_saved saved_wpa saved_nm in
  let merged := refresh_merged nm wp in
  let in_range := refresh_in_range_unsorted saved current_ssid merged in
  let in_range := py_sort in_range_lt in_range in
  let in_range_names : gset str := list_to_set (entry_ssid <$> in_range) in
  let out_of_range :=
    py_sort PyStr.ltb
      (elements ((saved ∖ in_range_names)
                 ∖ (if PyStr.truthy current_ssid then {[ current_ssid ]} else ∅))) in
  {| in_range := in_range; out_of_range := out_of_range |}.

(** Everything the refresh asks of the outside world. *)
Record wifi_env := {
  has_nmcli : bool;                                (* [has_cmd("nmcli")] *)
  wpa_list_networks : proc_result;
  nmcli_connection_show : proc_result;
  nmcli_connection_ssid : str -> proc_result;
  nmcli_rescan : proc_result;
  nmcli_wifi_list : proc_result;
  wpa_scan : proc_result;
  wpa_scan_results : nat -> proc_result            (* the n-th poll *)
}.

Section Refresh.
Variable py_int : str -> option Z.

Definition task_saved_wpa (w : wifi_env) : gset str :=
  (get_saved_networks_wpa_cli (wpa_list_networks w)).1.

Definition task_saved_nm (w : wifi_env) : gset str :=
  get_saved_networks_nmcli (has_nmcli w) (nmcli_connection_show w)
    (nmcli_connection_ssid w).

Definition task_nm (w : wifi_env) : pydict str scan_info :=
  if has_nmcli w then scan_nmcli py_int (nmcli_rescan w) (nmcli_wifi_list w)
  else [].

Definition task_wp (w : wifi_env) : pydict str scan_info :=
  scan_wpa_cli py_int (wpa_scan w) (wpa_scan_results w).

(** The saved set that [_task] works with. *)
Definition refresh_task_saved (w : wifi_env) : gset str :=
  refresh_saved (task_saved_wpa w) (task_saved_nm w).

(** [_task] of [refresh_networks]. *)
Definition refresh_task (w : wifi_env) (current_ssid : str) : refresh_result :=
  refresh_reconcile (task_saved_wpa w) (task_saved_nm w)
    (task_nm w) (task_wp w) current_ssid.

(** [in_range] of [_task] before it is sorted. *)
Definition refresh_task_unsorted (w : wifi_env) (current_ssid : str)
  : list network_entry :=
  refresh_in_range_unsorted (refresh_task_saved w) current_ssid
    (refresh_merged (task_nm w) (task_wp w)).

End Refresh.

(** ** Properties used in the statements about the refresh *)

(** A command failed: it timed out or exited with a status other than 0. *)
Definition proc_failed (p : proc_result) : Prop :=
  match p with
  | TimedOut => True
  | Exited rc _ => rc <> 0
  end.

(** The keys of a scan result: each is its own [strip], none occurs twice. *)
Definition stripped_keys (d : pydict str scan_info) : Prop :=
  PyDict.wf d /\ Forall (fun k => PyStr.strip k = k) (PyDict.keys d).

(** Every member is its own [strip]. *)
Definition stripped_set (X : gset str) : Prop :=
  forall x, x ∈ X -> PyStr.strip x = x.

(* ===================================================================== *)
(** * State store ([UiState]) *)
(* ===================================================================== *)

(** The properties of [UiState], in the order in which the class defines
    them. *)
Inductive field :=
| net_status | vpn_status | vpn_name | ap_status | cpu_temp | geoip | ap_ssid
| ip_address | connected_clients | uptime | hostname | client_ssid
| host_iface | ap_iface.

Global Instance field_eq_dec : EqDecision field.
Proof. solve_decision. Defined.

(** Position of a property in the class body. *)
Definition field_index (f : field) : nat :=
  match f with
  | net_status => 0 | vpn_status => 1 | vpn_name => 2 | ap_status => 3
  | cpu_temp => 4 | geoip => 5 | ap_ssid => 6 | ip_address => 7
  | connected_clients => 8 | uptime => 9 | hostname => 10 | client_ssid => 11
  | host_iface => 12 | ap_iface => 13
  end%nat.

(** A property value: a string ([StringProperty]) or a number
    ([NumericProperty]). *)
Inductive value :=
| VStr (s : str)
| VNum (q : Q).

(** [==] on values, by which a property decides whether it changed. *)
Definition value_eqb (a b : value) : bool :=
  match a, b with
  | VStr s, VStr t => bool_decide (s = t)
  | VNum x, VNum y => Qeq_bool x y
  | _, _ => false
  end.

(** The store: the value of each property. *)
Definition UiState := field -> value.

(** The defaults of the class body. *)
Definition UiState_defaults : UiState := fun f =>
  match f with
  | net_status => VStr (lit "INIT")
  | vpn_status => VStr (lit "OFF")
  | vpn_name => VStr (lit "None")
  | ap_status => VStr (lit "OFF")
  | cpu_temp => VNum 0
  | geoip => VStr (lit "Unknown")
  | ap_ssid => VStr (lit "N/A")
  | ip_address => VStr (lit "N/A")
  | connected_clients => VNum 0
  | uptime => VStr (lit "N/A")
  | hostname => VStr (lit "N/A")
  | client_ssid => VStr (lit "N/A")
  | host_iface => VStr (lit "wlan0")
  | ap_iface => VStr (lit "wlan1")
  end.

Definition store_set (st : UiState) (k : field) (v : value) : UiState :=
  fun f => if decide (f = k) then v else st f.

(** The string held by a property. *)
Definition store_str (st : UiState) (k : field) : str :=
  match st k with VStr s => s | VNum _ => [] end.

(** [setattr(self, k, v)] on a Kivy property: an equal value is dropped,
    another one is stored and dispatched to the observers of [k]. *)
Definition setattr (st : UiState) (k : field) (v : value)
  : UiState * list (field * value) :=
  if value_eqb (st k) v then (st, []) else (store_set st k v, [(k, v)]).

(** [apply_snapshot]: the store after the loop and the notifications it
    dispatched, in the order of dispatch. *)
Definition apply_snapshot (st : UiState) (snap : pydict field value)
  : UiState * list (field * value) :=
  fold_left
    (fun '(st, fired) '(k, v) =>
       let '(st', n) := setattr st k v in (st', fired ++ n))
    snap (st, []).

(** [s.replace(pat, "")]: the occurrences of [pat] are removed from left to
    right; [skip] counts the characters of an occurrence still to drop. *)
Fixpoint remove_all_from (pat : str) (skip : nat) (s : str) : str :=
  match s with
  | [] => []
  | c :: s' =>
      match skip with
      | S k => remove_all_from pat k s'
      | O =>
          if bool_decide (take (length pat) s = pat)
          then remove_all_from pat (length pat - 1) s'
          else c :: remove_all_from pat 0%nat s'
      end
  end.

Definition remove_all (pat s : str) : str :=
  match pat with [] => s | _ => remove_all_from pat 0%nat s end.

(** What one collection pass reads from the appliance. *)
Record probes := {
  probe_host_ip : option str;          (* [_get_ip(host_iface)] *)
  probe_iwgetid : proc_result;         (* [iwgetid <host_iface> -r] *)
  probe_hostapd : proc_result;         (* [systemctl is-active hostapd] *)
  probe_thermal : proc_result;         (* [cat .../thermal_zone0/temp] *)
  probe_hostname : proc_result;        (* [hostname] *)
  probe_uptime : proc_result;          (* [uptime -p] *)
  probe_clients : option (option nat); (* [raspap_api]: a dict with
                                          ["active_clients"], and its length
                                          when that is a list or a dict *)
  probe_hostapd_ssid : option str;     (* [_read_hostapd_cached()[0]] *)
  probe_ap_ip : option str;            (* [_get_ip(ap_iface)] *)
  probe_pgrep_openvpn : proc_result    (* [pgrep -x openvpn] *)
}.

(** [x or "N/A"] for an optional string. *)
Definition or_na (x : option str) : str :=
  match x with
  | Some s => if PyStr.truthy s then s else lit "N/A"
  | None => lit "N/A"
  end.

Section Collect.
Variable py_int : str -> option Z.

(** [collect_snapshot]: the dictionary [snap], key after key; [None] when
    [int(raw)] raises. *)
Definition collect_snapshot (st : UiState) (p : probes)
  : option (pydict field value) :=
  let snap : pydict field value := [] in
  let on := match probe_host_ip p with
            | Some ip => PyStr.truthy ip | None => false end in
  let snap := PyDict.setitem snap net_status
                (VStr (if on then lit "ON" else lit "OFF")) in
  let snap := PyDict.setitem snap client_ssid
                (VStr (if on then run_cmd (probe_iwgetid p)
                       else lit "Disconnected")) in
  let status := run_cmd (probe_hostapd p) in
  let snap := PyDict.setitem snap ap_status
                (VStr (if bool_decide (status = lit "active")
                       then lit "ON" else lit "OFF")) in
  let raw := run_cmd (probe_thermal p) in
  let snap_temp :=
    if PyStr.truthy raw then
      match py_int raw with
      | Some n => Some (PyDict.setitem snap cpu_temp (VNum (n # 1000)))
      | None => None
      end
    else Some snap in
  match snap_temp with
  | None => None
  | Some snap =>
      let snap := PyDict.setitem snap hostname
                    (VStr (or_na (Some (run_cmd (probe_hostname p))))) in
      let uptime_output := run_cmd (probe_uptime p) in
      let snap := PyDict.setitem snap uptime
                    (VStr (if PyStr.truthy uptime_output
                           then remove_all (lit "up ") uptime_output
                           else lit "N/A")) in
      let snap := PyDict.setitem snap connected_clients
                    (VNum (match probe_clients p with
                           | Some (Some n) => inject_Z (Z.of_nat n)
                           | _ => 0
                           end)) in
      let snap := PyDict.setitem snap ap_ssid
                    (VStr (or_na (probe_hostapd_ssid p))) in
      let snap := PyDict.setitem snap ip_address
                    (VStr (or_na (probe_ap_ip p))) in
      let pid := run_cmd (probe_pgrep_openvpn p) in
      let snap :=
        if PyStr.truthy pid then
          let snap := PyDict.setitem snap vpn_status (VStr (lit "ON")) in
          PyDict.setitem snap vpn_name
            (VStr (if bool_decide (store_str st vpn_name <> lit "None")
                   then store_str st vpn_name else lit "ON"))
        else
          let snap := PyDict.setitem snap vpn_status (VStr (lit "OFF")) in
          PyDict.setitem snap vpn_name (VStr (lit "None")) in
      Some snap
  end.
End Collect.

(** The keys of a snapshot in the order in which [collect_snapshot] writes
    them. *)
Definition snapshot_order : list field :=
  [net_status; client_ssid; ap_status; cpu_temp; hostname; uptime;
   connected_clients; ap_ssid; ip_address; vpn_status; vpn_name].

(** The claim that the notifications of one [apply_snapshot] come in the
    order in which the class defines the properties. *)
Definition notified_in_class_order (st : UiState) (snap : pydict field value)
  : Prop :=
  StronglySorted (fun a b => (field_index a < field_index b)%nat)
    (apply_snapshot st snap).2.*1.

(** An item of the snapshot whose value differs from the stored one. *)
Definition changes (st : UiState) (kv : field * value) : bool :=
  negb (value_eqb (st kv.1) kv.2).

(** The ASCII part of [int]: an optional sign and decimal digits, with
    white space around.  It is the [int] of the worked examples. *)
Fixpoint decimal_digits (acc : Z) (s : str) : option Z :=
  match s with
  | [] => Some acc
  | c :: s' =>
      if ((48 <=? c) && (c <=? 57))%N
      then decimal_digits (10 * acc + Z.of_N (c - 48)) s'
      else None
  end.

Definition decimal_int (s : str) : option Z :=
  match PyStr.strip s with
  | [] => None
  | 45%N :: ((_ :: _) as d) => Z.opp <$> decimal_digits 0 d
  | 43%N :: ((_ :: _) as d) => decimal_digits 0 d
  | d => decimal_digits 0 d
  end.

(* ===================================================================== *)
(** * Background jobs ([run_bg]) *)
(* ===================================================================== *)

Inductive thread_id := MainThread | WorkerThread (n : nat).

Section JobRunner.
(** [E]: the exceptions a body may raise (instances of [Exception]);
    [A]: what it may return. *)
Context {E A : Type}.

(** A call [run_bg(fn, on_done)]: the outcome of calling [fn], and whether
    a callback was given. *)
Record job := { job_fn : unit -> E + A; job_on_done : bool }.

(** [(result, err)] as [_worker] leaves them. *)
Definition completion_args (o : E + A) : option A * option E :=
  match o with
  | inr v => (Some v, None)
  | inl e => (None, Some e)
  end.

(** [_worker] up to the scheduling of [_after]: [inl] would be an
    exception that leaves the thread. *)
Definition worker (j : job) : E + (option A * option E) :=
  let result := None in
  let err := None in
  match job_fn j () with
  | inr v => inr (Some v, err)
  | inl e => inr (result, Some e)       (* [except Exception as e] *)
  end.

(** A closure [_after] waiting in the Clock. *)
Record after := {
  after_job : nat;
  after_args : option A * option E;
  after_on_done : bool
}.

(** One invocation of a callback [on_done]. *)
Record on_done_call := {
  call_thread : thread_id;
  call_job : nat;
  call_args : option A * option E
}.

Record runner := {
  submitted : list job;              (* the calls of [run_bg], in order *)
  threads : list (nat * job);        (* started threads that have not run *)
  clock : list after;                (* [Clock.schedule_once(_after, 0)] *)
  fired : list nat;                  (* the [_after] closures that ran *)
  calls : list on_done_call;
  unhandled : list (thread_id * E)   (* exceptions that ended a thread *)
}.

Definition runner_init : runner :=
  {| submitted := []; threads := []; clock := []; fired := []; calls := [];
     unhandled := [] |}.

(** [run_bg(fn, on_done)]: start the thread. *)
Definition run_bg (j : job) (r : runner) : runner :=
  {| submitted := submitted r ++ [j];
     threads := threads r ++ [(length (submitted r), j)];
     clock := clock r; fired := fired r; calls := calls r;
     unhandled := unhandled r |}.

(** The [i]-th waiting thread runs [_worker] to its end. *)
Definition run_worker (i : nat) (r : runner) : runner :=
  match threads r !! i with
  | None => r
  | Some (n, j) =>
      match worker j with
      | inr args =>
          {| submitted := submitted r; threads := delete i (threads r);
             clock := clock r ++ [ {| after_job := n; after_args := args;
                                      after_on_done := job_on_done j |} ];
             fired := fired r; calls := calls r; unhandled := unhandled r |}
      | inl e =>
          {| submitted := submitted r; threads := delete i (threads r);
             clock := clock r; fired := fired r; calls := calls r;
             unhandled := unhandled r ++ [(WorkerThread n, e)] |}
      end
  end.

(** [_after(dt)], run by the Clock on the main thread. *)
Definition run_after (a : after) : list on_done_call :=
  if after_on_done a then
    [ {| call_thread := MainThread; call_job := after_job a;
         call_args := after_args a |} ]
  else [].

(** One frame of the Clock: the scheduled closures run in order. *)
Definition clock_frame (r : runner) : runner :=
  {| submitted := submitted r; threads := threads r; clock := [];
     fired := fired r ++ (after_job <$> clock r);
     calls := calls r ++ (clock r ≫= run_after);
     unhandled := unhandled r |}.

Inductive runner_event :=
| Submit (j : job)
| RunWorker (i : nat)
| Frame.

Definition runner_step (r : runner) (ev : runner_event) : runner :=
  match ev with
  | Submit j => run_bg j r
  | RunWorker i => run_worker i r
  | Frame => clock_frame r
  end.

(** Any interleaving of submissions, worker threads and frames. *)
Definition runner_exec (evs : list runner_event) : runner :=
  fold_left runner_step evs runner_init.

(** The waiting threads run one after the other, then a frame passes. *)
Definition drain (r : runner) : list runner_event :=
  replicate (length (threads r)) (RunWorker 0) ++ [Frame].

(** The invocations of the callback of job [n]. *)
Definition calls_of (n : nat) (r : runner) : list on_done_call :=
  filter (fun c => call_job c = n) (calls r).

(** What the callback of job [n], if it has one, is to be called with. *)
Definition expected_calls (subm : list job) (n : nat) : list on_done_call :=
  match subm !! n with
  | Some j =>
      if job_on_done j then
        [ {| call_thread := MainThread; call_job := n;
             call_args := completion_args (job_fn j ()) |} ]
      else []
  | None => []
  end.

(** What holds of a runner whatever has happened so far. *)
Definition runner_inv (r : runner) : Prop :=
  (threads r).*1 ++ (after_job <$> clock r) ++ fired r
    ≡ₚ seq 0 (length (submitted r))
  /\ Forall (fun t => submitted r !! t.1 = Some t.2) (threads r)
  /\ Forall (fun a => exists j, submitted r !! after_job a = Some j
               /\ after_args a = completion_args (job_fn j ())
               /\ after_on_done a = job_on_done j) (clock r)
  /\ calls r = fired r ≫= expected_calls (submitted r)
  /\ unhandled r = [].
End JobRunner.

Arguments job : clear implicits.
Arguments runner : clear implicits.
Arguments runner_event : clear implicits.
Arguments after : clear implicits.
Arguments on_done_call : clear implicits.

(* ===================================================================== *)
(** * Connecting ([connect_wpa_cli], [connect_nmcli], [_connect_to]) *)
(* ===================================================================== *)

Inductive wpa_command :=
| ListNetworks
| SelectNetwork (nid : str)
| EnableNetwork (nid : str)
| SaveConfig.

(** What a connection attempt asks of the outside world. *)
Record connect_env := {
  conn_list_networks : proc_result;
  conn_select_network : str -> proc_result;      (* by network id *)
  conn_enable_network : str -> proc_result;
  conn_save_config : proc_result;
  conn_has_nmcli : bool;                         (* [has_cmd("nmcli")] *)
  conn_nmcli_connect : proc_result
}.

(** The search loop of [connect_wpa_cli]: the first field of the first line
    whose second field is [ssid]; [None] is the initial [nid = None]. *)
Fixpoint find_network_id (ssid : str) (lines : list str) : option str :=
  match lines with
  | [] => None
  | line :: lines' =>
      match PyStr.split PyStr.TAB line with
      | p0 :: p1 :: _ =>
          if bool_decide (p1 = ssid) then Some p0 else find_network_id ssid lines'
      | _ => find_network_id ssid lines'
      end
  end.

(** [connect_wpa_cli]: its result and the commands it ran. *)
Definition connect_wpa_cli (c : connect_env) (ssid : str) : bool * list wpa_command :=
  let out := run_cmd (conn_list_networks c) in
  if negb (PyStr.truthy out) then (false, [ListNetworks])
  else
    match find_network_id ssid (drop 1 (PyStr.splitlines out)) with
    | None => (false, [ListNetworks])
    | Some nid =>
        if negb (PyStr.truthy nid) then (false, [ListNetworks])
        else
          let _ := run_cmd (conn_select_network c nid) in
          let _ := run_cmd (conn_enable_network c nid) in
          let _ := run_cmd (conn_save_config c) in
          (true, [ListNetworks; SelectNetwork nid; EnableNetwork nid; SaveConfig])
    end.

(** [connect_nmcli]: [subprocess.run] without [check]; its timeout is not
    caught here. *)
Definition connect_nmcli (p : proc_result) : subprocess_error + bool :=
  match subprocess_run false p with
  | inl e => inl e
  | inr (rc, _) => if negb (rc =? 0) then inr false else inr true
  end.

(** The exceptions met in the bodies of the Wi-Fi jobs. *)
Inductive py_exn :=
| SubprocessError (e : subprocess_error)
| RuntimeError (msg : str).

Inductive backend := WpaCli | Nmcli.

Inductive attempt_result :=
| Returned (ok : bool)
| Raised (e : py_exn).

Definition attempt_ok (r : attempt_result) : bool :=
  match r with Returned ok => ok | Raised _ => false end.

(** [_task] of [_connect_to]: how it ends, and the backends it tried with
    what each answered. *)
Definition connect_to_task (c : connect_env) (ssid : str)
  : (py_exn + bool) * list (backend * attempt_result) :=
  let ok := (connect_wpa_cli c ssid).1 in
  let tried := [(WpaCli, Returned ok)] in
  if negb ok && conn_has_nmcli c then
    match connect_nmcli (conn_nmcli_connect c) with
    | inl e => (inl (SubprocessError e), tried ++ [(Nmcli, Raised (SubprocessError e))])
    | inr ok =>
        let tried := tried ++ [(Nmcli, Returned ok)] in
        if negb ok then (inl (RuntimeError (lit "Failed to connect")), tried)
        else (inr true, tried)
    end
  else
    if negb ok then (inl (RuntimeError (lit "Failed to connect")), tried)
    else (inr true, tried).

(** What a callback on the main thread asks of the rest of the program.
    Delays are in milliseconds. *)
Inductive ui_effect :=
| ShowMessage (title message : str) (is_error : bool)
| UpdateAsync                                (* [STATE.update_async()] *)
| ScheduleGeoip (delay_ms : Z)               (* [Clock.schedule_once(...)] *)
| SetScreen (name : str).                    (* [self.manager.current = ...] *)

Record ui := {
  ui_busy : busy_state;
  ui_connecting : bool;                      (* [self._connecting] *)
  ui_manager : bool;                         (* [self.manager] is set *)
  ui_STATE : UiState;
  ui_effects : list ui_effect
}.

(** The title [Wi-Fi], written with a non-breaking hyphen. *)
Definition wifi_title : str := lit "Wi" ++ [8209%N] ++ lit "Fi".

(** [_connect_to] up to [run_bg]; [None] when an attempt is in flight. *)
Definition connect_to_begin (u : ui) : option ui :=
  if ui_connecting u then None
  else Some {| ui_busy := (show_busy_indicator (ui_busy u)).1;
               ui_connecting := true;
               ui_manager := ui_manager u;
               ui_STATE := ui_STATE u;
               ui_effects := ui_effects u |}.

(** [_done(result, err)] of [_connect_to]. *)
Definition connect_to_done (ssid : str) (args : option bool * option py_exn)
    (u : ui) : ui :=
  let busy := (hide_busy_indicator (ui_busy u)).1 in
  let effects :=
    match args.2 with
    | Some _ =>
        [ShowMessage wifi_title
           (lit "Failed to connect to:" ++ [PyStr.LF] ++ ssid) true]
    | None =>
        [UpdateAsync; ScheduleGeoip 1000]
          ++ (if ui_manager u then [SetScreen (lit "main")] else [])
    end in
  {| ui_busy := busy; ui_connecting := false; ui_manager := ui_manager u;
     ui_STATE := ui_STATE u; ui_effects := ui_effects u ++ effects |}.

(** A whole attempt: the guard, the job and its callback. *)
Definition connect_to (c : connect_env) (ssid : str) (u : ui)
  : ui * list (backend * attempt_result) :=
  match connect_to_begin u with
  | None => (u, [])
  | Some u1 =>
      let '(outcome, tried) := connect_to_task c ssid in
      (connect_to_done ssid (completion_args outcome) u1, tried)
  end.

(** The attempt succeeded: the job returned and the callback got no error. *)
Definition connect_succeeded (c : connect_env) (ssid : str) : Prop :=
  (completion_args (connect_to_task c ssid).1).2 = None.

(** A line of the [list_networks] table whose SSID field is [ssid]. *)
Definition row_for (ssid : str) (line : str) : Prop :=
  exists nid rest, PyStr.split PyStr.TAB line = nid :: ssid :: rest.

(** The claim that [connect_wpa_cli] succeeds exactly when the output is
    not empty and has, after the header, a row for [ssid]. *)
Definition succeeds_iff_row (c : connect_env) (ssid : str) : Prop :=
  let out := run_cmd (conn_list_networks c) in
  (connect_wpa_cli c ssid).1 = true
  <-> out <> [] /\ exists line, line ∈ drop 1 (PyStr.splitlines out) /\ row_for ssid line.

(* ===================================================================== *)
(** * Debounced GeoIP trigger ([_trigger_geoip_soon]) *)
(* ===================================================================== *)

(** Times and delays are in milliseconds. *)
Record clock_event := { ev_id : nat; ev_due : Z }.

Record geoip_app := {
  geoip_pending : option nat;     (* [self._geoip_pending], a timer handle *)
  timers : list clock_event;      (* one-shot timers of the Clock still armed *)
  next_id : nat;
  lookups : list Z                (* when a timer called
                                     [STATE.update_geoip_async()] *)
}.

Definition geoip_init : geoip_app :=
  {| geoip_pending := None; timers := []; next_id := 0; lookups := [] |}.

(** [event.cancel()]: no effect on a timer that fired or was cancelled. *)
Definition cancel (id : nat) (ts : list clock_event) : list clock_event :=
  filter (fun e => ev_id e <> id) ts.

(** [_trigger_geoip_soon(delay)] called at time [now]. *)
Definition trigger_geoip_soon (delay now : Z) (a : geoip_app) : geoip_app :=
  let ts := match geoip_pending a with
            | Some id => cancel id (timers a)
            | None => timers a
            end in
  {| geoip_pending := Some (next_id a);
     timers := ts ++ [ {| ev_id := next_id a; ev_due := now + delay |} ];
     next_id := S (next_id a);
     lookups := lookups a |}.

(** A frame of the Clock at time [now]: the timers that are due fire. *)
Definition clock_tick (now : Z) (a : geoip_app) : geoip_app :=
  {| geoip_pending := geoip_pending a;
     timers := filter (fun e => now < ev_due e) (timers a);
     next_id := next_id a;
     lookups := lookups a
                ++ ((fun _ => now) <$> filter (fun e => ev_due e <= now) (timers a)) |}.

Inductive timeline_event :=
| Trigger (t : Z)        (* a bound property changed: [_trig] *)
| Tick (t : Z).          (* a frame of the Clock *)

Definition event_time (ev : timeline_event) : Z :=
  match ev with Trigger t => t | Tick t => t end.

Definition trigger_times (evs : list timeline_event) : list Z :=
  omap (fun ev => match ev with Trigger t => Some t | Tick _ => None end) evs.

Definition geoip_step (delay : Z) (a : geoip_app) (ev : timeline_event) : geoip_app :=
  match ev with
  | Trigger t => trigger_geoip_soon delay t a
  | Tick t => clock_tick t a
  end.

Definition geoip_run (delay : Z) (evs : list timeline_event) : geoip_app :=
  fold_left (geoip_step delay) evs geoip_init.

(** Each trigger comes less than [delay] after the one before. *)
Fixpoint within_window (delay : Z) (ts : list Z) : Prop :=
  match ts with
  | t :: ((t' :: _) as rest) => t' < t + delay /\ within_window delay rest
  | _ => True
  end.

(** The handle points to the only armed timer, which is due at [due], and
    nothing was looked up yet. *)
Definition armed (due : Z) (a : geoip_app) : Prop :=
  exists id, geoip_pending a = Some id
             /\ timers a = [ {| ev_id := id; ev_due := due |} ]
             /\ lookups a = [].

(** Nothing is scheduled and nothing was looked up yet. *)
Definition idle (a : geoip_app) : Prop :=
  geoip_pending a = None /\ timers a = [] /\ lookups a = [].

(** The first frame, if any, at which a timer due at [due] fires. *)
Definition first_frame_from (due : Z) (evs : list timeline_event) : option Z :=
  snd <$> list_find (fun t => due <= t) (event_time <$> evs).

(* ===================================================================== *)
(** * Worked inputs *)
(* ===================================================================== *)

(** Lines joined by line feeds, fields joined by tabs. *)
Definition unlines (ls : list str) : str :=
  match ls with
  | [] => []
  | l :: ls' => foldl (fun acc x => acc ++ [PyStr.LF] ++ x) l ls'
  end.

Definition tabbed (fs : list str) : str :=
  match fs with
  | [] => []
  | f :: fs' => foldl (fun acc x => acc ++ [PyStr.TAB] ++ x) f fs'
  end.

(** A [list_networks] table whose only row has the SSID [Home] and an empty
    network id. *)
Definition env_row_without_id : connect_env :=
  {| conn_list_networks :=
       Exited 0 (unlines [lit "network id / ssid / bssid / flags";
                          tabbed [lit ""; lit "Home"; lit "any"; lit "[DISABLED]"]]);
     conn_select_network := fun _ => Exited 0 (lit "OK");
     conn_enable_network := fun _ => Exited 0 (lit "OK");
     conn_save_config := Exited 0 (lit "OK");
     conn_has_nmcli := false;
     conn_nmcli_connect := TimedOut |}.

(** Two scans that both saw [Home]. *)
Definition nm_example : pydict str scan_info :=
  [ (lit "Home", {| info_signal := 80; info_security := lit "WPA2" |});
    (lit "Cafe", {| info_signal := 60; info_security := lit "" |}) ].

Definition wp_example : pydict str scan_info :=
  [ (lit "Office", {| info_signal := 90; info_security := lit "[WPA2-PSK-CCMP][ESS]" |});
    (lit "Home", {| info_signal := 60; info_security := lit "[WPA2-PSK-CCMP][ESS]" |}) ].

(** The scenario of the specification: [Home] and [Office] are saved,
    [Home] and [Cafe] are in range. *)
Definition wifi_env_example : wifi_env :=
  {| has_nmcli := true;
     wpa_list_networks :=
       Exited 0 (unlines [lit "network id / ssid / bssid / flags";
                          tabbed [lit "0"; lit "Home"; lit "any"; lit "[CURRENT]"];
                          tabbed [lit "1"; lit "Office"; lit "any"; lit "[DISABLED]"]]);
     nmcli_connection_show :=
       Exited 0 (unlines [lit "Home:802-11-wireless"; lit "Wired:802-3-ethernet"]);
     nmcli_connection_ssid := fun _ => Exited 0 (lit "Home");
     nmcli_rescan := Exited 0 [];
     nmcli_wifi_list := Exited 0 (unlines [lit "Home:80:WPA2"; lit "Cafe:60:WPA2"]);
     wpa_scan := Exited 0 (lit "OK");
     wpa_scan_results := fun _ => TimedOut |}.

(** Every tool fails. *)
Definition wifi_env_down : wifi_env :=
  {| has_nmcli := false;
     wpa_list_networks := TimedOut;
     nmcli_connection_show := TimedOut;
     nmcli_connection_ssid := fun _ => TimedOut;
     nmcli_rescan := TimedOut;
     nmcli_wifi_list := TimedOut;
     wpa_scan := Exited 1 [];
     wpa_scan_results := fun _ => Exited 1 [] |}.

(** wpa_cli does not know [Office]; nmcli connects to it. *)
Definition connect_env_fallback : connect_env :=
  {| conn_list_networks :=
       Exited 0 (unlines [lit "network id / ssid / bssid / flags";
                          tabbed [lit "0"; lit "Home"; lit "any"; lit "[CURRENT]"]]);
     conn_select_network := fun _ => Exited 0 (lit "OK");
     conn_enable_network := fun _ => Exited 0 (lit "OK");
     conn_save_config := Exited 0 (lit "OK");
     conn_has_nmcli := true;
     conn_nmcli_connect := Exited 0 (lit "Device 'wlan0' successfully activated.") |}.

(** The Wi-Fi screen at rest. *)
Definition ui_idle : ui :=
  {| ui_busy := busy_init; ui_connecting := false; ui_manager := true;
     ui_STATE := UiState_defaults; ui_effects := [] |}.

(** A collection pass on an appliance that is up. *)
Definition probes_example : probes :=
  {| probe_host_ip := Some (lit "192.168.1.20");
     probe_iwgetid := Exited 0 (lit "Home");
     probe_hostapd := Exited 0 (lit "active");
     probe_thermal := Exited 0 (lit "48312");
     probe_hostname := Exited 0 (lit "raspap");
     probe_uptime := Exited 0 (lit "up 3 hours, 2 minutes");
     probe_clients := Some (Some 2%nat);
     probe_hostapd_ssid := Some (lit "RaspAP");
     probe_ap_ip := Some (lit "10.3.141.1");
     probe_pgrep_openvpn := Exited 1 [] |}.

Definition snapshot_example : pydict field value :=
  [ (net_status, VStr (lit "ON"));
    (client_ssid, VStr (lit "Home"));
    (ap_status, VStr (lit "ON"));
    (cpu_temp, VNum (48312 # 1000));
    (hostname, VStr (lit "raspap"));
    (uptime, VStr (lit "3 hours, 2 minutes"));
    (connected_clients, VNum 2);
    (ap_ssid, VStr (lit "RaspAP"));
    (ip_address, VStr (lit "10.3.141.1"));
    (vpn_status, VStr (lit "OFF"));
    (vpn_name, VStr (lit "None")) ].

(** Three changes 100 ms apart, with frames of the Clock around them. *)
Definition burst_example : list timeline_event :=
  [Trigger 0; Tick 16; Trigger 100; Tick 150].

Definition after_burst_example : list timeline_event :=
  [Tick 216; Tick 699; Tick 700; Tick 716; Tick 1500].

(* ===================================================================== *)
(** * Scanners, line by line *)
(* ===================================================================== *)

(** What the loops of the two scanners do with one line is to read an
    SSID and an entry off it, or nothing, and to offer the entry to
    [keep_stronger]. *)
Section Readings.
Variable py_int : str -> option Z.

(** The reading of one line of [nmcli ... device wifi list]. *)
Definition scan_nmcli_reading (line : str) : option (str * scan_info) :=
  if negb (PyStr.truthy line) then None
  else
    match PyStr.split PyStr.COLON line with
    | p0 :: p1 :: rest =>
        let ssid := PyStr.strip p0 in
        if negb (PyStr.truthy ssid) then None
        else
          Some (ssid,
                {| info_signal := match py_int p1 with Some n => n | None => 0 end;
                   info_security := match rest with p2 :: _ => p2 | [] => [] end |})
    | _ => None
    end.

(** The reading of one line of [wpa_cli scan_results]. *)
Definition scan_wpa_cli_reading (line : str) : option (str * scan_info) :=
  match PyStr.split PyStr.TAB line with
  | _ :: _ :: p2 :: p3 :: p4 :: _ =>
      let ssid := PyStr.strip p4 in
      if negb (PyStr.truthy ssid) then None
      else
        Some (ssid,
              {| info_signal :=
                   dbm_to_percent
                     (Some (match py_int p2 with Some n => n | None => -90 end));
                 info_security := p3 |})
  | _ => None
  end.

(** What one poll of [scan_results] yields when it starts from an empty
    dictionary. *)
Definition scan_wpa_cli_poll (p : proc_result) : pydict str scan_info :=
  let out := run_cmd p in
  if negb (PyStr.truthy out) then []
  else fold_left (scan_wpa_cli_line py_int) (drop 1 (PyStr.splitlines out)) [].
End Readings.

(** Offering a list of readings in turn. *)
Definition keep_readings (d : pydict str scan_info)
    (rs : list (option (str * scan_info))) : pydict str scan_info :=
  fold_left
    (fun d r => match r with Some (k, i) => keep_stronger d k i | None => d end)
    rs d.

(** A usable scan entry: a name that is not empty and is its own [strip],
    with a signal in percent. *)
Definition percent_entry (kv : str * scan_info) : Prop :=
  kv.1 <> [] /\ PyStr.strip kv.1 = kv.1 /\ 0 <= info_signal kv.2 <= 100.

(** The reading of one row of [wpa_cli list_networks]: the stripped SSID
    and the network id, when the row has both fields and the SSID field is
    not empty. *)
Definition saved_row_reading (line : str) : option (str * str) :=
  match PyStr.split PyStr.TAB line with
  | nid :: ssid :: _ =>
      if PyStr.truthy ssid then Some (PyStr.strip ssid, nid) else None
  | _ => None
  end.

(** The rows of a table: the lines of the output after the header. *)
Definition table_rows (p : proc_result) : list str :=
  drop 1 (PyStr.splitlines (run_cmd p)).

(** A table as [wpa_cli] prints it: in every row with two fields or more
    the network id is not empty and the SSID has no white space at its
    ends. *)
Definition clean_rows (rows : list str) : Prop :=
  Forall (fun line => forall nid ssid rest,
            PyStr.split PyStr.TAB line = nid :: ssid :: rest ->
            nid <> [] /\ PyStr.strip ssid = ssid) rows.

(** The operations in flight as a count of the calls: shows less hides. *)
Definition busy_balance (calls : list busy_call) : Z :=
  foldr (fun c n => match c with Enter => 1 | Exit => -1 end + n) 0 calls.

(** The entry that the refresh makes of a scanned network. *)
Definition entry_of (current_ssid : str) (ssid : str) (info : scan_info)
  : network_entry :=
  {| entry_ssid := ssid;
     entry_signal := info_signal info;
     entry_security := info_security info;
     entry_current := bool_decide (ssid = current_ssid) |}.

(** At most one timer is armed, and it is the one that the handle names. *)
Definition one_timer (a : geoip_app) : Prop :=
  timers a = []
  \/ exists id due, geoip_pending a = Some id
                    /\ timers a = [ {| ev_id := id; ev_due := due |} ].


(** * GeoIP triggers ([_bind_geoip_triggers]) *)

(** The properties of the store to which [_trig] is bound. *)
Definition geoip_bound (f : field) : bool :=
  match f with
  | net_status | client_ssid | vpn_status | vpn_name => true
  | _ => false
  end.

(** The delay that [_trig] asks for: 0.5 s. *)
Definition TRIG_DELAY : Z := 500.

(** The observers of one notification: [_trig] when the property is bound. *)
Definition dispatch_geoip (now : Z) (a : geoip_app) (kv : field * value)
  : geoip_app :=
  if geoip_bound kv.1 then trigger_geoip_soon TRIG_DELAY now a else a.

(** [apply_snapshot] in the running application, at time [now]: the store,
    and the timers after the notifications reached [_trig].  [_trig] does
    not read or write the store. *)
Definition apply_snapshot_app (now : Z) (st : UiState)
    (snap : pydict field value) (a : geoip_app) : UiState * geoip_app :=
  ((apply_snapshot st snap).1,
   fold_left (dispatch_geoip now) (apply_snapshot st snap).2 a).


(* ===================================================================== *)
(** * Access point configuration ([parse_hostapd_conf],
      [_read_hostapd_cached], [_determine_interfaces]) *)
(* ===================================================================== *)

(** [s.startswith(pre)] *)
Definition startswith (pre s : str) : bool :=
  bool_decide (take (length pre) s = pre).

(** [s.split("=", 1)[1]]: the text after the first [=].  [None] is the
    [IndexError] of a string without one. *)
Definition after_equals (s : str) : option str :=
  match PyStr.partition 61 s with
  | (_, [], _) => None
  | (_, _, rest) => Some rest
  end.

(** The loop of [parse_hostapd_conf] over the lines that the file yields.
    An exception ends the loop, and what was read so far is returned. *)
Fixpoint parse_hostapd_conf_lines (lines : list str)
    (ssid iface : option str) : option str * option str :=
  match lines with
  | [] => (ssid, iface)
  | line :: lines' =>
      let line := PyStr.strip line in
      if startswith (lit "ssid=") line then
        match after_equals line with
        | Some v => parse_hostapd_conf_lines lines' (Some v) iface
        | None => (ssid, iface)
        end
      else if startswith (lit "interface=") line then
        match after_equals line with
        | Some v => parse_hostapd_conf_lines lines' ssid (Some v)
        | None => (ssid, iface)
        end
      else parse_hostapd_conf_lines lines' ssid iface
  end.

(** [parse_hostapd_conf]: [conf] is what opening [hostapd.conf] gives, its
    lines, or [None] when it cannot be opened. *)
Definition parse_hostapd_conf (conf : option (list str))
  : option str * option str :=
  match conf with
  | None => (None, None)
  | Some lines => parse_hostapd_conf_lines lines None None
  end.

(** [hostapd.conf] as [_read_hostapd_cached] meets it: absent, or with a
    modification time and what opening it gives. *)
Inductive conf_file :=
| Missing
| Present (mtime : Q) (conf : option (list str)).

(** [self._hostapd_cache] *)
Record hostapd_cache := {
  cache_mtime : Q;
  cache_ssid : option str;
  cache_iface : option str
}.

Definition hostapd_cache_init : hostapd_cache :=
  {| cache_mtime := 0; cache_ssid := None; cache_iface := None |}.

(** [_read_hostapd_cached]: the pair it returns and the cache afterwards. *)
Definition read_hostapd_cached (c : hostapd_cache) (f : conf_file)
  : (option str * option str) * hostapd_cache :=
  match f with
  | Missing => ((None, None), c)
  | Present mtime conf =>
      if Qle_bool mtime (cache_mtime c)
      then ((cache_ssid c, cache_iface c), c)
      else
        let '(ssid, iface) := parse_hostapd_conf conf in
        ((ssid, iface),
         {| cache_mtime := mtime; cache_ssid := ssid; cache_iface := iface |})
  end.

(** [_determine_interfaces] *)
Definition determine_interfaces (st : UiState) (c : hostapd_cache)
    (f : conf_file) : UiState * hostapd_cache :=
  let '((_, ap_interface), c') := read_hostapd_cached c f in
  match ap_interface with
  | Some ap =>
      if bool_decide (ap = lit "wlan0") || bool_decide (ap = lit "wlan1") then
        let st := (setattr st ap_iface (VStr ap)).1 in
        let st := (setattr st host_iface
                     (VStr (if bool_decide (ap = lit "wlan0")
                            then lit "wlan1" else lit "wlan0"))).1 in
        (st, c')
      else (st, c')
  | None => (st, c')
  end.

(** [UiState.__init__]: the defaults of the class, an empty cache, and the
    interfaces as [hostapd.conf] has them. *)
Definition UiState_init (f : conf_file) : UiState * hostapd_cache :=
  determine_interfaces UiState_defaults hostapd_cache_init f.

(** The value that a line gives to [key], as read by [parse_hostapd_conf]:
    what follows the key in the stripped line. *)
Definition conf_value (key : str) (line : str) : option str :=
  let s := PyStr.strip line in
  if startswith key s then Some (drop (length key) s) else None.

(** A configuration of an access point on [wlan0]. *)
Definition hostapd_conf_example : conf_file :=
  Present 1700000000
    (Some [ lit "# access point" ++ [PyStr.LF];
            lit "interface=wlan0" ++ [PyStr.LF];
            lit "ssid=RaspAP" ++ [PyStr.LF];
            lit "wpa_passphrase=a=b" ++ [PyStr.LF];
            lit "  ssid=Rasp=AP 2  " ++ [PyStr.LF] ]).


(* ===================================================================== *)
(** * Disconnecting ([disconnect_client_wifi]) *)
(* ===================================================================== *)

(** The commands that [disconnect_client_wifi] runs. *)
Inductive disconnect_command :=
| NmDeviceDisconnect                 (* [sudo nmcli device disconnect iface] *)
| WpaDisconnect                      (* [wpa_cli ... disconnect] *)
| WpaListNetworks                    (* [wpa_cli ... list_networks] *)
| WpaDisableNetwork (nid : str)      (* [wpa_cli ... disable_network nid] *)
| WpaSaveConfig                      (* [wpa_cli ... save_config] *)
| IpAddrFlush.                       (* [sudo ip addr flush dev iface] *)

Section Disconnect.
(** The builtin [str.isdigit]. *)
Variable py_isdigit : str -> bool.

(** One row of the table: [if parts and parts[0].isdigit()]. *)
Definition disconnect_row (line : str) : list disconnect_command :=
  match PyStr.split PyStr.TAB line with
  | p0 :: _ => if py_isdigit p0 then [WpaDisableNetwork p0] else []
  | [] => []
  end.

(** [disconnect_client_wifi]: the commands it runs, in order.  Of their
    outcomes only the output of [list_networks] is looked at; a timeout of
    [nmcli] is caught. *)
Definition disconnect_client_wifi (has_nmcli : bool) (list_networks : proc_result)
  : list disconnect_command :=
  (if has_nmcli then [NmDeviceDisconnect]
   else
     let out := run_cmd list_networks in
     [WpaDisconnect; WpaListNetworks]
       ++ (if PyStr.truthy out
           then mjoin (disconnect_row <$> drop 1 (PyStr.splitlines out))
           else [])
       ++ [WpaSaveConfig])
  ++ [IpAddrFlush].
End Disconnect.

(* ===================================================================== *)
(** * Toast messages ([show_message]) *)
(* ===================================================================== *)

(** Overlays are told apart by a number, as Python tells them apart by
    identity.  A timer of the Clock holds the overlay that its [_dismiss]
    closes over.  Times are in milliseconds. *)
Record toast_state := {
  TOAST_OVERLAY : option nat;
  toast_window : list nat;            (* the toasts among [Window.children] *)
  toast_next : nat;
  toast_timers : list clock_event     (* [ev_id] is the overlay to dismiss *)
}.

Definition toast_init : toast_state :=
  {| TOAST_OVERLAY := None; toast_window := []; toast_next := 0;
     toast_timers := [] |}.

(** [Window.remove_widget(o)]: nothing happens when [o] is not a child. *)
Definition remove_widget (o : nat) (children : list nat) : list nat :=
  filter (fun c => c <> o) children.

(** [show_message(..., duration)] called at time [now]. *)
Definition show_message (now duration : Z) (s : toast_state) : toast_state :=
  let window := match TOAST_OVERLAY s with
                | Some o => remove_widget o (toast_window s)
                | None => toast_window s
                end in
  let overlay := toast_next s in
  {| TOAST_OVERLAY := Some overlay;
     toast_window := overlay :: window;
     toast_next := S overlay;
     toast_timers := toast_timers s
                     ++ [ {| ev_id := overlay; ev_due := now + duration |} ] |}.

(** [_dismiss(dt)] of the toast [overlay]. *)
Definition toast_dismiss (s : toast_state) (overlay : nat) : toast_state :=
  {| TOAST_OVERLAY := if bool_decide (TOAST_OVERLAY s = Some overlay)
                      then None else TOAST_OVERLAY s;
     toast_window := remove_widget overlay (toast_window s);
     toast_next := toast_next s;
     toast_timers := toast_timers s |}.

(** A frame of the Clock at time [now]: the dismissals that are due run,
    in the order in which they were scheduled. *)
Definition toast_frame (now : Z) (s : toast_state) : toast_state :=
  fold_left toast_dismiss
    (ev_id <$> filter (fun e => ev_due e <= now) (toast_timers s))
    {| TOAST_OVERLAY := TOAST_OVERLAY s;
       toast_window := toast_window s;
       toast_next := toast_next s;
       toast_timers := filter (fun e => now < ev_due e) (toast_timers s) |}.

Inductive toast_event :=
| Toast (t duration : Z)       (* a call of [show_message] at time [t] *)
| Redraw (t : Z).              (* a frame of the Clock *)

Definition toast_step (s : toast_state) (ev : toast_event) : toast_state :=
  match ev with
  | Toast t d => show_message t d s
  | Redraw t => toast_frame t s
  end.

Definition toast_run (evs : list toast_event) : toast_state :=
  fold_left toast_step evs toast_init.

(** The toast on screen is the one that [TOAST_OVERLAY] names; the timers
    are those of overlays made so far. *)
Definition toast_inv (s : toast_state) : Prop :=
  toast_window s = option_list (TOAST_OVERLAY s)
  /\ (forall o, TOAST_OVERLAY s = Some o -> (o < toast_next s)%nat)
  /\ Forall (fun e => (ev_id e < toast_next s)%nat) (toast_timers s).

(* ===================================================================== *)
(** * Polling ([StatePoller]) *)
(* ===================================================================== *)

(** [int(x)] of a number: the fraction is dropped. *)
Definition int_of_number (x : Q) : Z := Z.quot (Qnum x) (Zpos (Qden x)).

(** A poller and the interval timers that it has on the Clock, each with
    its period in seconds. *)
Record poller := {
  poll_interval : Z;                    (* [self.interval] *)
  poll_event : option nat;              (* [self._event] *)
  poll_clock : list (nat * Z);
  poll_next : nat
}.

(** [StatePoller(interval_sec, state)] *)
Definition StatePoller (interval_sec : Q) : poller :=
  {| poll_interval := Z.max 1 (int_of_number interval_sec);
     poll_event := None; poll_clock := []; poll_next := 0 |}.

Definition poller_start (p : poller) : poller :=
  match poll_event p with
  | Some _ => p
  | None =>
      {| poll_interval := poll_interval p;
         poll_event := Some (poll_next p);
         poll_clock := poll_clock p ++ [(poll_next p, poll_interval p)];
         poll_next := S (poll_next p) |}
  end.

Definition poller_stop (p : poller) : poller :=
  match poll_event p with
  | Some ev =>
      {| poll_interval := poll_interval p;
         poll_event := None;
         poll_clock := filter (fun e => e.1 <> ev) (poll_clock p);
         poll_next := poll_next p |}
  | None => p
  end.

Inductive poller_call := Start | Stop.

Definition poller_step (p : poller) (c : poller_call) : poller :=
  match c with Start => poller_start p | Stop => poller_stop p end.

Definition poller_run (interval_sec : Q) (calls : list poller_call) : poller :=
  fold_left poller_step calls (StatePoller interval_sec).


(* ===================================================================== *)
(** * Wi-Fi screen ([WifiScreen]) *)
(* ===================================================================== *)

(** A row of [self.list_grid].  A network button is disabled for the
    current network and starts [_connect_to(ssid)] for any other; a button
    of a network out of range is disabled. *)
Inductive grid_row :=
| InfoRow (text : str)
| ScanFailedRow (err : py_exn)            (* [f"Scan failed: {err}"] *)
| NetworkButton (ssid : str) (signal : Z) (secure current : bool)
| OutOfRangeButton (ssid : str).

(** The SSID that pressing a row connects to. *)
Definition row_connects (r : grid_row) : option str :=
  match r with
  | NetworkButton ssid _ _ false => Some ssid
  | _ => None
  end.

(** The SSID that a row shows. *)
Definition row_ssid (r : grid_row) : option str :=
  match r with
  | NetworkButton ssid _ _ _ => Some ssid
  | OutOfRangeButton ssid => Some ssid
  | _ => None
  end.

(** [pat in s] *)
Fixpoint contains (pat s : str) : bool :=
  startswith pat s
  || match s with [] => false | _ :: s' => contains pat s' end.

(** [any(k in sec for k in ("WPA", "WEP", "SAE"))] *)
Definition is_secure (sec : str) : bool :=
  contains (lit "WPA") sec || contains (lit "WEP") sec || contains (lit "SAE") sec.

Definition network_button (item : network_entry) : grid_row :=
  NetworkButton (entry_ssid item) (entry_signal item)
    (is_secure (entry_security item)) (entry_current item).

(** The rows that [_done(result, err)] of [refresh_networks] puts in the
    grid, from top to bottom. *)
Definition refresh_rows (result : option refresh_result) (err : option py_exn)
  : list grid_row :=
  match err, result with
  | Some e, _ => [ScanFailedRow e]
  | None, None => [InfoRow (lit "No saved networks found.")]
  | None, Some r =>
      match in_range r, out_of_range r with
      | [], [] => [InfoRow (lit "No saved networks found in range.")]
      | items, out =>
          (network_button <$> items)
            ++ match out with
               | [] => []
               | _ => InfoRow (lit "Saved (out of range):")
                        :: (OutOfRangeButton <$> out)
               end
      end
  end.

(** The screen: what [ui] holds, and the rows of the grid. *)
Record wifi_screen := { ws_ui : ui; ws_grid : list grid_row }.

Definition with_busy (b : busy_state) (u : ui) : ui :=
  {| ui_busy := b; ui_connecting := ui_connecting u;
     ui_manager := ui_manager u; ui_STATE := ui_STATE u;
     ui_effects := ui_effects u |}.

Definition with_effects (es : list ui_effect) (u : ui) : ui :=
  {| ui_busy := ui_busy u; ui_connecting := ui_connecting u;
     ui_manager := ui_manager u; ui_STATE := ui_STATE u;
     ui_effects := ui_effects u ++ es |}.

(** [refresh_networks] up to [run_bg]; [None] while connecting. *)
Definition refresh_networks_begin (s : wifi_screen) : option wifi_screen :=
  if ui_connecting (ws_ui s) then None
  else Some {| ws_ui := with_busy (show_busy_indicator (ui_busy (ws_ui s))).1 (ws_ui s);
               ws_grid := [InfoRow (lit "Scanning saved networks in range...")] |}.

(** [_done(result, err)] of [refresh_networks]. *)
Definition refresh_networks_done
    (args : option refresh_result * option py_exn) (s : wifi_screen)
  : wifi_screen :=
  {| ws_ui := with_busy (hide_busy_indicator (ui_busy (ws_ui s))).1 (ws_ui s);
     ws_grid := refresh_rows args.1 args.2 |}.

(** [on_disconnect] up to [run_bg]; [None] while connecting. *)
Definition on_disconnect_begin (s : wifi_screen) : option wifi_screen :=
  if ui_connecting (ws_ui s) then None
  else Some {| ws_ui := with_busy (show_busy_indicator (ui_busy (ws_ui s))).1 (ws_ui s);
               ws_grid := ws_grid s |}.

(** [_done(result, err)] of [on_disconnect]. *)
Definition on_disconnect_done (args : option bool * option py_exn)
    (s : wifi_screen) : wifi_screen :=
  let u := with_busy (hide_busy_indicator (ui_busy (ws_ui s))).1 (ws_ui s) in
  {| ws_ui :=
       with_effects
         match args.2 with
         | Some _ => [ShowMessage wifi_title (lit "Failed to disconnect") true]
         | None => UpdateAsync
                     :: (if ui_manager u then [SetScreen (lit "main")] else [])
         end u;
     ws_grid := ws_grid s |}.

(** The jobs of the screen. *)
Inductive wifi_op :=
| OpRefresh
| OpDisconnect
| OpConnect (ssid : str).

(** What happens to the screen: a method is called, by a button or by a
    timer, or the job at position [n] among those in flight ends and its
    callback runs with what the job returned or raised. *)
Inductive wifi_event :=
| Press (op : wifi_op)
| RefreshEnds (n : nat) (outcome : py_exn + refresh_result)
| DisconnectEnds (n : nat) (outcome : py_exn + bool)
| ConnectEnds (n : nat) (outcome : py_exn + bool).

Record wifi_session := {
  sess_screen : wifi_screen;
  sess_pending : list wifi_op          (* the jobs in flight, oldest first *)
}.

Definition wifi_begin (op : wifi_op) (s : wifi_screen) : option wifi_screen :=
  match op with
  | OpRefresh => refresh_networks_begin s
  | OpDisconnect => on_disconnect_begin s
  | OpConnect _ =>
      (fun u => {| ws_ui := u; ws_grid := ws_grid s |})
        <$> connect_to_begin (ws_ui s)
  end.

Definition wifi_step (s : wifi_session) (ev : wifi_event) : wifi_session :=
  match ev with
  | Press op =>
      match wifi_begin op (sess_screen s) with
      | Some sc => {| sess_screen := sc; sess_pending := sess_pending s ++ [op] |}
      | None => s
      end
  | RefreshEnds n outcome =>
      match sess_pending s !! n with
      | Some OpRefresh =>
          {| sess_screen := refresh_networks_done (completion_args outcome)
                              (sess_screen s);
             sess_pending := delete n (sess_pending s) |}
      | _ => s
      end
  | DisconnectEnds n outcome =>
      match sess_pending s !! n with
      | Some OpDisconnect =>
          {| sess_screen := on_disconnect_done (completion_args outcome)
                              (sess_screen s);
             sess_pending := delete n (sess_pending s) |}
      | _ => s
      end
  | ConnectEnds n outcome =>
      match sess_pending s !! n with
      | Some (OpConnect ssid) =>
          {| sess_screen :=
               {| ws_ui := connect_to_done ssid (completion_args outcome)
                             (ws_ui (sess_screen s));
                  ws_grid := ws_grid (sess_screen s) |};
             sess_pending := delete n (sess_pending s) |}
      | _ => s
      end
  end.

Definition wifi_session_init : wifi_session :=
  {| sess_screen := {| ws_ui := ui_idle; ws_grid := [] |}; sess_pending := [] |}.

Definition wifi_run (evs : list wifi_event) : wifi_session :=
  fold_left wifi_step evs wifi_session_init.

Definition is_connect (op : wifi_op) : bool :=
  match op with OpConnect _ => true | _ => false end.

(** What holds of the screen between events: the depth of the busy
    indicator counts the jobs in flight, and a connection attempt is in
    flight exactly while [_connecting] is set; it is then the youngest
    job. *)
Definition wifi_session_inv (s : wifi_session) : Prop :=
  let u := ws_ui (sess_screen s) in
  busy_inv (ui_busy u)
  /\ BUSY_DEPTH (ui_busy u) = Z.of_nat (length (sess_pending s))
  /\ if ui_connecting u
     then exists pre ssid,
            sess_pending s = pre ++ [OpConnect ssid]
            /\ Forall (fun op => is_connect op = false) pre
     else Forall (fun op => is_connect op = false) (sess_pending s).


(* ===================================================================== *)
(** * VPN screen ([toggle_vpn], [disconnect_vpn]) *)
(* ===================================================================== *)

Inductive vpn_command :=
| KillallOpenvpn                      (* [sudo killall openvpn] *)
| OpenvpnDaemon (vpn_file : str).     (* [sudo openvpn --daemon --config ...] *)

Inductive vpn_exn := FileNotFoundError.

(** [_task] of [toggle_vpn]: how it ends and the commands it ran;
    [config_exists] is [config_path.exists()]. *)
Definition toggle_vpn_task (config_exists : bool) (vpn_file : str)
  : (vpn_exn + bool) * list vpn_command :=
  if negb config_exists then (inl FileNotFoundError, [KillallOpenvpn])
  else (inr true, [KillallOpenvpn; OpenvpnDaemon vpn_file]).

(** [_task] of [disconnect_vpn]. *)
Definition disconnect_vpn_task : (vpn_exn + bool) * list vpn_command :=
  (inr true, [KillallOpenvpn]).

Inductive vpn_effect :=
| VpnShowMessage (title message : str) (is_error : bool)
| VpnUpdateGeoip                      (* [STATE.update_geoip_async()] *)
| VpnSetScreen (name : str)
| VpnPopulate                         (* [self.populate_vpn_buttons()] *)
| VpnScheduleFinish (delay_ms : Z).   (* [finish_vpn_action], later *)

(** What the callbacks of the VPN screen act on; [vpn_fired] are the
    notifications that the store dispatched. *)
Record vpn_ui := {
  vpn_busy : busy_state;
  vpn_manager : bool;
  vpn_STATE : UiState;
  vpn_fired : list (field * value);
  vpn_effects : list vpn_effect
}.

(** [_done(result, err)] of [toggle_vpn]. *)
Definition toggle_vpn_done (vpn_file display_name : str)
    (args : option bool * option vpn_exn) (u : vpn_ui) : vpn_ui :=
  let busy := (hide_busy_indicator (vpn_busy u)).1 in
  match args.2 with
  | Some _ =>
      {| vpn_busy := busy; vpn_manager := vpn_manager u;
         vpn_STATE := vpn_STATE u; vpn_fired := vpn_fired u;
         vpn_effects :=
           vpn_effects u
             ++ [VpnShowMessage (lit "Error")
                   (lit "Failed to start VPN:" ++ [PyStr.LF] ++ vpn_file) true] |}
  | None =>
      let '(st1, n1) := setattr (vpn_STATE u) vpn_name (VStr display_name) in
      let '(st2, n2) := setattr st1 vpn_status (VStr (lit "ON")) in
      {| vpn_busy := busy; vpn_manager := vpn_manager u;
         vpn_STATE := st2; vpn_fired := vpn_fired u ++ n1 ++ n2;
         vpn_effects :=
           vpn_effects u
             ++ VpnUpdateGeoip
                  :: (if vpn_manager u then [VpnSetScreen (lit "main")] else []) |}
  end.

(** [_done(result, err)] of [disconnect_vpn]: [err] is not looked at. *)
Definition disconnect_vpn_done (args : option bool * option vpn_exn)
    (u : vpn_ui) : vpn_ui :=
  let busy := (hide_busy_indicator (vpn_busy u)).1 in
  let '(st1, n1) := setattr (vpn_STATE u) vpn_name (VStr (lit "None")) in
  let '(st2, n2) := setattr st1 vpn_status (VStr (lit "OFF")) in
  {| vpn_busy := busy; vpn_manager := vpn_manager u;
     vpn_STATE := st2; vpn_fired := vpn_fired u ++ n1 ++ n2;
     vpn_effects := vpn_effects u ++ [VpnPopulate; VpnScheduleFinish 800] |}.

(** The VPN screen at rest, during a job. *)
Definition vpn_ui_busy : vpn_ui :=
  {| vpn_busy := (show_busy_indicator busy_init).1; vpn_manager := true;
     vpn_STATE := UiState_defaults; vpn_fired := []; vpn_effects := [] |}.

(** A collection pass that finds [openvpn] running. *)
Definition probes_vpn_example : probes :=
  {| probe_host_ip := Some (lit "192.168.1.20");
     probe_iwgetid := Exited 0 (lit "Home");
     probe_hostapd := Exited 0 (lit "active");
     probe_thermal := Exited 1 [];
     probe_hostname := Exited 0 (lit "raspap");
     probe_uptime := Exited 0 (lit "up 3 hours, 2 minutes");
     probe_clients := None;
     probe_hostapd_ssid := Some (lit "RaspAP");
     probe_ap_ip := Some (lit "10.3.141.1");
     probe_pgrep_openvpn := Exited 0 (lit "1423") |}.


(* ===================================================================== *)
(** * Saved networks of [wpa_supplicant.conf]
      ([get_saved_networks_from_conf]) *)
(* ===================================================================== *)

Definition QUOTE : N := 34.

(** [s.endswith(suf)] *)
Definition endswith (suf s : str) : bool :=
  bool_decide (drop (length s - length suf) s = suf).

(** [val[1:-1]] *)
Definition slice_1_m1 (s : str) : str := take (length s - 2) (drop 1 s).

(** The loop of [get_saved_networks_from_conf]; [None] would be the
    [IndexError] of [line.split("=", 1)[1]]. *)
Fixpoint from_conf_lines (lines : list str) (block : bool) (ssids : gset str)
  : option (gset str) :=
  match lines with
  | [] => Some ssids
  | line :: lines' =>
      let line := PyStr.strip line in
      if startswith (lit "network={") line then from_conf_lines lines' true ssids
      else if block && startswith (lit "}") line
      then from_conf_lines lines' false ssids
      else if block && startswith (lit "ssid=") line then
        match after_equals line with
        | None => None
        | Some v =>
            let val := PyStr.strip v in
            let val := if startswith [QUOTE] val && endswith [QUOTE] val
                       then slice_1_m1 val else val in
            if PyStr.truthy val
            then from_conf_lines lines' block ({[ PyStr.strip val ]} ∪ ssids)
            else from_conf_lines lines' block ssids
        end
      else from_conf_lines lines' block ssids
  end.

(** [get_saved_networks_from_conf]: [content] is the text of the file, or
    [None] when the file does not exist or cannot be read. *)
Definition get_saved_networks_from_conf (content : option str)
  : option (gset str) :=
  match content with
  | None => Some ∅
  | Some c => from_conf_lines (PyStr.splitlines c) false ∅
  end.

(** A network block as [wpa_supplicant] writes it. *)
Definition network_block (ssid : str) : list str :=
  [ lit "network={";
    PyStr.TAB :: lit "ssid=" ++ QUOTE :: ssid ++ [QUOTE];
    PyStr.TAB :: lit "key_mgmt=NONE";
    lit "}" ].

(** A name that can be written in a block and read back. *)
Definition plain_ssid (s : str) : Prop :=
  s <> [] /\ PyStr.strip s = s /\ Forall (fun c => PyStr.islinebreak c = false) s.

(* ===================================================================== *)
(** * Facts *)
(* ===================================================================== *)

(** ** Busy indicator *)

Local Ltac busy_cases s :=
  unfold busy_inv, busy_obs_ok, busy_step, show_busy_indicator,
    hide_busy_indicator in *; simpl in *;
  destruct (BUSY_OVERLAY s) eqn:?; simpl in *;
  try destruct (Z.max 0 (BUSY_DEPTH s - 1) =? 0) eqn:?; simpl in *;
  rewrite ?Z.eqb_eq, ?Z.eqb_neq in *;
  intuition (try congruence; try lia).

Lemma busy_init_inv : busy_inv busy_init.
Proof. unfold busy_inv; simpl. intuition (try congruence; try lia). Qed.

Lemma busy_step_inv c s :
  busy_inv s -> busy_inv (busy_step c s).1.
Proof. intros Hs. destruct c; busy_cases s. Qed.

Lemma busy_step_obs c s :
  busy_inv s ->
  busy_obs_ok {| obs_call := c; obs_before := s;
                 obs_after := (busy_step c s).1;
                 obs_event := (busy_step c s).2 |}.
Proof. intros Hs. destruct c; busy_cases s. Qed.

Lemma busy_trace_ok calls : forall s,
  busy_inv s -> Forall busy_obs_ok (busy_trace calls s).
Proof.
  induction calls as [|c calls IH]; intros s Hs; simpl; [constructor|].
  destruct (busy_step c s) as [s' e] eqn:E. constructor.
  - pose proof (busy_step_obs c s Hs) as H. by rewrite E in H.
  - apply IH. pose proof (busy_step_inv c s Hs) as H. by rewrite E in H.
Qed.

Lemma busy_run_inv calls : forall s, busy_inv s -> busy_inv (busy_run calls s).
Proof.
  unfold busy_run. induction calls as [|c calls IH]; intros s Hs; simpl; [done|].
  apply IH. by apply busy_step_inv.
Qed.

(** C5. Whatever calls of [show_busy_indicator] and [hide_busy_indicator] are
    made, starting from the module's initial globals: the depth is never
    negative and a hide floors it at zero; after every call the overlay is on
    screen exactly when the depth is positive; the overlay is added to the
    window exactly by the show that takes the depth from 0 to 1, and removed
    exactly by the hide that takes it from 1 to 0. *)
Theorem busy_guard_counter_and_visibility (calls : list busy_call) :
  Forall busy_obs_ok (busy_trace calls busy_init)
  /\ 0 <= BUSY_DEPTH (busy_run calls busy_init)
  /\ (window_overlay (busy_run calls busy_init) = true
      <-> 0 < BUSY_DEPTH (busy_run calls busy_init)).
Proof.
  split; [apply busy_trace_ok, busy_init_inv|].
  destruct (busy_run_inv calls busy_init busy_init_inv) as (Hd & Ho & Hw).
  split; [done|]. by rewrite Hw.
Qed.

(** ** Strings *)

Lemma lstrip_fixed (s : str) :
  match s with [] => True | c :: _ => PyStr.isspace c = false end ->
  PyStr.lstrip s = s.
Proof. destruct s as [|c s]; simpl; [done|]. by intros ->. Qed.

Lemma lstrip_head (s : str) :
  match PyStr.lstrip s with [] => True | c :: _ => PyStr.isspace c = false end.
Proof.
  induction s as [|c s IH]; simpl; [done|].
  destruct (PyStr.isspace c) eqn:E; [done|]. by simpl.
Qed.

Lemma rstrip_head (s : str) :
  match s with [] => True | c :: _ => PyStr.isspace c = false end ->
  match PyStr.rstrip s with [] => True | c :: _ => PyStr.isspace c = false end.
Proof.
  destruct s as [|c s]; simpl; [done|]. intros Hc.
  destruct (PyStr.rstrip s); [by rewrite Hc|done].
Qed.

Lemma rstrip_idem (s : str) : PyStr.rstrip (PyStr.rstrip s) = PyStr.rstrip s.
Proof.
  induction s as [|c s IH]; simpl; [done|].
  destruct (PyStr.rstrip s) as [|d r] eqn:E.
  - destruct (PyStr.isspace c) eqn:Ec; simpl; [done|]. by rewrite Ec.
  - change (PyStr.rstrip (c :: d :: r)) with
      (match PyStr.rstrip (d :: r) with
       | [] => if PyStr.isspace c then [] else [c]
       | x :: r' => c :: x :: r'
       end).
    by rewrite IH.
Qed.

(** Stripping twice is stripping once. *)
Lemma strip_idem (s : str) : PyStr.strip (PyStr.strip s) = PyStr.strip s.
Proof.
  unfold PyStr.strip.
  rewrite (lstrip_fixed (PyStr.rstrip (PyStr.lstrip s))).
  - apply rstrip_idem.
  - apply rstrip_head, lstrip_head.
Qed.

(** ** Dictionaries *)

Section dict_facts.
Context {K V : Type} `{EqDecision K}.
Implicit Types (d : pydict K V) (k : K) (v : V).

Lemma wf_nil : PyDict.wf (@nil (K * V)).
Proof. apply NoDup_nil_2. Qed.

Lemma wf_cons d k v :
  PyDict.wf ((k, v) :: d) <-> (k ∉ PyDict.keys d) /\ PyDict.wf d.
Proof. unfold PyDict.wf, PyDict.keys. csimpl. apply NoDup_cons. Qed.

Lemma getitem_None d k : PyDict.getitem d k = None <-> k ∉ PyDict.keys d.
Proof.
  unfold PyDict.keys. induction d as [|[k' v'] d IH]; simpl.
  - split; [intros _; apply not_elem_of_nil|done].
  - rewrite not_elem_of_cons. destruct (decide (k' = k)) as [->|Hne].
    + split; [done|]. by intros [? _].
    + rewrite IH. split; [by intros ?; split|by intros [_ ?]].
Qed.

Lemma getitem_Some_elem d k v : PyDict.getitem d k = Some v -> (k, v) ∈ d.
Proof.
  induction d as [|[k' v'] d IH]; simpl; [done|].
  destruct (decide (k' = k)) as [->|Hne].
  - intros [= ->]. apply elem_of_cons; by left.
  - intros H. apply elem_of_cons; right; by apply IH.
Qed.

Lemma getitem_is_Some d k : is_Some (PyDict.getitem d k) <-> k ∈ PyDict.keys d.
Proof.
  destruct (PyDict.getitem d k) eqn:E.
  - split; [intros _|by eauto].
    destruct (decide (k ∈ PyDict.keys d)) as [|Hn]; [done|].
    apply getitem_None in Hn. congruence.
  - split; [by intros [? ?]|]. intros Hin. by apply getitem_None in E.
Qed.

Lemma getitem_setitem d k v k' :
  PyDict.getitem (PyDict.setitem d k v) k'
  = if decide (k = k') then Some v else PyDict.getitem d k'.
Proof.
  induction d as [|[k0 v0] d IH]; simpl.
  - by destruct (decide (k = k')).
  - destruct (decide (k0 = k)) as [->|Hne]; simpl.
    + by destruct (decide (k = k')).
    + destruct (decide (k0 = k')) as [->|Hne'].
      * by destruct (decide (k = k')) as [->|].
      * apply IH.
Qed.

Lemma keys_setitem d k v :
  PyDict.keys (PyDict.setitem d k v)
  = if decide (k ∈ PyDict.keys d) then PyDict.keys d else PyDict.keys d ++ [k].
Proof.
  unfold PyDict.keys. induction d as [|[k0 v0] d IH]; csimpl; [done|].
  destruct (decide (k0 = k)) as [->|Hne]; csimpl.
  - rewrite decide_True; [done|]. apply elem_of_cons; by left.
  - rewrite IH. destruct (decide (k ∈ d.*1)) as [Hin|Hn].
    + rewrite decide_True; [done|]. apply elem_of_cons; by right.
    + rewrite decide_False; [done|]. rewrite elem_of_cons. by intros [->|?].
Qed.

Lemma wf_setitem d k v : PyDict.wf d -> PyDict.wf (PyDict.setitem d k v).
Proof.
  unfold PyDict.wf. rewrite keys_setitem. intros Hd.
  destruct (decide (k ∈ PyDict.keys d)) as [|Hn]; [done|].
  apply NoDup_app. split; [done|]. split; [|apply NoDup_singleton].
  intros x Hx Hx'. apply list_elem_of_singleton in Hx' as ->. done.
Qed.
End dict_facts.

(** ** The update that keeps the stronger signal *)

Lemma getitem_keep_stronger d ssid info k :
  PyDict.getitem (keep_stronger d ssid info) k
  = if decide (ssid = k) then Some (stronger (PyDict.getitem d ssid) info)
    else PyDict.getitem d k.
Proof.
  unfold keep_stronger, stronger.
  destruct (PyDict.getitem d ssid) as [old|] eqn:E.
  - destruct (info_signal info >? info_signal old).
    + apply getitem_setitem.
    + destruct (decide (ssid = k)) as [<-|]; done.
  - apply getitem_setitem.
Qed.

Lemma keys_keep_stronger d ssid info :
  PyDict.keys (keep_stronger d ssid info)
  = if decide (ssid ∈ PyDict.keys d) then PyDict.keys d
    else PyDict.keys d ++ [ssid].
Proof.
  unfold keep_stronger.
  destruct (PyDict.getitem d ssid) as [old|] eqn:E.
  - assert (ssid ∈ PyDict.keys d) as Hin by (apply getitem_is_Some; eauto).
    destruct (info_signal info >? info_signal old).
    + apply keys_setitem.
    + by destruct (decide (ssid ∈ PyDict.keys d)).
  - apply keys_setitem.
Qed.

Lemma wf_keep_stronger d ssid info :
  PyDict.wf d -> PyDict.wf (keep_stronger d ssid info).
Proof.
  unfold keep_stronger. intros Hd.
  destruct (PyDict.getitem d ssid) as [old|]; [|by apply wf_setitem].
  destruct (info_signal info >? info_signal old); [by apply wf_setitem|done].
Qed.

Lemma getitem_merge_src src : forall merged k,
  PyDict.wf src ->
  PyDict.getitem (merge_src merged src) k
  = match PyDict.getitem src k with
    | None => PyDict.getitem merged k
    | Some info => Some (stronger (PyDict.getitem merged k) info)
    end.
Proof.
  unfold merge_src.
  induction src as [|[k0 i0] src IH]; intros merged k Hwf; simpl; [done|].
  apply wf_cons in Hwf as [Hk0 Hwf].
  rewrite IH by done. rewrite getitem_keep_stronger.
  destruct (decide (k0 = k)) as [->|Hne]; [|done].
  by apply getitem_None in Hk0 as ->.
Qed.

Lemma refresh_merged_unfold nm wp :
  refresh_merged nm wp = merge_src (merge_src [] nm) wp.
Proof. done. Qed.

Lemma getitem_refresh_merged nm wp k :
  PyDict.wf nm -> PyDict.wf wp ->
  PyDict.getitem (refresh_merged nm wp) k
  = match PyDict.getitem nm k, PyDict.getitem wp k with
    | Some a, Some b => Some (if info_signal b >? info_signal a then b else a)
    | Some a, None => Some a
    | None, Some b => Some b
    | None, None => None
    end.
Proof.
  intros Hnm Hwp. rewrite refresh_merged_unfold.
  rewrite !getitem_merge_src by done. simpl.
  by destruct (PyDict.getitem nm k), (PyDict.getitem wp k).
Qed.

(** C1. The dictionary merged from the two scans has every SSID that either
    scan has.  Where both have it, the merged signal is the larger of the
    two and the entry is one of the two; when the wpa_cli signal is not the
    larger, so also on a tie, the nmcli entry, met first, is the one kept. *)
Theorem refresh_merged_keeps_maximum (nm wp : pydict str scan_info) (ssid : str) :
  PyDict.wf nm -> PyDict.wf wp ->
  is_Some (PyDict.getitem nm ssid) \/ is_Some (PyDict.getitem wp ssid) ->
  exists info,
    PyDict.getitem (refresh_merged nm wp) ssid = Some info
    /\ match PyDict.getitem nm ssid, PyDict.getitem wp ssid with
       | Some a, Some b =>
           info_signal info = Z.max (info_signal a) (info_signal b)
           /\ (info = a \/ info = b)
           /\ (info_signal b <= info_signal a -> info = a)
       | Some a, None => info = a
       | None, Some b => info = b
       | None, None => False
       end.
Proof.
  intros Hnm Hwp Hin. rewrite getitem_refresh_merged by done.
  destruct (PyDict.getitem nm ssid) as [a|], (PyDict.getitem wp ssid) as [b|].
  - eexists; split; [done|].
    destruct (info_signal b >? info_signal a) eqn:E.
    + apply Z.gtb_lt in E. split; [lia|]. split; [by right|lia].
    + rewrite Z.gtb_ltb in E. apply Z.ltb_ge in E. split; [lia|]. by split; [left|].
  - by eexists.
  - by eexists.
  - destruct Hin as [[? ?]|[? ?]]; done.
Qed.

(** ** Saved networks *)

Lemma set_map_strip_fixed (X : gset str) :
  stripped_set X -> set_map PyStr.strip X = X.
Proof.
  intros HX. apply set_eq. intros x. rewrite elem_of_map. split.
  - intros (y & -> & Hy). by rewrite (HX y Hy).
  - intros Hx. exists x. by rewrite (HX x Hx).
Qed.

Lemma stripped_set_empty : stripped_set ∅.
Proof. intros x Hx. by apply not_elem_of_empty in Hx. Qed.

Lemma stripped_set_add (X : gset str) (s : str) :
  stripped_set X -> stripped_set ({[ PyStr.strip s ]} ∪ X).
Proof.
  intros HX x Hx. apply elem_of_union in Hx as [Hx|Hx]; [|by apply HX].
  apply elem_of_singleton in Hx as ->. apply strip_idem.
Qed.

Lemma get_saved_networks_wpa_cli_line_stripped acc line :
  stripped_set acc.1 -> stripped_set (get_saved_networks_wpa_cli_line acc line).1.
Proof.
  intros Hacc. unfold get_saved_networks_wpa_cli_line.
  destruct (PyStr.split PyStr.TAB line) as [|nid [|ssid parts]]; [done..|].
  destruct (PyStr.truthy ssid); [|done]. simpl. by apply stripped_set_add.
Qed.

Lemma get_saved_networks_wpa_cli_stripped p :
  stripped_set (get_saved_networks_wpa_cli p).1.
Proof.
  unfold get_saved_networks_wpa_cli.
  destruct (negb (PyStr.truthy (run_cmd p))); [apply stripped_set_empty|].
  generalize (drop 1 (PyStr.splitlines (run_cmd p))).
  assert (stripped_set (∅ : gset str, [] : pydict str str).1) as Hinit
    by apply stripped_set_empty.
  revert Hinit. generalize (∅ : gset str, [] : pydict str str).
  intros acc Hacc lines. revert acc Hacc.
  induction lines as [|line lines IH]; intros acc Hacc; simpl; [done|].
  by apply IH, get_saved_networks_wpa_cli_line_stripped.
Qed.

Lemma get_saved_networks_nmcli_stripped has_nm show ssid_of :
  stripped_set (get_saved_networks_nmcli has_nm show ssid_of).
Proof.
  unfold get_saved_networks_nmcli.
  destruct (negb has_nm); [apply stripped_set_empty|].
  destruct (subprocess_run false show) as [e|[rc out]]; [apply stripped_set_empty|].
  destruct (negb (rc =? 0) || negb (PyStr.truthy out)); [apply stripped_set_empty|].
  generalize (fold_left nmcli_wifi_names_line (PyStr.splitlines out) []).
  intros names. generalize stripped_set_empty. generalize (∅ : gset str).
  induction names as [|name names IH]; intros acc Hacc; simpl; [done|].
  apply IH. destruct (PyStr.truthy (run_cmd (ssid_of name))); [|done].
  by apply stripped_set_add.
Qed.

Lemma run_cmd_failed p : proc_failed p -> run_cmd p = [].
Proof.
  destruct p as [rc out|]; simpl; [|done]. intros Hrc. unfold run_cmd; simpl.
  destruct (rc =? 0) eqn:E; [|done]. by apply Z.eqb_eq in E.
Qed.

Lemma get_saved_networks_wpa_cli_failed p :
  proc_failed p -> get_saved_networks_wpa_cli p = (∅, []).
Proof.
  intros Hp. unfold get_saved_networks_wpa_cli. by rewrite run_cmd_failed.
Qed.

Lemma get_saved_networks_nmcli_failed has_nm show ssid_of :
  has_nm = false \/ proc_failed show ->
  get_saved_networks_nmcli has_nm show ssid_of = ∅.
Proof.
  unfold get_saved_networks_nmcli. intros [->|Hp]; [done|].
  destruct (negb has_nm); [done|].
  destruct show as [rc out|]; simpl in *; [|done].
  destruct (rc =? 0) eqn:E; [|done]. by apply Z.eqb_eq in E.
Qed.

(** The saved set of two sets of stripped names is their union. *)
Lemma refresh_saved_union (saved_wpa saved_nm : gset str) :
  stripped_set saved_wpa -> stripped_set saved_nm ->
  refresh_saved saved_wpa saved_nm = saved_wpa ∪ saved_nm.
Proof.
  intros Hw Hn. unfold refresh_saved. by rewrite !set_map_strip_fixed.
Qed.

(** C2. Whatever the two saved-network commands did, the saved set of the
    refresh is the union of what [get_saved_networks_wpa_cli] and
    [get_saved_networks_nmcli] returned.  A backend whose command timed out
    or exited with an error (or, for nmcli, whose tool is absent) returns
    the empty set, and the saved set is then what the other one returned;
    the task goes on in every case. *)
Theorem refresh_saved_is_union_of_backends (w : wifi_env) :
  refresh_task_saved w = task_saved_wpa w ∪ task_saved_nm w
  /\ (proc_failed (wpa_list_networks w) ->
      task_saved_wpa w = ∅ /\ refresh_task_saved w = task_saved_nm w)
  /\ (has_nmcli w = false \/ proc_failed (nmcli_connection_show w) ->
      task_saved_nm w = ∅ /\ refresh_task_saved w = task_saved_wpa w).
Proof.
  assert (refresh_task_saved w = task_saved_wpa w ∪ task_saved_nm w) as Hu.
  { apply refresh_saved_union.
    - apply get_saved_networks_wpa_cli_stripped.
    - apply get_saved_networks_nmcli_stripped. }
  split; [done|]. rewrite Hu. split.
  - intros Hp. unfold task_saved_wpa.
    rewrite get_saved_networks_wpa_cli_failed by done. simpl.
    split; [done|]. by rewrite (left_id_L ∅ (∪)).
  - intros Hp. unfold task_saved_nm at 1 2.
    rewrite get_saved_networks_nmcli_failed by done.
    split; [done|]. by rewrite (right_id_L ∅ (∪)).
Qed.

(** ** Sorting *)

Section sort_facts.
Context {A K : Type} `{EqDecision K} (key : A -> K) (klt : K -> K -> bool).

Let lt (x y : A) : bool := klt (key x) (key y).

Lemma py_insert_perm x l : py_insert lt x l ≡ₚ x :: l.
Proof.
  induction l as [|y l IH]; simpl; [done|].
  destruct (lt y x); [|done]. rewrite IH. apply Permutation_swap.
Qed.

Lemma py_sort_perm l : py_sort lt l ≡ₚ l.
Proof.
  induction l as [|x l IH]; simpl; [done|].
  rewrite py_insert_perm. by rewrite IH.
Qed.

Section stable.
Hypothesis klt_irrefl : forall k, klt k k = false.

Lemma py_insert_filter k x l :
  filter (fun y => key y = k) (py_insert lt x l)
  = filter (fun y => key y = k) (x :: l).
Proof.
  induction l as [|y l IH]; simpl; [done|].
  destruct (lt y x) eqn:E; [|done].
  rewrite (filter_cons _ y), IH, !filter_cons.
  destruct (decide (key x = k)) as [Hx|Hx], (decide (key y = k)) as [Hy|Hy];
    try done.
  unfold lt in E. rewrite Hx, Hy, klt_irrefl in E. done.
Qed.

(** Elements with one key keep the order they had. *)
Lemma py_sort_stable k l :
  filter (fun y => key y = k) (py_sort lt l) = filter (fun y => key y = k) l.
Proof.
  induction l as [|x l IH]; simpl; [done|].
  rewrite py_insert_filter, !filter_cons. by rewrite IH.
Qed.
End stable.

Section sorted.
Hypothesis klt_asym : forall a b, klt a b = true -> klt b a = false.
Hypothesis klt_negtrans :
  forall a b c, klt b a = false -> klt c b = false -> klt c a = false.

Lemma py_insert_sorted x l :
  StronglySorted (fun a b => lt b a = false) l ->
  StronglySorted (fun a b => lt b a = false) (py_insert lt x l).
Proof.
  induction 1 as [|y l Hl IH Hy]; simpl.
  - repeat constructor.
  - destruct (lt y x) eqn:E.
    + constructor; [done|]. rewrite py_insert_perm.
      constructor; [|done]. by apply klt_asym.
    + constructor; [by constructor|]. constructor; [done|].
      eapply Forall_impl; [exact Hy|]. simpl. intros z Hz.
      by apply (klt_negtrans (key x) (key y) (key z)).
Qed.

Lemma py_sort_sorted l :
  StronglySorted (fun a b => lt b a = false) (py_sort lt l).
Proof.
  induction l as [|x l IH]; simpl; [constructor|]. by apply py_insert_sorted.
Qed.
End sorted.

Section unique.
Hypothesis klt_total : forall a b, klt a b = false -> klt b a = false -> a = b.

(** Two sorted lists in which the elements of each key are the same, in
    the same order, are one list: the order and stability determine the
    result of a sort. *)
Lemma sorted_stable_unique l1 : forall l2,
  StronglySorted (fun a b => lt b a = false) l1 ->
  StronglySorted (fun a b => lt b a = false) l2 ->
  (forall k, filter (fun y => key y = k) l1 = filter (fun y => key y = k) l2) ->
  l1 = l2.
Proof.
  induction l1 as [|x l1 IH]; intros l2 Hs1 Hs2 Hf.
  - destruct l2 as [|y l2]; [done|]. specialize (Hf (key y)).
    rewrite filter_nil, filter_cons, decide_True in Hf by done. done.
  - apply StronglySorted_inv in Hs1 as [Hs1 Hx].
    destruct l2 as [|y l2].
    { specialize (Hf (key x)).
      rewrite filter_nil, filter_cons, decide_True in Hf by done. done. }
    apply StronglySorted_inv in Hs2 as [Hs2 Hy].
    assert (key x = key y) as Hk.
    { destruct (decide (key x = key y)) as [|Hne]; [done|]. exfalso.
      assert (y ∈ l1) as Hy1.
      { assert (y ∈ filter (fun z => key z = key y) (x :: l1)) as Hin.
        { rewrite Hf, filter_cons, decide_True by done. apply list_elem_of_here. }
        apply list_elem_of_filter in Hin as [_ Hin].
        apply elem_of_cons in Hin as [->|?]; done. }
      assert (x ∈ l2) as Hx2.
      { assert (x ∈ filter (fun z => key z = key x) (y :: l2)) as Hin.
        { rewrite <-Hf, filter_cons, decide_True by done. apply list_elem_of_here. }
        apply list_elem_of_filter in Hin as [_ Hin].
        apply elem_of_cons in Hin as [->|?]; done. }
      rewrite Forall_forall in Hx, Hy.
      specialize (Hx y Hy1). specialize (Hy x Hx2). unfold lt in Hx, Hy.
      apply Hne. by apply klt_total. }
    assert (x = y) as <-.
    { specialize (Hf (key x)). rewrite !filter_cons in Hf.
      rewrite decide_True in Hf by done.
      rewrite decide_True in Hf by done. by injection Hf. }
    f_equal. apply IH; [done..|]. intros k. specialize (Hf k).
    rewrite !filter_cons in Hf. destruct (decide (key x = k)); [|done].
    by injection Hf.
Qed.

(** Any sorted, stable arrangement of [l] is the list that [py_sort]
    computes. *)
Lemma py_sort_unique l l' :
  (forall k, klt k k = false) ->
  (forall a b, klt a b = true -> klt b a = false) ->
  (forall a b c, klt b a = false -> klt c b = false -> klt c a = false) ->
  StronglySorted (fun a b => lt b a = false) l' ->
  (forall k, filter (fun y => key y = k) l' = filter (fun y => key y = k) l) ->
  l' = py_sort lt l.
Proof.
  intros Hirr Hasym Hneg Hs Hf. apply sorted_stable_unique; [done| |].
  - by apply py_sort_sorted.
  - intros k. rewrite Hf. symmetry. by apply py_sort_stable.
Qed.
End unique.
End sort_facts.

(** The order of the sort keys of [in_range]. *)
Lemma key_lt_irrefl k : key_lt k k = false.
Proof. destruct k as [[] z]; unfold key_lt; simpl; apply Z.ltb_irrefl. Qed.

Lemma key_lt_asym a b : key_lt a b = true -> key_lt b a = false.
Proof.
  destruct a as [[] x], b as [[] y]; unfold key_lt; simpl; try done;
    rewrite Z.ltb_lt, Z.ltb_ge; lia.
Qed.

Lemma key_lt_negtrans a b c :
  key_lt b a = false -> key_lt c b = false -> key_lt c a = false.
Proof.
  destruct a as [[] x], b as [[] y], c as [[] z]; unfold key_lt; simpl; try done;
    rewrite !Z.ltb_ge; lia.
Qed.

Lemma key_lt_total a b : key_lt a b = false -> key_lt b a = false -> a = b.
Proof.
  destruct a as [[] x], b as [[] y]; unfold key_lt; simpl; try done;
    rewrite !Z.ltb_ge; intros; f_equal; lia.
Qed.

(** The code-point order of strings. *)
Lemma ltb_irrefl (a : str) : PyStr.ltb a a = false.
Proof.
  induction a as [|x a IH]; simpl; [done|].
  by rewrite N.ltb_irrefl, N.eqb_refl, IH.
Qed.

Lemma ltb_asym (a : str) : forall b, PyStr.ltb a b = true -> PyStr.ltb b a = false.
Proof.
  induction a as [|x a IH]; intros [|y b]; simpl; try done.
  destruct (N.ltb_spec x y), (N.ltb_spec y x), (N.eqb_spec x y), (N.eqb_spec y x);
    simpl; try done; try lia. apply IH.
Qed.

Lemma ltb_negtrans (a : str) : forall b c,
  PyStr.ltb b a = false -> PyStr.ltb c b = false -> PyStr.ltb c a = false.
Proof.
  induction a as [|x a IH]; intros [|y b] [|z c]; simpl; try done.
  destruct (N.ltb_spec y x), (N.ltb_spec z y), (N.ltb_spec z x),
    (N.eqb_spec y x), (N.eqb_spec z y), (N.eqb_spec z x);
    simpl; try done; try lia. apply IH.
Qed.

Lemma ltb_total (a : str) : forall b,
  PyStr.ltb a b = false -> PyStr.ltb b a = false -> a = b.
Proof.
  induction a as [|x a IH]; intros [|y b]; simpl; try done.
  destruct (N.ltb_spec x y), (N.ltb_spec y x), (N.eqb_spec x y), (N.eqb_spec y x);
    simpl; try done; try lia. intros. subst. f_equal. by apply IH.
Qed.

(** ** Scan results *)

Lemma stripped_keys_nil : stripped_keys [].
Proof. split; [apply wf_nil|constructor]. Qed.

Lemma stripped_keys_keep_stronger d ssid info :
  PyStr.strip ssid = ssid -> stripped_keys d ->
  stripped_keys (keep_stronger d ssid info).
Proof.
  intros Hs [Hwf Hk]. split; [by apply wf_keep_stronger|].
  rewrite keys_keep_stronger. destruct (decide (ssid ∈ PyDict.keys d)); [done|].
  apply Forall_app. split; [done|]. by constructor.
Qed.

Lemma fold_left_preserves {A B} (P : A -> Prop) (f : A -> B -> A) (l : list B) :
  (forall a b, P a -> P (f a b)) -> forall a, P a -> P (fold_left f l a).
Proof.
  intros Hf. induction l as [|b l IH]; intros a Ha; simpl; [done|].
  by apply IH, Hf.
Qed.

Section scan_facts.
Variable py_int : str -> option Z.

Lemma scan_nmcli_line_keys d line :
  stripped_keys d -> stripped_keys (scan_nmcli_line py_int d line).
Proof.
  intros Hd. unfold scan_nmcli_line.
  destruct (negb (PyStr.truthy line)); [done|].
  destruct (PyStr.split PyStr.COLON line) as [|p0 [|p1 rest]]; [done..|].
  destruct (negb (PyStr.truthy (PyStr.strip p0))); [done|].
  apply stripped_keys_keep_stronger; [apply strip_idem|done].
Qed.

Lemma scan_nmcli_keys rescan wifi_list :
  stripped_keys (scan_nmcli py_int rescan wifi_list).
Proof.
  unfold scan_nmcli. destruct (negb (PyStr.truthy (run_cmd wifi_list)));
    [apply stripped_keys_nil|].
  apply fold_left_preserves; [|apply stripped_keys_nil].
  intros d line. apply scan_nmcli_line_keys.
Qed.

Lemma scan_wpa_cli_line_keys d line :
  stripped_keys d -> stripped_keys (scan_wpa_cli_line py_int d line).
Proof.
  intros Hd. unfold scan_wpa_cli_line.
  destruct (PyStr.split PyStr.TAB line) as [|? [|? [|p2 [|p3 [|p4 ?]]]]]; [done..|].
  destruct (negb (PyStr.truthy (PyStr.strip p4))); [done|].
  apply stripped_keys_keep_stronger; [apply strip_idem|done].
Qed.

Lemma scan_wpa_cli_polls_keys polls : forall d,
  stripped_keys d -> stripped_keys (scan_wpa_cli_polls py_int polls d).
Proof.
  induction polls as [|p polls IH]; intros d Hd; simpl; [done|].
  destruct (negb (PyStr.truthy (run_cmd p))); [by apply IH|].
  assert (stripped_keys
            (fold_left (scan_wpa_cli_line py_int)
               (drop 1 (PyStr.splitlines (run_cmd p))) d)) as Hd'.
  { apply fold_left_preserves; [|done]. intros ? ?. apply scan_wpa_cli_line_keys. }
  destruct (fold_left _ _ d); [by apply IH|done].
Qed.

Lemma task_nm_keys w : stripped_keys (task_nm py_int w).
Proof.
  unfold task_nm. destruct (has_nmcli w); [apply scan_nmcli_keys|].
  apply stripped_keys_nil.
Qed.

Lemma task_wp_keys w : stripped_keys (task_wp py_int w).
Proof. apply scan_wpa_cli_polls_keys, stripped_keys_nil. Qed.
End scan_facts.

Lemma merge_src_keys src : forall merged,
  Forall (fun k => PyStr.strip k = k) (PyDict.keys src) ->
  stripped_keys merged -> stripped_keys (merge_src merged src).
Proof.
  unfold merge_src, PyDict.keys.
  induction src as [|[k i] src IH]; intros merged Hsrc Hm; simpl; [done|].
  csimpl in Hsrc. apply Forall_cons in Hsrc as [Hk Hsrc].
  apply IH; [done|]. by apply stripped_keys_keep_stronger.
Qed.

Lemma refresh_merged_keys nm wp :
  stripped_keys nm -> stripped_keys wp -> stripped_keys (refresh_merged nm wp).
Proof.
  intros [_ Hnm] [_ Hwp]. rewrite refresh_merged_unfold.
  apply merge_src_keys; [done|]. apply merge_src_keys; [done|].
  apply stripped_keys_nil.
Qed.

(** What the merge holds for an SSID, for the scans of any refresh. *)
Lemma getitem_task_merged (py_int : str -> option Z) (w : wifi_env) (k : str) :
  PyDict.getitem (refresh_merged (task_nm py_int w) (task_wp py_int w)) k
  = match PyDict.getitem (task_nm py_int w) k, PyDict.getitem (task_wp py_int w) k with
    | Some a, Some b => Some (if info_signal b >? info_signal a then b else a)
    | Some a, None => Some a
    | None, Some b => Some b
    | None, None => None
    end.
Proof.
  apply getitem_refresh_merged; [apply task_nm_keys|apply task_wp_keys].
Qed.

(** ** The list [in_range] *)

Section in_range_facts.
Variables (saved : gset str) (current_ssid : str).

Lemma in_range_step_ssids l : forall acc,
  Forall (fun k => PyStr.strip k = k) (PyDict.keys l) ->
  sublist (entry_ssid <$> fold_left (refresh_in_range_step saved current_ssid) l acc)
          ((entry_ssid <$> acc) ++ PyDict.keys l).
Proof.
  unfold PyDict.keys.
  induction l as [|[k i] l IH]; intros acc Hl; csimpl.
  - by rewrite (right_id_L [] (++)).
  - csimpl in Hl. apply Forall_cons in Hl as [Hk Hl].
    etrans; [by apply IH|]. unfold refresh_in_range_step.
    assert ((if PyStr.truthy k then PyStr.strip k else []) = k) as ->.
    { destruct k; [done|]. simpl PyStr.truthy. exact Hk. }
    destruct (PyStr.truthy k && bool_decide (k ∈ saved)).
    + rewrite fmap_app. csimpl. by rewrite <-(assoc_L (++)).
    + apply sublist_app; [done|]. by apply sublist_cons.
Qed.

Lemma in_range_step_current l : forall acc,
  Forall (fun x => entry_current x = bool_decide (entry_ssid x = current_ssid)) acc ->
  Forall (fun x => entry_current x = bool_decide (entry_ssid x = current_ssid))
    (fold_left (refresh_in_range_step saved current_ssid) l acc).
Proof.
  induction l as [|[k i] l IH]; intros acc Hacc; simpl; [done|].
  apply IH.
  destruct (PyStr.truthy _ && bool_decide _); [|done].
  apply Forall_app. split; [done|]. by constructor.
Qed.

Lemma in_range_unsorted_NoDup merged :
  stripped_keys merged ->
  NoDup (entry_ssid <$> refresh_in_range_unsorted saved current_ssid merged).
Proof.
  intros [Hwf Hk]. eapply sublist_NoDup; [exact Hwf|].
  by apply (in_range_step_ssids merged []).
Qed.
End in_range_facts.

(** A list sorted by the key of [in_range] is its current entries followed
    by the others in order of falling signal. *)
Lemma in_range_sorted_shape (r : list network_entry) :
  StronglySorted (fun a b => in_range_lt b a = false) r ->
  r = filter (fun x => entry_current x = true) r
      ++ filter (fun x => entry_current x = false) r
  /\ StronglySorted (fun a b => entry_signal b <= entry_signal a)
       (filter (fun x => entry_current x = false) r).
Proof.
  induction 1 as [|x r Hr [IH1 IH2] Hx]; [by split; [|constructor]|].
  rewrite !filter_cons. destruct (entry_current x) eqn:Ex.
  - rewrite decide_True by done. rewrite decide_False by done.
    split; [|done]. simpl. by rewrite <-IH1.
  - rewrite decide_False by done. rewrite decide_True by done.
    assert (Forall (fun y => entry_current y = false
                             /\ entry_signal y <= entry_signal x) r) as Hall.
    { eapply Forall_impl; [exact Hx|]. simpl. intros y.
      unfold in_range_lt, in_range_key, key_lt. simpl. rewrite Ex. simpl.
      destruct (entry_current y); simpl; [done|]. rewrite Z.ltb_ge. lia. }
    assert (filter (fun y => entry_current y = true) r = []) as Hnone.
    { clear -Hall. induction Hall as [|y r [Hy _] _ IH]; [done|].
      rewrite filter_cons, decide_False; [done|]. by rewrite Hy. }
    assert (filter (fun y => entry_current y = false) r = r) as Hall'.
    { clear -Hall. induction Hall as [|y r [Hy _] _ IH]; [done|].
      rewrite filter_cons, decide_True by done. by rewrite IH. }
    rewrite Hnone, Hall'. split; [done|].
    constructor; [by rewrite <-Hall'|].
    eapply Forall_impl; [exact Hall|]. by intros y [_ ?].
Qed.

(** In a list without two equal names at most one entry is current. *)
Lemma at_most_one_current (current_ssid : str) (r : list network_entry) :
  NoDup (entry_ssid <$> r) ->
  Forall (fun x => entry_current x = bool_decide (entry_ssid x = current_ssid)) r ->
  (length (filter (fun x => entry_current x = true) r) <= 1)%nat.
Proof.
  induction r as [|x r IH]; csimpl; intros Hnd Hall; [simpl; lia|].
  apply NoDup_cons in Hnd as [Hx Hnd]. apply Forall_cons in Hall as [Hc Hall].
  rewrite filter_cons. destruct (decide (entry_current x = true)) as [Ex|Ex].
  - rewrite Ex in Hc. symmetry in Hc. apply bool_decide_eq_true in Hc.
    assert (filter (fun y => entry_current y = true) r = []) as ->;
      [|simpl; lia].
    clear IH Hnd. induction Hall as [|y r Hy _ IH]; [done|].
    rewrite filter_cons. csimpl in Hx. apply not_elem_of_cons in Hx as [Hxy Hx].
    rewrite decide_False; [by apply IH|].
    rewrite Hy. intros Hcur. apply bool_decide_eq_true in Hcur. congruence.
  - by apply IH.
Qed.

Lemma in_range_sort_eq (l : list network_entry) :
  py_sort in_range_lt l
  = py_sort (fun x y => key_lt (in_range_key x) (in_range_key y)) l.
Proof. done. Qed.

(** C3. In every result of the refresh, [in_range] is at most one entry
    marked current, which is the one named like the current network,
    followed by the entries not marked current in order of falling signal.
    It holds the entries that the loop collected, and entries with the same
    sort key stand in the order in which the loop appended them. *)
Theorem in_range_current_first_then_signal
    (py_int : str -> option Z) (w : wifi_env) (current_ssid : str) :
  let unsorted := refresh_task_unsorted py_int w current_ssid in
  let r := in_range (refresh_task py_int w current_ssid) in
  exists first rest,
    r = first ++ rest
    /\ (length first <= 1)%nat
    /\ Forall (fun x => entry_current x = true /\ entry_ssid x = current_ssid) first
    /\ Forall (fun x => entry_current x = false) rest
    /\ StronglySorted (fun a b => entry_signal b <= entry_signal a) rest
    /\ r ≡ₚ unsorted
    /\ forall k, filter (fun x => in_range_key x = k) r
                 = filter (fun x => in_range_key x = k) unsorted.
Proof.
  intros unsorted r.
  assert (r = py_sort in_range_lt unsorted) as Hr by done.
  assert (r ≡ₚ unsorted) as Hperm.
  { rewrite Hr, in_range_sort_eq. apply py_sort_perm. }
  assert (StronglySorted (fun a b => in_range_lt b a = false) r) as Hsorted.
  { rewrite Hr, in_range_sort_eq.
    apply (py_sort_sorted in_range_key key_lt);
      [apply key_lt_asym|apply key_lt_negtrans]. }
  assert (NoDup (entry_ssid <$> r)) as Hnd.
  { rewrite Hperm. apply in_range_unsorted_NoDup, refresh_merged_keys;
      [apply task_nm_keys|apply task_wp_keys]. }
  assert (Forall (fun x => entry_current x
                           = bool_decide (entry_ssid x = current_ssid)) r) as Hcur.
  { rewrite Hperm. by apply in_range_step_current. }
  destruct (in_range_sorted_shape r Hsorted) as [Hshape Hrest].
  exists (filter (fun x => entry_current x = true) r),
         (filter (fun x => entry_current x = false) r).
  split; [done|]. split; [by eapply at_most_one_current|].
  split.
  { apply Forall_forall. intros x Hx. apply list_elem_of_filter in Hx as [Hx Hin].
    split; [done|]. rewrite Forall_forall in Hcur. specialize (Hcur x Hin).
    rewrite Hx in Hcur. symmetry in Hcur. by apply bool_decide_eq_true in Hcur. }
  split.
  { apply Forall_forall. intros x Hx. by apply list_elem_of_filter in Hx as [Hx _]. }
  split; [done|]. split; [done|].
  intros k. rewrite Hr, in_range_sort_eq.
  apply (py_sort_stable in_range_key key_lt), key_lt_irrefl.
Qed.

(** ** The list [out_of_range] *)

Lemma refresh_saved_stripped (saved_wpa saved_nm : gset str) :
  stripped_set (refresh_saved saved_wpa saved_nm).
Proof.
  intros x Hx. unfold refresh_saved in Hx.
  apply elem_of_union in Hx as [Hx|Hx];
    apply elem_of_map in Hx as (y & -> & _); apply strip_idem.
Qed.

Lemma py_sort_strings_strict (l : list str) :
  NoDup l -> StronglySorted (fun a b => PyStr.ltb a b = true) (py_sort PyStr.ltb l).
Proof.
  intros Hnd.
  assert (NoDup (py_sort PyStr.ltb l)) as Hnd'.
  { by rewrite (py_sort_perm id PyStr.ltb l). }
  pose proof (py_sort_sorted id PyStr.ltb ltb_asym
                (fun a b c => ltb_negtrans a b c) l) as Hs.
  simpl in Hs. change (py_sort _ l) with (py_sort PyStr.ltb l) in Hs.
  induction Hs as [|x r Hr IH Hx]; [constructor|].
  apply NoDup_cons in Hnd' as [Hx' Hnd']. constructor; [by apply IH|].
  apply Forall_forall. intros y Hy. rewrite Forall_forall in Hx.
  specialize (Hx y Hy). simpl in Hx.
  destruct (PyStr.ltb x y) eqn:E; [done|].
  assert (x = y) as -> by (by apply ltb_total). done.
Qed.

(** C4. In every result of the refresh, [out_of_range] is the saved set
    without the names in [in_range] and without the current SSID when that
    is not empty, as a list in strictly rising code-point order.  So it has
    no name of [in_range], and it has neither the current SSID as the state
    store holds it nor its stripped form, when these are not empty. *)
Theorem out_of_range_saved_minus_in_range_minus_current
    (py_int : str -> option Z) (w : wifi_env) (client_ssid : str) :
  let current_ssid := refresh_current_ssid client_ssid in
  let r := refresh_task py_int w current_ssid in
  let saved := refresh_task_saved w in
  let names : gset str := list_to_set (entry_ssid <$> in_range r) in
  out_of_range r ≡ₚ
    elements ((saved ∖ names)
              ∖ (if PyStr.truthy current_ssid then {[ current_ssid ]} else ∅))
  /\ StronglySorted (fun a b => PyStr.ltb a b = true) (out_of_range r)
  /\ (forall x, x ∈ out_of_range r <->
        x ∈ saved /\ (forall e, e ∈ in_range r -> entry_ssid e <> x)
        /\ (current_ssid <> [] -> x <> current_ssid))
  /\ (forall e, e ∈ in_range r -> entry_ssid e ∉ out_of_range r)
  /\ (current_ssid <> [] -> current_ssid ∉ out_of_range r)
  /\ (client_ssid <> [] -> client_ssid ∉ out_of_range r).
Proof.
  intros current_ssid r saved names.
  set (gone := if PyStr.truthy current_ssid then {[ current_ssid ]} else ∅ : gset str).
  assert (out_of_range r = py_sort PyStr.ltb (elements ((saved ∖ names) ∖ gone)))
    as Hout by done.
  assert (out_of_range r ≡ₚ elements ((saved ∖ names) ∖ gone)) as Hperm.
  { rewrite Hout. apply (py_sort_perm id PyStr.ltb). }
  assert (forall x, x ∈ out_of_range r <->
            x ∈ saved /\ (forall e, e ∈ in_range r -> entry_ssid e <> x)
            /\ (current_ssid <> [] -> x <> current_ssid)) as Hmem.
  { intros x. rewrite Hperm, elem_of_elements, !elem_of_difference.
    unfold names. rewrite elem_of_list_to_set, list_elem_of_fmap.
    assert (x ∈ gone <-> current_ssid <> [] /\ x = current_ssid) as ->.
    { unfold gone. destruct current_ssid as [|c cs]; simpl.
      - rewrite elem_of_empty. by split; [|intros [? _]].
      - rewrite elem_of_singleton. by split; [|intros [_ ?]]. }
    split.
    - intros [[Hs Hn] Hc]. split; [done|]. split.
      + intros e He Heq. apply Hn. by exists e.
      + intros Hne Heq. by apply Hc.
    - intros (Hs & Hn & Hc). split; [split; [done|]|].
      + intros (e & -> & He). by apply (Hn e He).
      + intros [Hne Heq]. by apply Hc. }
  split; [done|]. split.
  { rewrite Hout. apply py_sort_strings_strict, NoDup_elements. }
  split; [done|]. split.
  { intros e He Hin. apply Hmem in Hin as (_ & Hn & _). by apply (Hn e He). }
  split.
  { intros Hne Hin. apply Hmem in Hin as (_ & _ & Hc). by apply Hc. }
  intros Hne Hin. apply Hmem in Hin as (Hs & _ & Hc).
  apply refresh_saved_stripped in Hs.
  unfold current_ssid, refresh_current_ssid in Hc.
  destruct client_ssid as [|c cs]; [done|]. simpl PyStr.truthy in Hc. cbv iota in Hc.
  apply Hc; by rewrite Hs.
Qed.

(** ** State store *)

Lemma value_eqb_refl v : value_eqb v v = true.
Proof.
  destruct v as [s|q]; simpl; [by apply bool_decide_eq_true|].
  apply Qeq_bool_iff. reflexivity.
Qed.

Lemma filter_ext_in {A} (P Q : A -> Prop) `{!forall x, Decision (P x)}
    `{!forall x, Decision (Q x)} (l : list A) :
  (forall x, x ∈ l -> P x <-> Q x) -> filter P l = filter Q l.
Proof.
  induction l as [|x l IH]; intros Hl; [done|]. rewrite !filter_cons.
  assert (P x <-> Q x) as Hx by (apply Hl, elem_of_cons; by left).
  rewrite IH by (intros y Hy; apply Hl, elem_of_cons; by right).
  destruct (decide (P x)), (decide (Q x)); tauto.
Qed.

Lemma setattr_store st k v f :
  (setattr st k v).1 f
  = if decide (f = k) then (if value_eqb (st k) v then st k else v) else st f.
Proof.
  unfold setattr. destruct (value_eqb (st k) v) eqn:E; simpl.
  - by destruct (decide (f = k)) as [->|].
  - done.
Qed.

Lemma setattr_fired st k v :
  (setattr st k v).2 = filter (fun kv => changes st kv = true) [(k, v)].
Proof.
  unfold setattr, changes. rewrite filter_cons. simpl.
  by destruct (value_eqb (st k) v).
Qed.

(** The loop of [apply_snapshot] from any store and any notifications
    already dispatched. *)
Lemma apply_snapshot_loop (snap : pydict field value) : forall st fired,
  PyDict.wf snap ->
  let r := fold_left
             (fun '(st, fired) '(k, v) =>
                let '(st', n) := setattr st k v in (st', fired ++ n))
             snap (st, fired) in
  r.2 = fired ++ filter (fun kv => changes st kv = true) snap
  /\ (forall k v, PyDict.getitem snap k = Some v -> value_eqb (r.1 k) v = true)
  /\ (forall k, PyDict.getitem snap k = None -> r.1 k = st k).
Proof.
  induction snap as [|[k v] snap IH]; intros st fired Hwf; simpl.
  - split; [by rewrite filter_nil, app_nil_r|]. by split.
  - apply wf_cons in Hwf as [Hk Hwf].
    destruct (setattr st k v) as [st1 n] eqn:E.
    assert (st1 = (setattr st k v).1) as Hst1 by (by rewrite E).
    assert (n = (setattr st k v).2) as Hn by (by rewrite E).
    destruct (IH st1 (fired ++ n) Hwf) as (Hf & Hs & Ho).
    assert (forall f, f <> k -> st1 f = st f) as Hsame.
    { intros f Hf'. rewrite Hst1, setattr_store. by rewrite decide_False. }
    split; [|split].
    + rewrite Hf, Hn, setattr_fired, <-(assoc_L (++)). f_equal.
      change ((k, v) :: snap) with ([(k, v)] ++ snap). rewrite filter_app. f_equal.
      apply filter_ext_in. intros [k' v'] Hin. unfold changes. simpl.
      rewrite Hsame; [done|]. intros ->. apply Hk.
      apply list_elem_of_fmap. by exists (k, v').
    + intros k' v'. destruct (decide (k = k')) as [<-|Hne].
      * intros [= <-]. rewrite Ho by (by apply getitem_None).
        rewrite Hst1, setattr_store, decide_True by done.
        destruct (value_eqb (st k) v) eqn:Ev; [done|apply value_eqb_refl].
      * apply Hs.
    + intros k'. destruct (decide (k = k')) as [<-|Hne]; [done|].
      intros Hnone. rewrite Ho by done. by apply Hsame.
Qed.

Lemma apply_snapshot_spec st (snap : pydict field value) :
  PyDict.wf snap ->
  (apply_snapshot st snap).2 = filter (fun kv => changes st kv = true) snap
  /\ (forall k v, PyDict.getitem snap k = Some v ->
        value_eqb ((apply_snapshot st snap).1 k) v = true)
  /\ (forall k, PyDict.getitem snap k = None -> (apply_snapshot st snap).1 k = st k).
Proof. intros Hwf. exact (apply_snapshot_loop snap st [] Hwf). Qed.

(** The keys of a collected snapshot: those of [snapshot_order], in that
    order, with or without the temperature. *)
Lemma collect_snapshot_keys py_int st p snap :
  collect_snapshot py_int st p = Some snap ->
  PyDict.keys snap = snapshot_order
  \/ PyDict.keys snap = filter (fun f => f <> cpu_temp) snapshot_order.
Proof.
  unfold collect_snapshot.
  destruct (PyStr.truthy (run_cmd (probe_thermal p))).
  - destruct (py_int (run_cmd (probe_thermal p))); [|done].
    destruct (PyStr.truthy (run_cmd (probe_pgrep_openvpn p)));
      intros [= <-]; by left.
  - destruct (PyStr.truthy (run_cmd (probe_pgrep_openvpn p)));
      intros [= <-]; by right.
Qed.

Lemma snapshot_order_NoDup : NoDup snapshot_order.
Proof. by apply (bool_decide_unpack _). Qed.

Lemma collect_snapshot_sublist py_int st p snap :
  collect_snapshot py_int st p = Some snap ->
  sublist (PyDict.keys snap) snapshot_order.
Proof.
  intros H. destruct (collect_snapshot_keys _ _ _ _ H) as [->| ->]; [done|].
  apply sublist_filter.
Qed.

Lemma collect_snapshot_wf py_int st p snap :
  collect_snapshot py_int st p = Some snap -> PyDict.wf snap.
Proof.
  intros H. eapply sublist_NoDup; [apply snapshot_order_NoDup|].
  by eapply collect_snapshot_sublist.
Qed.

(** C9, as the code has it.  Applying a collected snapshot dispatches one
    notification for each item whose value differs from the stored one, in
    the order of the snapshot's keys, which is the order in which
    [collect_snapshot] writes them.  Afterwards every property of the
    snapshot equals the snapshot's value and the others are as before. *)
Theorem apply_snapshot_notifies_in_snapshot_order
    (py_int : str -> option Z) (st : UiState) (p : probes)
    (snap : pydict field value) :
  collect_snapshot py_int st p = Some snap ->
  (apply_snapshot st snap).2 = filter (fun kv => changes st kv = true) snap
  /\ sublist (apply_snapshot st snap).2.*1 snapshot_order
  /\ NoDup (apply_snapshot st snap).2.*1
  /\ (forall k v, PyDict.getitem snap k = Some v ->
        value_eqb ((apply_snapshot st snap).1 k) v = true)
  /\ (forall k, PyDict.getitem snap k = None ->
        (apply_snapshot st snap).1 k = st k).
Proof.
  intros Hc. pose proof (collect_snapshot_wf _ _ _ _ Hc) as Hwf.
  destruct (apply_snapshot_spec st snap Hwf) as (Hf & Hs & Ho).
  assert (sublist (apply_snapshot st snap).2.*1 (PyDict.keys snap)) as Hsub.
  { rewrite Hf. unfold PyDict.keys. apply fmap_sublist, sublist_filter. }
  split; [done|]. split; [|split; [|by split]].
  - etrans; [exact Hsub|]. by eapply collect_snapshot_sublist.
  - eapply sublist_NoDup; [exact Hwf|exact Hsub].
Qed.

(** ** [connect_wpa_cli] *)

Lemma row_for_dec ssid line : Decision (row_for ssid line).
Proof.
  unfold row_for. destruct (PyStr.split PyStr.TAB line) as [|nid [|p1 rest]].
  - right. by intros (? & ? & ?).
  - right. by intros (? & ? & ?).
  - destruct (decide (p1 = ssid)) as [->|Hne].
    + left. by exists nid, rest.
    + right. intros (? & ? & [= _ ? _]). done.
Qed.

(** The search returns the id of the first row for [ssid]. *)
Lemma find_network_id_Some ssid lines nid :
  find_network_id ssid lines = Some nid <->
  exists pre line post rest,
    lines = pre ++ line :: post
    /\ Forall (fun l => ~ row_for ssid l) pre
    /\ PyStr.split PyStr.TAB line = nid :: ssid :: rest.
Proof.
  induction lines as [|l lines IH]; cbn [find_network_id].
  - split; [done|]. intros (pre & line & post & rest & H & _). by destruct pre.
  - destruct (row_for_dec ssid l) as [(n & r & Hl)|Hl].
    + rewrite Hl, bool_decide_eq_true_2 by done. split.
      * intros [= ->]. exists [], l, lines, r. by repeat split.
      * intros (pre & line & post & rest & Heq & Hpre & Hline).
        destruct pre as [|x pre]; simpl in Heq; injection Heq as -> ->.
        -- congruence.
        -- apply Forall_cons in Hpre as [Hx _]. exfalso. apply Hx. by exists n, r.
    + assert (match PyStr.split PyStr.TAB l with
              | p0 :: p1 :: _ =>
                  if bool_decide (p1 = ssid) then Some p0
                  else find_network_id ssid lines
              | _ => find_network_id ssid lines
              end = find_network_id ssid lines) as ->.
      { destruct (PyStr.split PyStr.TAB l) as [|p0 [|p1 rest]] eqn:E; [done..|].
        rewrite bool_decide_eq_false_2; [done|]. intros ->. apply Hl.
        by exists p0, rest. }
      rewrite IH. split.
      * intros (pre & line & post & rest & -> & Hpre & Hline).
        exists (l :: pre), line, post, rest. repeat split; [|done].
        by constructor.
      * intros (pre & line & post & rest & Heq & Hpre & Hline).
        destruct pre as [|x pre]; simpl in Heq; injection Heq as -> ->.
        -- exfalso. apply Hl. by exists nid, rest.
        -- apply Forall_cons in Hpre as [_ Hpre].
           by exists pre, line, post, rest.
Qed.

Lemma find_network_id_None ssid lines :
  find_network_id ssid lines = None <-> Forall (fun l => ~ row_for ssid l) lines.
Proof.
  induction lines as [|l lines IH]; cbn [find_network_id]; [by split|].
  rewrite Forall_cons.
  destruct (PyStr.split PyStr.TAB l) as [|p0 [|p1 rest]] eqn:E.
  - rewrite IH. split; [|by intros [_ ?]].
    intros ?. split; [|done]. intros (? & ? & H'). by rewrite E in H'.
  - rewrite IH. split; [|by intros [_ ?]].
    intros ?. split; [|done]. intros (? & ? & H'). by rewrite E in H'.
  - destruct (decide (p1 = ssid)) as [->|Hne].
    + rewrite bool_decide_eq_true_2 by done. split; [done|].
      intros [Hl _]. exfalso. apply Hl. by exists p0, rest.
    + rewrite bool_decide_eq_false_2 by done. rewrite IH.
      split; [|by intros [_ ?]]. intros ?. split; [|done].
      intros (? & ? & H'). rewrite E in H'. by injection H' as _ ? _.
Qed.

Lemma truthy_true (s : str) : PyStr.truthy s = true <-> s <> [].
Proof. by destruct s. Qed.

Lemma connect_wpa_cli_true c ssid :
  (connect_wpa_cli c ssid).1 = true <->
  run_cmd (conn_list_networks c) <> []
  /\ exists nid,
       find_network_id ssid
         (drop 1 (PyStr.splitlines (run_cmd (conn_list_networks c)))) = Some nid
       /\ nid <> [].
Proof.
  unfold connect_wpa_cli.
  destruct (run_cmd (conn_list_networks c)) as [|ch out] eqn:Eout; simpl.
  - split; [done|]. by intros [? _].
  - destruct (find_network_id ssid _) as [nid|]; simpl.
    + destruct nid as [|n nid]; simpl.
      * split; [done|]. by intros [_ (? & [= <-] & ?)].
      * split; [|done]. intros _. split; [done|]. by eexists.
    + split; [done|]. by intros [_ (? & ? & _)].
Qed.


(** When no row has an empty network id, success is having a row for
    [ssid]. *)
Lemma succeeds_iff_row_when_ids_present c ssid :
  Forall (fun l => forall p1 rest, PyStr.split PyStr.TAB l <> [] :: p1 :: rest)
    (drop 1 (PyStr.splitlines (run_cmd (conn_list_networks c)))) ->
  succeeds_iff_row c ssid.
Proof.
  intros Hids. unfold succeeds_iff_row. rewrite connect_wpa_cli_true. split.
  - intros [Ho (nid & Hf & _)]. split; [done|].
    apply find_network_id_Some in Hf as (pre & line & post & rest & Heq & _ & Hl).
    exists line. split; [|by exists nid, rest].
    rewrite Heq. apply elem_of_app. right. apply elem_of_cons. by left.
  - intros [Ho (line & Hin & Hrow)]. split; [done|].
    destruct (find_network_id ssid _) as [nid|] eqn:Ef.
    + exists nid. split; [done|]. intros ->.
      apply find_network_id_Some in Ef as (pre & l & post & rest & Heq & _ & Hl).
      rewrite Forall_forall in Hids. apply (Hids l) with ssid rest; [|exact Hl].
      rewrite Heq. apply elem_of_app. right. apply elem_of_cons. by left.
    + apply find_network_id_None in Ef. rewrite Forall_forall in Ef.
      by destruct (Ef line Hin).
Qed.


(** ** [_connect_to] *)

Lemma connect_to_task_cases c ssid :
  let ok := (connect_wpa_cli c ssid).1 in
  connect_to_task c ssid =
    if ok then (inr true, [(WpaCli, Returned true)])
    else if conn_has_nmcli c then
      match conn_nmcli_connect c with
      | TimedOut =>
          (inl (SubprocessError TimeoutExpired),
           [(WpaCli, Returned false); (Nmcli, Raised (SubprocessError TimeoutExpired))])
      | Exited rc _ =>
          if rc =? 0
          then (inr true, [(WpaCli, Returned false); (Nmcli, Returned true)])
          else (inl (RuntimeError (lit "Failed to connect")),
                [(WpaCli, Returned false); (Nmcli, Returned false)])
      end
    else (inl (RuntimeError (lit "Failed to connect")), [(WpaCli, Returned false)]).
Proof.
  intros ok. unfold connect_to_task. fold ok. destruct ok; simpl.
  - by destruct (conn_has_nmcli c).
  - destruct (conn_has_nmcli c); [|done].
    destruct (conn_nmcli_connect c) as [rc out|]; simpl; [|done].
    unfold connect_nmcli. simpl. by destruct (rc =? 0).
Qed.

Local Ltac tried_cases :=
  repeat match goal with
         | H : exists _, _ |- _ => destruct H
         | H : _ /\ _ |- _ => destruct H
         | H : _ \/ _ |- _ => destruct H
         | H : False |- _ => destruct H
         | H : ~ _ |- _ => exfalso; apply H; clear H
         end;
  subst; simpl in *; try done; try congruence; eauto 10.

(** C6. An attempt to connect, made while none is in flight, tries wpa_cli
    first, and tries nmcli exactly when wpa_cli answered failure and nmcli
    is installed.  It succeeds exactly when a backend that it tried answered
    success.  On success the callback asks for a refresh of the state store
    and schedules the GeoIP lookup one second later; on failure it shows an
    error.  In neither case does the callback write the state store. *)
Theorem connect_to_tries_wpa_cli_then_nmcli (c : connect_env) (ssid : str) (u : ui) :
  ui_connecting u = false ->
  let primary_ok := (connect_wpa_cli c ssid).1 in
  let u' := (connect_to c ssid u).1 in
  let tried := (connect_to c ssid u).2 in
  (exists rest, tried = (WpaCli, Returned primary_ok) :: rest
                /\ (rest = [] \/ exists r, rest = [(Nmcli, r)]))
  /\ ((exists r, (Nmcli, r) ∈ tried) <-> primary_ok = false /\ conn_has_nmcli c = true)
  /\ (connect_succeeded c ssid <-> exists t, t ∈ tried /\ attempt_ok t.2 = true)
  /\ (connect_succeeded c ssid ->
        ui_effects u' = ui_effects u ++ [UpdateAsync; ScheduleGeoip 1000]
                          ++ (if ui_manager u then [SetScreen (lit "main")] else []))
  /\ (~ connect_succeeded c ssid ->
        ui_effects u' = ui_effects u
                          ++ [ShowMessage wifi_title
                                (lit "Failed to connect to:" ++ [PyStr.LF] ++ ssid) true])
  /\ ui_STATE u' = ui_STATE u
  /\ ui_connecting u' = false.
Proof.
  intros Hidle primary_ok u' tried.
  unfold u', tried, connect_to, connect_to_begin, connect_succeeded.
  rewrite Hidle. rewrite connect_to_task_cases. fold primary_ok.
  destruct primary_ok; [|destruct (conn_has_nmcli c);
    [destruct (conn_nmcli_connect c) as [rc out|]; [destruct (rc =? 0)|]|]];
    simpl; repeat setoid_rewrite elem_of_cons; repeat setoid_rewrite elem_of_nil;
    (split; [eexists; split; [done|]; first [by left | right; by eexists]|]);
    repeat split; intros; tried_cases.
Qed.

(** An attempt made while another one is in flight does nothing. *)
Lemma connect_to_rejected c ssid u :
  ui_connecting u = true -> connect_to c ssid u = (u, []).
Proof. intros H. unfold connect_to, connect_to_begin. by rewrite H. Qed.

(** ** Background jobs *)

Section runner_facts.
Context {E A : Type}.
Implicit Types (r : runner E A) (j : job E A).

(** [_worker] catches whatever the body raises. *)
Lemma worker_catches j : worker j = inr (completion_args (job_fn j ())).
Proof. unfold worker, completion_args. by destruct (job_fn j ()). Qed.

Lemma bind_ext_Forall {B C} (f g : B -> list C) (l : list B) :
  Forall (fun x => f x = g x) l -> l ≫= f = l ≫= g.
Proof.
  induction 1 as [|x l Hx _ IH]; [done|]. csimpl. by rewrite Hx, IH.
Qed.

Lemma runner_init_inv : runner_inv (@runner_init E A).
Proof. unfold runner_inv; simpl. by repeat split. Qed.

Lemma fired_lt r n :
  runner_inv r -> n ∈ fired r -> (n < length (submitted r))%nat.
Proof.
  intros (Hp & _) Hn.
  assert (n ∈ seq 0 (length (submitted r))) as Hin.
  { rewrite <-Hp. apply elem_of_app. right. apply elem_of_app. by right. }
  apply elem_of_seq in Hin. lia.
Qed.

Lemma expected_calls_app (subm : list (job E A)) j n :
  (n < length subm)%nat ->
  expected_calls (subm ++ [j]) n = expected_calls subm n.
Proof. intros Hn. unfold expected_calls. by rewrite lookup_app_l. Qed.

Lemma run_bg_inv j r : runner_inv r -> runner_inv (run_bg j r).
Proof.
  intros Hr. pose proof Hr as (Hp & Ht & Hc & Hcalls & Hu).
  unfold runner_inv, run_bg; simpl. split; [|split; [|split; [|split]]].
  - rewrite length_app, fmap_app. simpl.
    rewrite Nat.add_1_r, seq_S. simpl. rewrite <-Hp.
    rewrite <-!(assoc_L (++)). f_equiv.
    rewrite (assoc_L (++) _ (fired r)). apply Permutation_app_comm.
  - apply Forall_app. split.
    + eapply Forall_impl; [exact Ht|]. intros [i j'] Hi. simpl in *.
      by apply lookup_app_l_Some.
    + constructor; [|done]. simpl. by rewrite list_lookup_middle.
  - eapply Forall_impl; [exact Hc|]. intros a (j' & Hj & Ha).
    exists j'. split; [by apply lookup_app_l_Some|done].
  - rewrite Hcalls. apply bind_ext_Forall, Forall_forall. intros n Hn.
    symmetry. by apply expected_calls_app, fired_lt.
  - done.
Qed.

Lemma run_worker_inv i r : runner_inv r -> runner_inv (run_worker i r).
Proof.
  intros (Hp & Ht & Hc & Hcalls & Hu). unfold run_worker.
  destruct (threads r !! i) as [[n j]|] eqn:Ei; [|by repeat split].
  rewrite worker_catches. unfold runner_inv; simpl.
  split; [|split; [|split; [|split]]]; try done.
  - rewrite <-Hp, fmap_app. simpl.
    pose proof (delete_Permutation (threads r) i (n, j) Ei) as Hd.
    apply (fmap_Permutation fst) in Hd. csimpl in Hd. rewrite Hd.
    rewrite <-!(assoc_L (++)). simpl.
    rewrite <-(Permutation_middle _ (fired r) n).
    by rewrite <-Permutation_middle.
  - by apply Forall_delete.
  - apply Forall_app. split; [done|]. constructor; [|done]. simpl.
    exists j. split; [|done].
    rewrite Forall_forall in Ht. apply (Ht (n, j)).
    by eapply list_elem_of_lookup_2.
Qed.

Lemma run_after_expected r :
  Forall (fun a => exists j, submitted r !! after_job a = Some j
            /\ after_args a = completion_args (job_fn j ())
            /\ after_on_done a = job_on_done j) (clock r) ->
  clock r ≫= run_after = (after_job <$> clock r) ≫= expected_calls (submitted r).
Proof.
  induction 1 as [|a l (j & Hj & Ha & Hd) _ IH]; [done|]. csimpl.
  rewrite IH. f_equal. unfold run_after, expected_calls.
  rewrite Hj, Hd, Ha. by destruct (job_on_done j).
Qed.

Lemma clock_frame_inv r : runner_inv r -> runner_inv (clock_frame r).
Proof.
  intros (Hp & Ht & Hc & Hcalls & Hu). unfold runner_inv, clock_frame; simpl.
  split; [|split; [|split; [|split]]]; try done.
  - rewrite <-Hp. f_equiv. apply Permutation_app_comm.
  - rewrite bind_app, <-Hcalls. f_equal. by apply run_after_expected.
Qed.

Lemma runner_step_inv r ev : runner_inv r -> runner_inv (runner_step r ev).
Proof.
  destruct ev; simpl; [apply run_bg_inv|apply run_worker_inv|apply clock_frame_inv].
Qed.

Lemma runner_exec_inv evs : runner_inv (@runner_exec E A evs).
Proof.
  unfold runner_exec. apply fold_left_preserves; [|apply runner_init_inv].
  intros r ev. apply runner_step_inv.
Qed.

Lemma fired_NoDup r : runner_inv r -> NoDup (fired r).
Proof.
  intros (Hp & _).
  assert (NoDup ((threads r).*1 ++ (after_job <$> clock r) ++ fired r)) as Hnd.
  { rewrite Hp. apply NoDup_seq. }
  apply NoDup_app in Hnd as (_ & _ & Hnd). by apply NoDup_app in Hnd as (_ & _ & ?).
Qed.

Lemma expected_calls_job (subm : list (job E A)) n :
  Forall (fun c => call_job c = n) (expected_calls subm n).
Proof.
  unfold expected_calls. destruct (subm !! n) as [j|]; [|done].
  destruct (job_on_done j); [|done]. by constructor.
Qed.

Lemma filter_all {B} (P : B -> Prop) `{!forall x, Decision (P x)} (l : list B) :
  Forall P l -> filter P l = l.
Proof.
  induction 1 as [|x l Hx _ IH]; [done|].
  by rewrite filter_cons, decide_True, IH.
Qed.

Lemma filter_none {B} (P : B -> Prop) `{!forall x, Decision (P x)} (l : list B) :
  Forall (fun x => ~ P x) l -> filter P l = [].
Proof.
  induction 1 as [|x l Hx _ IH]; [done|].
  by rewrite filter_cons, decide_False, IH.
Qed.

Lemma calls_of_expected r n :
  runner_inv r ->
  calls_of n r = if decide (n ∈ fired r) then expected_calls (submitted r) n else [].
Proof.
  intros Hr. pose proof (fired_NoDup r Hr) as Hnd.
  destruct Hr as (_ & _ & _ & Hcalls & _). unfold calls_of. rewrite Hcalls.
  clear Hcalls. induction Hnd as [|x l Hx Hnd IH]; [done|]. csimpl.
  rewrite filter_app, IH. destruct (decide (x = n)) as [->|Hne].
  - rewrite (decide_False (P := n ∈ l)) by done.
    rewrite decide_True by (apply elem_of_cons; by left).
    rewrite filter_all by apply expected_calls_job. apply app_nil_r.
  - rewrite filter_none.
    + destruct (decide (n ∈ l)) as [Hin|Hn].
      * rewrite decide_True; [done|]. apply elem_of_cons. by right.
      * rewrite decide_False; [done|]. rewrite elem_of_cons. by intros [->|?].
    + eapply Forall_impl; [apply expected_calls_job|]. simpl. by intros c ->.
Qed.

Lemma run_workers_all (k : nat) : forall r,
  length (threads r) = k ->
  threads (fold_left runner_step (replicate k (RunWorker 0)) r) = []
  /\ submitted (fold_left runner_step (replicate k (RunWorker 0)) r) = submitted r.
Proof.
  induction k as [|k IH]; intros r Hk; simpl.
  - split; [|done]. by apply nil_length_inv.
  - destruct (threads r) as [|[n j] ts] eqn:Et; [done|].
    assert (run_worker 0 r
            = {| submitted := submitted r; threads := ts;
                 clock := clock r ++ [ {| after_job := n;
                                          after_args := completion_args (job_fn j ());
                                          after_on_done := job_on_done j |} ];
                 fired := fired r; calls := calls r;
                 unhandled := unhandled r |}) as ->.
    { unfold run_worker. rewrite Et. simpl. by rewrite worker_catches. }
    match goal with |- context [fold_left _ _ ?x] => destruct (IH x) as [H1 H2] end.
    { simpl in *. lia. }
    split; [done|]. by rewrite H2.
Qed.

Lemma drain_quiescent r :
  let r' := fold_left runner_step (drain r) r in
  threads r' = [] /\ clock r' = [] /\ submitted r' = submitted r.
Proof.
  unfold drain. rewrite fold_left_app. simpl.
  by destruct (run_workers_all (length (threads r)) r eq_refl) as [-> ->].
Qed.
End runner_facts.


(** ** Debounced GeoIP trigger *)

Section debounce_facts.
Variable delay : Z.

Lemma trigger_idle t a : idle a -> armed (t + delay) (trigger_geoip_soon delay t a).
Proof.
  intros (Hp & Ht & Hl). exists (next_id a).
  unfold trigger_geoip_soon. rewrite Hp, Ht. by simpl.
Qed.

Lemma trigger_armed t due a :
  armed due a -> armed (t + delay) (trigger_geoip_soon delay t a).
Proof.
  intros (id & Hp & Ht & Hl). exists (next_id a).
  unfold trigger_geoip_soon, cancel. rewrite Hp, Ht. simpl.
  rewrite filter_cons, decide_False by (simpl; intros H; by apply H). by simpl.
Qed.

Lemma tick_idle t a : idle a -> idle (clock_tick t a).
Proof.
  intros (Hp & Ht & Hl). unfold idle, clock_tick. simpl.
  rewrite Hp, Ht, Hl. by simpl.
Qed.

Lemma tick_armed_early t due a :
  t < due -> armed due a -> armed due (clock_tick t a).
Proof.
  intros Hlt (id & Hp & Ht & Hl). exists id. unfold clock_tick. simpl.
  rewrite Hp, Ht, Hl. rewrite !filter_cons. simpl.
  rewrite decide_True by done. rewrite decide_False by lia. by simpl.
Qed.

Lemma trigger_times_app evs evs' :
  trigger_times (evs ++ evs') = trigger_times evs ++ trigger_times evs'.
Proof. apply omap_app. Qed.

Lemma first_trigger_is_event evs t ts :
  trigger_times evs = t :: ts -> t ∈ event_time <$> evs.
Proof.
  induction evs as [|[u|u] evs IH]; csimpl; [done| |].
  - intros [= -> _]. apply list_elem_of_here.
  - intros H. apply elem_of_cons. right. by apply IH.
Qed.

(** While the triggers of a burst keep coming, a single timer stays
    armed, for [delay] after the latest trigger. *)
Lemma burst_keeps_armed tn pre : forall a last,
  armed (last + delay) a ->
  StronglySorted Z.le (last :: (event_time <$> (pre ++ [Trigger tn]))) ->
  within_window delay (last :: trigger_times (pre ++ [Trigger tn])) ->
  armed (tn + delay) (fold_left (geoip_step delay) (pre ++ [Trigger tn]) a).
Proof.
  induction pre as [|[t|t] pre IH]; intros a last Ha Hs Hw.
  - simpl. by eapply trigger_armed.
  - rewrite <-app_comm_cons, fmap_cons in Hs. simpl event_time in Hs.
    simpl. apply (IH _ t).
    + by eapply trigger_armed.
    + by apply StronglySorted_inv in Hs as [? _].
    + simpl in Hw. by destruct Hw as [_ ?].
  - rewrite <-app_comm_cons, fmap_cons in Hs. simpl event_time in Hs.
    apply StronglySorted_inv in Hs as [Hs Hall].
    apply Forall_cons in Hall as [Hlast Hall].
    apply StronglySorted_inv in Hs as [Hs Ht].
    simpl. apply (IH _ last).
    + apply tick_armed_early; [|done].
      csimpl in Hw. rewrite trigger_times_app in Hw. simpl trigger_times in Hw.
      destruct (trigger_times pre ++ [tn]) as [|t' ts] eqn:Et;
        [by destruct (trigger_times pre)|].
      destruct Hw as [Hlt _].
      assert (t' ∈ event_time <$> (pre ++ [Trigger tn])) as Hin.
      { apply (first_trigger_is_event _ t' ts).
        by rewrite trigger_times_app. }
      rewrite Forall_forall in Ht. specialize (Ht t' Hin). lia.
    + by constructor.
    + done.
Qed.

Lemma burst_arms tn pre : forall a,
  idle a ->
  StronglySorted Z.le (event_time <$> (pre ++ [Trigger tn])) ->
  within_window delay (trigger_times (pre ++ [Trigger tn])) ->
  armed (tn + delay) (fold_left (geoip_step delay) (pre ++ [Trigger tn]) a).
Proof.
  induction pre as [|[t|t] pre IH]; intros a Ha Hs Hw.
  - simpl. by apply trigger_idle.
  - simpl. apply (burst_keeps_armed tn pre _ t); [by apply trigger_idle|done..].
  - rewrite <-app_comm_cons, fmap_cons in Hs.
    apply StronglySorted_inv in Hs as [Hs _].
    simpl. apply IH; [by apply tick_idle|done..].
Qed.

(** After its timer fired, frames do nothing. *)
Lemma frames_without_timer post : forall a,
  timers a = [] -> trigger_times post = [] ->
  lookups (fold_left (geoip_step delay) post a) = lookups a.
Proof.
  induction post as [|[t|t] post IH]; intros a Ht Hp; [done..|].
  simpl. rewrite IH; [|by simpl; rewrite Ht|done].
  simpl. rewrite Ht. simpl. apply app_nil_r.
Qed.

(** The frames after the burst: the timer fires at the first frame that
    is not before it is due. *)
Lemma frames_with_timer id due post : forall a,
  timers a = [ {| ev_id := id; ev_due := due |} ] ->
  trigger_times post = [] ->
  lookups (fold_left (geoip_step delay) post a)
  = lookups a ++ match first_frame_from due post with
                 | Some t => [t]
                 | None => []
                 end.
Proof.
  unfold first_frame_from.
  induction post as [|[t|t] post IH]; intros a Ht Hp; [by rewrite app_nil_r|done|].
  csimpl. destruct (decide (due <= t)) as [Hdue|Hdue].
  - rewrite frames_without_timer; [| |done].
    + simpl. rewrite Ht, filter_cons. simpl. by rewrite decide_True.
    + simpl. rewrite Ht, filter_cons. simpl. rewrite decide_False by lia. done.
  - assert (clock_tick t a = a) as ->.
    { destruct a as [p ts n l]. unfold clock_tick. simpl in *. subst ts.
      rewrite !filter_cons. simpl. rewrite decide_True by lia.
      rewrite decide_False by done. simpl. by rewrite app_nil_r. }
    rewrite IH by done. f_equal.
    by destruct (list_find _ _) as [[? ?]|].
Qed.
End debounce_facts.


(** ** Worked examples *)

(** The scenario of the specification. *)
Example refresh_task_scenario :
  refresh_task decimal_int wifi_env_example (refresh_current_ssid (lit "Home"))
  = {| in_range := [ {| entry_ssid := lit "Home"; entry_signal := 80;
                        entry_security := lit "WPA2"; entry_current := true |} ];
       out_of_range := [lit "Office"] |}.
Proof. by vm_compute. Qed.

(** With every tool down the refresh still answers, with two empty lists. *)
Example refresh_task_all_down :
  refresh_task decimal_int wifi_env_down (refresh_current_ssid (lit "Disconnected"))
  = {| in_range := []; out_of_range := [] |}.
Proof. by vm_compute. Qed.

Example busy_nested :
  (fun o => (BUSY_DEPTH (obs_after o), obs_event o))
    <$> busy_trace [Enter; Enter; Exit; Exit; Exit; Enter] busy_init
  = [(1, Some AddWidget); (2, None); (1, None); (0, Some RemoveWidget);
     (0, None); (1, Some AddWidget)].
Proof. done. Qed.

(** The merge of the two example scans, at [Home], which both saw. *)
Lemma refresh_merged_keeps_maximum_witness :
  PyDict.wf nm_example /\ PyDict.wf wp_example
  /\ (is_Some (PyDict.getitem nm_example (lit "Home"))
      \/ is_Some (PyDict.getitem wp_example (lit "Home")))
  /\ exists info,
       PyDict.getitem (refresh_merged nm_example wp_example) (lit "Home") = Some info
       /\ match PyDict.getitem nm_example (lit "Home"),
                PyDict.getitem wp_example (lit "Home") with
          | Some a, Some b =>
              info_signal info = Z.max (info_signal a) (info_signal b)
              /\ (info = a \/ info = b)
              /\ (info_signal b <= info_signal a -> info = a)
          | Some a, None => info = a
          | None, Some b => info = b
          | None, None => False
          end.
Proof.
  assert (PyDict.wf nm_example) as Hnm by (by apply (bool_decide_unpack _)).
  assert (PyDict.wf wp_example) as Hwp by (by apply (bool_decide_unpack _)).
  assert (is_Some (PyDict.getitem nm_example (lit "Home"))
          \/ is_Some (PyDict.getitem wp_example (lit "Home"))) as Hin
    by (left; by eexists).
  split; [done|]. split; [done|]. split; [done|].
  exact (refresh_merged_keeps_maximum nm_example wp_example (lit "Home") Hnm Hwp Hin).
Defined.

(** An attempt from the screen at rest, where wpa_cli does not know the
    network and nmcli connects. *)
Lemma connect_to_tries_wpa_cli_then_nmcli_witness :
  ui_connecting ui_idle = false
  /\ (let c := connect_env_fallback in
      let ssid := lit "Office" in
      let u := ui_idle in
      let primary_ok := (connect_wpa_cli c ssid).1 in
      let u' := (connect_to c ssid u).1 in
      let tried := (connect_to c ssid u).2 in
      (exists rest, tried = (WpaCli, Returned primary_ok) :: rest
                    /\ (rest = [] \/ exists r, rest = [(Nmcli, r)]))
      /\ ((exists r, (Nmcli, r) ∈ tried) <-> primary_ok = false /\ conn_has_nmcli c = true)
      /\ (connect_succeeded c ssid <-> exists t, t ∈ tried /\ attempt_ok t.2 = true)
      /\ (connect_succeeded c ssid ->
            ui_effects u' = ui_effects u ++ [UpdateAsync; ScheduleGeoip 1000]
                              ++ (if ui_manager u then [SetScreen (lit "main")] else []))
      /\ (~ connect_succeeded c ssid ->
            ui_effects u' = ui_effects u
                              ++ [ShowMessage wifi_title
                                    (lit "Failed to connect to:" ++ [PyStr.LF] ++ ssid) true])
      /\ ui_STATE u' = ui_STATE u
      /\ ui_connecting u' = false).
Proof.
  split; [reflexivity|].
  exact (connect_to_tries_wpa_cli_then_nmcli connect_env_fallback (lit "Office")
           ui_idle eq_refl).
Defined.

(** The scenario of the specification: wpa_cli fails, nmcli succeeds, and
    the callback asks for a refresh of the state store. *)
Example connect_to_fallback_scenario :
  (connect_to connect_env_fallback (lit "Office") ui_idle).2
  = [(WpaCli, Returned false); (Nmcli, Returned true)]
  /\ ui_effects (connect_to connect_env_fallback (lit "Office") ui_idle).1
     = [UpdateAsync; ScheduleGeoip 1000; SetScreen (lit "main")].
Proof. by vm_compute. Qed.


(** The example of the specification: one lookup, at the frame at 700 ms. *)
Example geoip_burst_scenario :
  lookups (geoip_run 500 (burst_example ++ Trigger 200 :: after_burst_example))
  = [700].
Proof. by vm_compute. Qed.

(** The snapshot collected in the example, applied to the defaults. *)
Lemma apply_snapshot_notifies_in_snapshot_order_witness :
  collect_snapshot decimal_int UiState_defaults probes_example = Some snapshot_example
  /\ (let st := UiState_defaults in
      let snap := snapshot_example in
      (apply_snapshot st snap).2 = filter (fun kv => changes st kv = true) snap
      /\ sublist (apply_snapshot st snap).2.*1 snapshot_order
      /\ NoDup (apply_snapshot st snap).2.*1
      /\ (forall k v, PyDict.getitem snap k = Some v ->
            value_eqb ((apply_snapshot st snap).1 k) v = true)
      /\ (forall k, PyDict.getitem snap k = None ->
            (apply_snapshot st snap).1 k = st k)).
Proof.
  assert (collect_snapshot decimal_int UiState_defaults probes_example
          = Some snapshot_example) as Hc by (by vm_compute).
  split; [done|].
  exact (apply_snapshot_notifies_in_snapshot_order decimal_int UiState_defaults
           probes_example snapshot_example Hc).
Defined.

(** C9, as claimed, fails: the snapshot collected in the example changes
    [client_ssid] and then [ap_status], and the notifications come in that
    order, while the class defines [ap_status] before [client_ssid]. *)
Lemma apply_snapshot_not_in_class_order :
  collect_snapshot decimal_int UiState_defaults probes_example = Some snapshot_example
  /\ ~ notified_in_class_order UiState_defaults snapshot_example.
Proof.
  split; [by vm_compute|]. unfold notified_in_class_order. intros H.
  assert ((apply_snapshot UiState_defaults snapshot_example).2.*1
          = [net_status; client_ssid; ap_status; cpu_temp; hostname; uptime;
             connected_clients; ap_ssid; ip_address]) as Heq by (by vm_compute).
  rewrite Heq in H.
  apply StronglySorted_inv in H as [H _].
  apply StronglySorted_inv in H as [_ H].
  apply Forall_cons in H as [H _]. simpl in H. lia.
Qed.

(* ===================================================================== *)
(** * Further facts *)
(* ===================================================================== *)

(** ** Signal levels *)

(** X1. [dbm_to_percent] answers between 0 and 100 and never falls when
    the level rises: 0 up to -100 dBm, 100 from -50 dBm on, two points per
    dBm in between, and 0 for a missing level. *)
Theorem dbm_to_percent_range_and_shape :
  (forall d, 0 <= dbm_to_percent d <= 100)
  /\ (forall a b, a <= b -> dbm_to_percent (Some a) <= dbm_to_percent (Some b))
  /\ (forall a, a <= -100 -> dbm_to_percent (Some a) = 0)
  /\ (forall a, -50 <= a -> dbm_to_percent (Some a) = 100)
  /\ (forall a, -100 <= a <= -50 -> dbm_to_percent (Some a) = 2 * (a + 100))
  /\ dbm_to_percent None = 0.
Proof.
  unfold dbm_to_percent. repeat split; try (destruct d); intros; lia.
Qed.

(** ** Readings *)

Lemma scan_nmcli_line_reading py_int d line :
  scan_nmcli_line py_int d line
  = match scan_nmcli_reading py_int line with
    | Some (k, i) => keep_stronger d k i
    | None => d
    end.
Proof.
  unfold scan_nmcli_line, scan_nmcli_reading.
  destruct (negb (PyStr.truthy line)); [done|].
  destruct (PyStr.split PyStr.COLON line) as [|p0 [|p1 rest]]; [done..|].
  by destruct (negb (PyStr.truthy (PyStr.strip p0))).
Qed.

Lemma scan_wpa_cli_line_reading py_int d line :
  scan_wpa_cli_line py_int d line
  = match scan_wpa_cli_reading py_int line with
    | Some (k, i) => keep_stronger d k i
    | None => d
    end.
Proof.
  unfold scan_wpa_cli_line, scan_wpa_cli_reading.
  destruct (PyStr.split PyStr.TAB line) as [|? [|? [|p2 [|p3 [|p4 ?]]]]]; [done..|].
  by destruct (negb (PyStr.truthy (PyStr.strip p4))).
Qed.

Lemma fold_left_readings {L} (f : pydict str scan_info -> L -> pydict str scan_info)
    (reading : L -> option (str * scan_info)) (lines : list L) :
  (forall d line, f d line = match reading line with
                             | Some (k, i) => keep_stronger d k i
                             | None => d
                             end) ->
  forall d, fold_left f lines d = keep_readings d (reading <$> lines).
Proof.
  intros Hf. unfold keep_readings.
  induction lines as [|line lines IH]; intros d; csimpl; [done|].
  by rewrite IH, Hf.
Qed.

Lemma stronger_signal old new :
  info_signal new <= info_signal (stronger old new)
  /\ (forall o, old = Some o -> info_signal o <= info_signal (stronger old new))
  /\ (stronger old new = new \/ old = Some (stronger old new)).
Proof.
  unfold stronger. destruct old as [o|].
  - destruct (info_signal new >? info_signal o) eqn:E.
    + apply Z.gtb_lt in E. split; [lia|]. split; [|by left].
      intros ? [= <-]. lia.
    + rewrite Z.gtb_ltb in E. apply Z.ltb_ge in E. split; [lia|].
      split; [|by right]. intros ? [= <-]. lia.
  - split; [lia|]. split; [done|by left].
Qed.

(** An entry that is in the dictionary stays or gives way to a stronger
    one. *)
Lemma keep_readings_grows rs : forall d k i,
  PyDict.getitem d k = Some i ->
  exists best, PyDict.getitem (keep_readings d rs) k = Some best
               /\ info_signal i <= info_signal best.
Proof.
  unfold keep_readings.
  induction rs as [|[[s info]|] rs IH]; intros d k i Hd; simpl.
  - exists i. split; [done|lia].
  - destruct (decide (s = k)) as [->|Hne].
    + destruct (stronger_signal (PyDict.getitem d k) info) as (_ & Hold & _).
      specialize (Hold i Hd).
      destruct (IH (keep_stronger d k info) k (stronger (PyDict.getitem d k) info))
        as (best & Hb & Hle).
      { by rewrite getitem_keep_stronger, decide_True. }
      exists best. split; [done|lia].
    + apply IH. by rewrite getitem_keep_stronger, decide_False.
  - by apply IH.
Qed.

(** Every reading is answered by an entry at least as strong. *)
Lemma keep_readings_covers rs : forall d k i,
  Some (k, i) ∈ rs ->
  exists best, PyDict.getitem (keep_readings d rs) k = Some best
               /\ info_signal i <= info_signal best.
Proof.
  induction rs as [|r rs IH]; intros d k i Hin; [by apply elem_of_nil in Hin|].
  apply elem_of_cons in Hin as [<-|Hin].
  - change (keep_readings d (Some (k, i) :: rs))
      with (keep_readings (keep_stronger d k i) rs).
    destruct (stronger_signal (PyDict.getitem d k) i) as (Hnew & _ & _).
    destruct (keep_readings_grows rs (keep_stronger d k i) k
                (stronger (PyDict.getitem d k) i)) as (best & Hb & Hle).
    { by rewrite getitem_keep_stronger, decide_True. }
    exists best. split; [done|lia].
  - change (keep_readings d (r :: rs))
      with (keep_readings
              (match r with Some (k, i) => keep_stronger d k i | None => d end) rs).
    by apply IH.
Qed.

(** Every entry was in the dictionary or is one of the readings. *)
Lemma keep_readings_origin rs : forall d k best,
  PyDict.getitem (keep_readings d rs) k = Some best ->
  PyDict.getitem d k = Some best \/ Some (k, best) ∈ rs.
Proof.
  unfold keep_readings.
  induction rs as [|[[s info]|] rs IH]; intros d k best Hb; simpl in Hb.
  - by left.
  - apply IH in Hb as [Hb|Hb]; [|right; apply elem_of_cons; by right].
    rewrite getitem_keep_stronger in Hb.
    destruct (decide (s = k)) as [->|Hne]; [|by left].
    injection Hb as Hb.
    destruct (stronger_signal (PyDict.getitem d k) info) as (_ & _ & [Hs|Hs]).
    + right. apply elem_of_cons. left. by rewrite <-Hb, Hs.
    + left. by rewrite Hs, Hb.
  - apply IH in Hb as [Hb|Hb]; [by left|]. right. apply elem_of_cons. by right.
Qed.

(** X2. [scan_nmcli] keeps the strongest reading of each network: every
    line of the listing that names a network is answered in the result by
    an entry for that network with at least the line's signal, and every
    entry of the result is the reading of a line of the listing. *)
Theorem scan_nmcli_keeps_strongest_reading
    (py_int : str -> option Z) (rescan wifi_list : proc_result) :
  let result := scan_nmcli py_int rescan wifi_list in
  let lines := PyStr.splitlines (run_cmd wifi_list) in
  (forall line k info, line ∈ lines ->
      scan_nmcli_reading py_int line = Some (k, info) ->
      exists best, PyDict.getitem result k = Some best
                   /\ info_signal info <= info_signal best)
  /\ (forall k best, PyDict.getitem result k = Some best ->
        exists line, line ∈ lines /\ scan_nmcli_reading py_int line = Some (k, best)).
Proof.
  intros result lines.
  assert (result = keep_readings [] (scan_nmcli_reading py_int <$> lines)) as ->.
  { unfold result, scan_nmcli, lines.
    destruct (run_cmd wifi_list) as [|c out] eqn:E; [done|]. simpl negb. cbv iota.
    apply fold_left_readings. intros. apply scan_nmcli_line_reading. }
  split.
  - intros line k info Hin Hr. apply keep_readings_covers.
    rewrite <-Hr. apply list_elem_of_fmap. by exists line.
  - intros k best Hb. apply keep_readings_origin in Hb as [Hb|Hb]; [done|].
    apply list_elem_of_fmap in Hb as (line & Hr & Hin). by exists line.
Qed.

(** ** The polls of [scan_wpa_cli] *)

Lemma elem_of_setitem {K V} `{EqDecision K} (d : pydict K V) k v x :
  x ∈ PyDict.setitem d k v -> x ∈ d \/ x = (k, v).
Proof.
  induction d as [|[k' v'] d IH]; simpl.
  - intros Hx. apply list_elem_of_singleton in Hx. by right.
  - destruct (decide (k' = k)) as [->|Hne]; rewrite !elem_of_cons.
    + intros [->|Hx]; [by right|]. left. by right.
    + intros [->|Hx]; [left; by left|].
      destruct (IH Hx) as [?|?]; [left; by right|by right].
Qed.

Lemma Forall_keep_stronger (P : str * scan_info -> Prop) d k info :
  Forall P d -> P (k, info) -> Forall P (keep_stronger d k info).
Proof.
  intros Hd Hk. unfold keep_stronger.
  assert (Forall P (PyDict.setitem d k info)) as Hset.
  { apply Forall_forall. intros x Hx. apply elem_of_setitem in Hx as [Hx| ->]; [|done].
    rewrite Forall_forall in Hd. by apply Hd. }
  destruct (PyDict.getitem d k) as [old|]; [|done].
  by destruct (info_signal info >? info_signal old).
Qed.

Lemma scan_wpa_cli_line_percent py_int d line :
  Forall percent_entry d -> Forall percent_entry (scan_wpa_cli_line py_int d line).
Proof.
  intros Hd. rewrite scan_wpa_cli_line_reading. unfold scan_wpa_cli_reading.
  destruct (PyStr.split PyStr.TAB line) as [|? [|? [|p2 [|p3 [|p4 ?]]]]]; [done..|].
  destruct (PyStr.truthy (PyStr.strip p4)) eqn:E; [|done]. simpl negb. cbv iota.
  apply Forall_keep_stronger; [done|]. unfold percent_entry. simpl.
  split; [by apply truthy_true|]. split; [apply strip_idem|].
  unfold dbm_to_percent. lia.
Qed.

Lemma scan_wpa_cli_polls_percent py_int polls : forall d,
  Forall percent_entry d -> Forall percent_entry (scan_wpa_cli_polls py_int polls d).
Proof.
  induction polls as [|p polls IH]; intros d Hd; simpl; [done|].
  destruct (negb (PyStr.truthy (run_cmd p))); [by apply IH|].
  assert (Forall percent_entry
            (fold_left (scan_wpa_cli_line py_int)
               (drop 1 (PyStr.splitlines (run_cmd p))) d)) as Hd'.
  { apply fold_left_preserves; [|done]. intros ? ?. apply scan_wpa_cli_line_percent. }
  destruct (fold_left _ _ d); [by apply IH|done].
Qed.

(** X3. Whatever [wpa_cli] prints, every entry of [scan_wpa_cli] has a name
    that is not empty and carries no white space at its ends, no name
    occurs twice, and every signal is a percentage between 0 and 100. *)
Theorem scan_wpa_cli_entries_are_percentages
    (py_int : str -> option Z) (scan : proc_result) (scan_results : nat -> proc_result) :
  Forall percent_entry (scan_wpa_cli py_int scan scan_results)
  /\ PyDict.wf (scan_wpa_cli py_int scan scan_results).
Proof.
  split.
  - by apply scan_wpa_cli_polls_percent.
  - apply scan_wpa_cli_polls_keys, stripped_keys_nil.
Qed.

Lemma scan_wpa_cli_polls_cons py_int p polls :
  scan_wpa_cli_polls py_int (p :: polls) []
  = match scan_wpa_cli_poll py_int p with
    | [] => scan_wpa_cli_polls py_int polls []
    | d => d
    end.
Proof.
  simpl. unfold scan_wpa_cli_poll.
  destruct (negb (PyStr.truthy (run_cmd p))); [done|].
  by destruct (fold_left _ _ []).
Qed.

Lemma scan_wpa_cli_polls_first py_int polls :
  scan_wpa_cli_polls py_int polls []
  = default [] (head (filter (fun d => d <> []) (scan_wpa_cli_poll py_int <$> polls))).
Proof.
  induction polls as [|p polls IH]; [done|].
  rewrite scan_wpa_cli_polls_cons, fmap_cons, filter_cons.
  destruct (scan_wpa_cli_poll py_int p) as [|kv d].
  - by rewrite decide_False by (by intros H).
  - by rewrite decide_True.
Qed.

Lemma head_filter_first {B} (P : B -> Prop) `{!forall x, Decision (P x)}
    (l : list B) : forall i x,
  l !! i = Some x -> P x ->
  (forall j y, (j < i)%nat -> l !! j = Some y -> ~ P y) ->
  head (filter P l) = Some x.
Proof.
  induction l as [|y l IH]; intros i x Hi Hx Hbefore; [done|].
  rewrite filter_cons. destruct i as [|i]; simpl in Hi.
  - injection Hi as ->. by rewrite decide_True.
  - rewrite decide_False by (apply (Hbefore 0%nat); [lia|done]).
    apply (IH i); [done..|]. intros j z Hj Hz. apply (Hbefore (S j)); [lia|done].
Qed.

(** X4. [scan_wpa_cli] answers with what the first of its four polls that
    reads any network yields, and with nothing of the later polls; when no
    poll reads a network the answer is empty. *)
Theorem scan_wpa_cli_first_poll_with_readings
    (py_int : str -> option Z) (scan : proc_result) (scan_results : nat -> proc_result) :
  scan_wpa_cli py_int scan scan_results
  = default []
      (head (filter (fun d => d <> [])
               (scan_wpa_cli_poll py_int <$> (scan_results <$> seq 0 4))))
  /\ forall n, (n < 4)%nat ->
       scan_wpa_cli_poll py_int (scan_results n) <> [] ->
       (forall m, (m < n)%nat -> scan_wpa_cli_poll py_int (scan_results m) = []) ->
       scan_wpa_cli py_int scan scan_results
       = scan_wpa_cli_poll py_int (scan_results n).
Proof.
  assert (scan_wpa_cli py_int scan scan_results
          = default []
              (head (filter (fun d => d <> [])
                       (scan_wpa_cli_poll py_int <$> (scan_results <$> seq 0 4)))))
    as Hfirst by apply scan_wpa_cli_polls_first.
  split; [done|]. intros n Hn Hne Hbefore. rewrite Hfirst.
  erewrite (head_filter_first _ _ n); [done| |done|].
  - rewrite !list_lookup_fmap, lookup_seq_lt by done. done.
  - intros j y Hj Hy Hy'. rewrite !list_lookup_fmap, lookup_seq_lt in Hy by lia.
    injection Hy as <-. apply Hy'. apply Hbefore. lia.
Qed.

(** ** Saved networks, row by row *)

Lemma get_saved_networks_wpa_cli_line_reading acc line :
  get_saved_networks_wpa_cli_line acc line
  = match saved_row_reading line with
    | Some (s, nid) => ({[ s ]} ∪ acc.1, setdefault acc.2 s nid)
    | None => acc
    end.
Proof.
  unfold get_saved_networks_wpa_cli_line, saved_row_reading.
  destruct (PyStr.split PyStr.TAB line) as [|nid [|ssid rest]]; [done..|].
  by destruct (PyStr.truthy ssid).
Qed.

Lemma get_saved_networks_wpa_cli_rows p :
  get_saved_networks_wpa_cli p
  = fold_left get_saved_networks_wpa_cli_line (table_rows p) (∅, []).
Proof.
  unfold get_saved_networks_wpa_cli, table_rows.
  by destruct (run_cmd p).
Qed.

Lemma getitem_setdefault {V} (d : pydict str V) k v k' :
  PyDict.getitem (setdefault d k v) k'
  = match PyDict.getitem d k' with
    | Some x => Some x
    | None => if decide (k = k') then Some v else None
    end.
Proof.
  unfold setdefault. destruct (PyDict.getitem d k) as [x|] eqn:E.
  - destruct (PyDict.getitem d k') as [y|] eqn:E'; [done|].
    destruct (decide (k = k')) as [->|]; [congruence|done].
  - rewrite getitem_setitem. destruct (decide (k = k')) as [->|].
    + by rewrite E.
    + by destruct (PyDict.getitem d k').
Qed.

Lemma saved_rows_ssids rows : forall acc s,
  s ∈ (fold_left get_saved_networks_wpa_cli_line rows acc).1
  <-> s ∈ acc.1 \/ exists line nid, line ∈ rows /\ saved_row_reading line = Some (s, nid).
Proof.
  induction rows as [|l rows IH]; intros acc s; simpl.
  - split; [by left|]. intros [?|(? & ? & Hin & _)]; [done|].
    by apply elem_of_nil in Hin.
  - rewrite IH, get_saved_networks_wpa_cli_line_reading.
    destruct (saved_row_reading l) as [[s' nid']|] eqn:El; simpl.
    + rewrite elem_of_union, elem_of_singleton. split.
      * intros [[->|?]|(line & nid & Hin & Hr)].
        -- right. exists l, nid'. split; [apply list_elem_of_here|done].
        -- by left.
        -- right. exists line, nid. split; [by apply list_elem_of_further|done].
      * intros [?|(line & nid & Hin & Hr)]; [left; by right|].
        apply elem_of_cons in Hin as [->|Hin].
        -- left. left. congruence.
        -- right. by exists line, nid.
    + split.
      * intros [?|(line & nid & Hin & Hr)]; [by left|].
        right. exists line, nid. split; [by apply list_elem_of_further|done].
      * intros [?|(line & nid & Hin & Hr)]; [by left|].
        apply elem_of_cons in Hin as [->|Hin]; [congruence|].
        right. by exists line, nid.
Qed.

Lemma saved_rows_ids rows : forall acc s nid,
  PyDict.getitem (fold_left get_saved_networks_wpa_cli_line rows acc).2 s = Some nid
  <-> PyDict.getitem acc.2 s = Some nid
      \/ (PyDict.getitem acc.2 s = None
          /\ exists pre line post,
               rows = pre ++ line :: post
               /\ Forall (fun l => forall n, saved_row_reading l <> Some (s, n)) pre
               /\ saved_row_reading line = Some (s, nid)).
Proof.
  induction rows as [|l rows IH]; intros acc s nid; simpl.
  - split; [by left|]. intros [?|(_ & pre & ? & ? & H & _)]; [done|].
    by destruct pre.
  - rewrite IH, get_saved_networks_wpa_cli_line_reading.
    destruct (saved_row_reading l) as [[s' nid']|] eqn:El; simpl.
    + rewrite getitem_setdefault.
      destruct (PyDict.getitem acc.2 s) as [x|] eqn:Ea.
      * split; [intros [?|[? _]]; [by left|done]|].
        intros [?|[? _]]; [by left|done].
      * destruct (decide (s' = s)) as [->|Hne].
        -- split.
           ++ intros [[= ->]|[? _]]; [|done]. right. split; [done|].
              exists [], l, rows. by repeat split.
           ++ intros [?|(_ & pre & line & post & Heq & Hpre & Hline)]; [done|].
              left. destruct pre as [|x pre]; simpl in Heq; injection Heq as -> ->.
              ** congruence.
              ** apply Forall_cons in Hpre as [Hx _]. by destruct (Hx nid').
        -- split.
           ++ intros [?|(_ & pre & line & post & -> & Hpre & Hline)]; [done|].
              right. split; [done|]. exists (l :: pre), line, post.
              repeat split; [|done]. constructor; [|done].
              intros n. rewrite El. congruence.
           ++ intros [?|(_ & pre & line & post & Heq & Hpre & Hline)]; [done|].
              right. split; [done|].
              destruct pre as [|x pre]; simpl in Heq; injection Heq as -> ->.
              ** congruence.
              ** apply Forall_cons in Hpre as [_ Hpre]. by exists pre, line, post.
    + split.
      * intros [?|(Hn & pre & line & post & -> & Hpre & Hline)]; [by left|].
        right. split; [done|]. exists (l :: pre), line, post.
        repeat split; [|done]. constructor; [|done]. intros n. by rewrite El.
      * intros [?|(Hn & pre & line & post & Heq & Hpre & Hline)]; [by left|].
        right. split; [done|].
        destruct pre as [|x pre]; simpl in Heq; injection Heq as -> ->.
        -- congruence.
        -- apply Forall_cons in Hpre as [_ Hpre]. by exists pre, line, post.
Qed.

(** Among the rows that name a network there is a first one. *)
Lemma saved_rows_first rows s line nid :
  line ∈ rows -> saved_row_reading line = Some (s, nid) ->
  exists nid' pre line' post,
    rows = pre ++ line' :: post
    /\ Forall (fun l => forall n, saved_row_reading l <> Some (s, n)) pre
    /\ saved_row_reading line' = Some (s, nid').
Proof.
  intros Hin Hr. induction rows as [|l rows IH]; [by apply elem_of_nil in Hin|].
  destruct (saved_row_reading l) as [[s' n']|] eqn:El.
  - destruct (decide (s' = s)) as [->|Hne].
    + exists n', [], l, rows. by repeat split.
    + apply elem_of_cons in Hin as [->|Hin]; [congruence|].
      destruct (IH Hin) as (n2 & pre & line' & post & -> & Hpre & Hl).
      exists n2, (l :: pre), line', post. repeat split; [|done].
      constructor; [|done]. intros n. rewrite El. congruence.
  - apply elem_of_cons in Hin as [->|Hin]; [congruence|].
    destruct (IH Hin) as (n2 & pre & line' & post & -> & Hpre & Hl).
    exists n2, (l :: pre), line', post. repeat split; [|done].
    constructor; [|done]. intros n. by rewrite El.
Qed.

(** X5. [get_saved_networks_wpa_cli] returns the stripped SSIDs of the rows
    of the table and, for each of them and for nothing else, the network id
    of the first row that names it. *)
Theorem get_saved_networks_wpa_cli_ids_of_first_rows (p : proc_result) :
  let ssids := (get_saved_networks_wpa_cli p).1 in
  let ssid_to_id := (get_saved_networks_wpa_cli p).2 in
  (forall s, s ∈ ssids <->
     exists line nid, line ∈ table_rows p /\ saved_row_reading line = Some (s, nid))
  /\ (forall s, s ∈ ssids <-> is_Some (PyDict.getitem ssid_to_id s))
  /\ (forall s nid, PyDict.getitem ssid_to_id s = Some nid <->
        exists pre line post,
          table_rows p = pre ++ line :: post
          /\ Forall (fun l => forall n, saved_row_reading l <> Some (s, n)) pre
          /\ saved_row_reading line = Some (s, nid)).
Proof.
  intros ssids ssid_to_id. unfold ssids, ssid_to_id.
  rewrite get_saved_networks_wpa_cli_rows.
  assert (forall s, s ∈ (fold_left get_saved_networks_wpa_cli_line (table_rows p) (∅, [])).1
            <-> exists line nid, line ∈ table_rows p
                                 /\ saved_row_reading line = Some (s, nid)) as Hs.
  { intros s. rewrite saved_rows_ssids. simpl. split; [|by right].
    intros [H|?]; [|done]. by apply elem_of_empty in H. }
  assert (forall s nid,
            PyDict.getitem
              (fold_left get_saved_networks_wpa_cli_line (table_rows p) (∅, [])).2 s
            = Some nid
            <-> exists pre line post,
                  table_rows p = pre ++ line :: post
                  /\ Forall (fun l => forall n, saved_row_reading l <> Some (s, n)) pre
                  /\ saved_row_reading line = Some (s, nid)) as Hi.
  { intros s nid. rewrite saved_rows_ids. simpl. split; [|by right].
    by intros [?|[_ ?]]. }
  split; [done|]. split; [|done].
  intros s. rewrite Hs. split.
  - intros (line & nid & Hin & Hr).
    destruct (saved_rows_first (table_rows p) s line nid Hin Hr)
      as (nid' & pre & line' & post & Heq & Hpre & Hl).
    exists nid'. apply Hi. by exists pre, line', post.
  - intros [nid Hn]. apply Hi in Hn as (pre & line & post & Heq & _ & Hl).
    exists line, nid. split; [|done]. rewrite Heq.
    apply elem_of_app. right. apply list_elem_of_here.
Qed.

Lemma table_rows_nonempty p line : line ∈ table_rows p -> run_cmd p <> [].
Proof.
  unfold table_rows. intros Hin Hout. rewrite Hout in Hin.
  by apply elem_of_nil in Hin.
Qed.

(** X6. When the table of [list_networks] is clean, every network that
    [get_saved_networks_wpa_cli] reports as saved is one that
    [connect_wpa_cli] finds and selects. *)
Theorem saved_network_is_selectable (c : connect_env) (s : str) :
  clean_rows (table_rows (conn_list_networks c)) ->
  s ∈ (get_saved_networks_wpa_cli (conn_list_networks c)).1 ->
  (connect_wpa_cli c s).1 = true.
Proof.
  intros Hclean Hs. unfold clean_rows in Hclean. rewrite Forall_forall in Hclean.
  rewrite get_saved_networks_wpa_cli_rows in Hs.
  apply saved_rows_ssids in Hs as [Hs|(line & nid & Hin & Hr)];
    [by apply elem_of_empty in Hs|].
  apply connect_wpa_cli_true. split; [by eapply table_rows_nonempty|].
  fold (table_rows (conn_list_networks c)).
  unfold saved_row_reading in Hr.
  destruct (PyStr.split PyStr.TAB line) as [|n [|ssid rest]] eqn:El; [done..|].
  destruct (PyStr.truthy ssid) eqn:Et; [|done]. injection Hr as Hstrip ->.
  destruct (Hclean line Hin _ _ _ El) as [_ Hfix]. rewrite Hfix in Hstrip. subst ssid.
  destruct (find_network_id s (table_rows (conn_list_networks c))) as [nid'|] eqn:Ef.
  - exists nid'. split; [done|].
    apply find_network_id_Some in Ef as (pre & l & post & rest' & Heq & _ & Hl).
    apply (Hclean l) in Hl as [? _]; [done|].
    rewrite Heq. apply elem_of_app. right. apply list_elem_of_here.
  - apply find_network_id_None in Ef. rewrite Forall_forall in Ef.
    destruct (Ef line Hin). by exists nid, rest.
Qed.

(** The table of the example, where wpa_cli knows [Home]. *)
Lemma saved_network_is_selectable_witness :
  clean_rows (table_rows (conn_list_networks connect_env_fallback))
  /\ lit "Home" ∈ (get_saved_networks_wpa_cli (conn_list_networks connect_env_fallback)).1
  /\ (connect_wpa_cli connect_env_fallback (lit "Home")).1 = true.
Proof.
  assert (clean_rows (table_rows (conn_list_networks connect_env_fallback))) as Hc.
  { assert (table_rows (conn_list_networks connect_env_fallback)
            = [tabbed [lit "0"; lit "Home"; lit "any"; lit "[CURRENT]"]]) as ->
      by (by vm_compute).
    constructor; [|constructor]. intros nid ssid rest Hsplit.
    vm_compute in Hsplit. injection Hsplit as <- <- _. by vm_compute. }
  assert (lit "Home"
          ∈ (get_saved_networks_wpa_cli (conn_list_networks connect_env_fallback)).1)
    as Hs by (by vm_compute).
  split; [done|]. split; [done|].
  exact (saved_network_is_selectable connect_env_fallback (lit "Home") Hc Hs).
Defined.

(** ** Saved networks of NetworkManager *)

Lemma run_cmd_stripped p : PyStr.strip (run_cmd p) = run_cmd p.
Proof.
  unfold run_cmd. destruct (subprocess_run true p) as [[]|[rc out]]; [done..|].
  apply strip_idem.
Qed.

Lemma nmcli_wifi_names lines : forall names name,
  name ∈ fold_left nmcli_wifi_names_line lines names
  <-> name ∈ names
      \/ exists line sep typ,
           line ∈ lines /\ PyStr.partition PyStr.COLON line = (name, sep, typ)
           /\ (typ = lit "wifi" \/ typ = lit "802-11-wireless").
Proof.
  induction lines as [|l lines IH]; intros names name; simpl.
  - split; [by left|]. intros [?|(? & ? & ? & Hin & _)]; [done|].
    by apply elem_of_nil in Hin.
  - rewrite IH. unfold nmcli_wifi_names_line.
    destruct (PyStr.partition PyStr.COLON l) as [[n sep] typ] eqn:El.
    assert (PyStr.truthy l = false -> typ <> lit "wifi" /\ typ <> lit "802-11-wireless")
      as Hempty.
    { destruct l; [|done]. intros _. simpl in El. by injection El as <- <- <-. }
    destruct (PyStr.truthy l) eqn:Et; simpl.
    + destruct (bool_decide (typ = lit "wifi") || bool_decide (typ = lit "802-11-wireless"))
        eqn:Ety.
      * apply orb_true_iff in Ety.
        rewrite !bool_decide_eq_true in Ety. rewrite elem_of_app, list_elem_of_singleton.
        split.
        -- intros [[?| ->]|(line & s & t & Hin & Hp & Ht)].
           ++ by left.
           ++ right. exists l, sep, typ. split; [apply list_elem_of_here|done].
           ++ right. exists line, s, t. split; [by apply list_elem_of_further|done].
        -- intros [?|(line & s & t & Hin & Hp & Ht)]; [left; by left|].
           apply elem_of_cons in Hin as [->|Hin].
           ++ left. right. congruence.
           ++ right. by exists line, s, t.
      * apply orb_false_iff in Ety as [E1 E2].
        apply bool_decide_eq_false in E1, E2. split.
        -- intros [?|(line & s & t & Hin & Hp & Ht)]; [by left|].
           right. exists line, s, t. split; [by apply list_elem_of_further|done].
        -- intros [?|(line & s & t & Hin & Hp & Ht)]; [by left|].
           apply elem_of_cons in Hin as [->|Hin].
           ++ rewrite El in Hp. injection Hp as <- <- <-. by destruct Ht.
           ++ right. by exists line, s, t.
    + destruct (Hempty eq_refl) as [E1 E2]. split.
      * intros [?|(line & s & t & Hin & Hp & Ht)]; [by left|].
        right. exists line, s, t. split; [by apply list_elem_of_further|done].
      * intros [?|(line & s & t & Hin & Hp & Ht)]; [by left|].
        apply elem_of_cons in Hin as [->|Hin].
        -- rewrite El in Hp. injection Hp as <- <- <-. by destruct Ht.
        -- right. by exists line, s, t.
Qed.

Lemma nmcli_ssids_of_names (ssid_of : str -> proc_result) names : forall (acc : gset str) s,
  s ∈ fold_left
        (fun (ssids : gset str) name =>
           let ssid := run_cmd (ssid_of name) in
           if PyStr.truthy ssid then {[ PyStr.strip ssid ]} ∪ ssids else ssids)
        names acc
  <-> s ∈ acc \/ exists name, name ∈ names /\ s = run_cmd (ssid_of name) /\ s <> [].
Proof.
  induction names as [|n names IH]; intros acc s; simpl.
  - split; [by left|]. intros [?|(? & Hin & _)]; [done|]. by apply elem_of_nil in Hin.
  - rewrite IH. destruct (PyStr.truthy (run_cmd (ssid_of n))) eqn:Et.
    + rewrite run_cmd_stripped, elem_of_union, elem_of_singleton.
      apply truthy_true in Et. split.
      * intros [[->|?]|(name & Hin & Hs)].
        -- right. exists n. split; [apply list_elem_of_here|done].
        -- by left.
        -- right. exists name. split; [by apply list_elem_of_further|done].
      * intros [?|(name & Hin & Hs & Hne)]; [left; by right|].
        apply elem_of_cons in Hin as [->|Hin]; [left; by left|].
        right. by exists name.
    + split.
      * intros [?|(name & Hin & Hs)]; [by left|].
        right. exists name. split; [by apply list_elem_of_further|done].
      * intros [?|(name & Hin & Hs & Hne)]; [by left|].
        apply elem_of_cons in Hin as [->|Hin].
        -- subst s. by destruct (run_cmd (ssid_of n)).
        -- right. by exists name.
Qed.

(** X7. [get_saved_networks_nmcli] returns exactly the SSIDs, when not
    empty, that NetworkManager reports for the connections listed with type
    [wifi] or [802-11-wireless]; the name of a connection is what stands
    before the first colon of its line.  Without nmcli, or when the listing
    fails, it returns nothing. *)
Theorem get_saved_networks_nmcli_members
    (has_nm : bool) (show : proc_result) (ssid_of : str -> proc_result) (s : str) :
  s ∈ get_saved_networks_nmcli has_nm show ssid_of
  <-> has_nm = true
      /\ exists out line name sep typ,
           show = Exited 0 out
           /\ line ∈ PyStr.splitlines out
           /\ PyStr.partition PyStr.COLON line = (name, sep, typ)
           /\ (typ = lit "wifi" \/ typ = lit "802-11-wireless")
           /\ s = run_cmd (ssid_of name)
           /\ s <> [].
Proof.
  unfold get_saved_networks_nmcli. destruct has_nm; simpl.
  2: { split; [intros H; by apply elem_of_empty in H|by intros [? _]]. }
  destruct show as [rc out|]; simpl.
  2: { split; [intros H; by apply elem_of_empty in H|].
       by intros [_ (? & ? & ? & ? & ? & ? & _)]. }
  destruct (rc =? 0) eqn:Erc; simpl.
  2: { apply Z.eqb_neq in Erc. split; [intros H; by apply elem_of_empty in H|].
       intros [_ (? & ? & ? & ? & ? & [= -> _] & _)]. done. }
  apply Z.eqb_eq in Erc as ->.
  destruct (PyStr.truthy out) eqn:Et; simpl.
  2: { destruct out; [|done]. split; [intros H; by apply elem_of_empty in H|].
       intros [_ (? & ? & ? & ? & ? & [= <-] & Hin & _)]. by apply elem_of_nil in Hin. }
  rewrite nmcli_ssids_of_names. setoid_rewrite nmcli_wifi_names. split.
  - intros [H|(name & [H|(line & sep & typ & Hin & Hp & Ht)] & -> & Hne)];
      [by apply elem_of_empty in H|by apply elem_of_nil in H|].
    split; [done|]. by exists out, line, name, sep, typ.
  - intros [_ (out' & line & name & sep & typ & [= <-] & Hin & Hp & Ht & -> & Hne)].
    right. exists name. split; [|done]. right. by exists line, sep, typ.
Qed.

(** ** What the refresh lists *)

Lemma elem_of_getitem {K V} `{EqDecision K} (d : pydict K V) k v :
  PyDict.wf d -> ((k, v) ∈ d <-> PyDict.getitem d k = Some v).
Proof.
  induction d as [|[k' v'] d IH]; intros Hwf; simpl.
  - split; [intros H; by apply elem_of_nil in H|done].
  - apply wf_cons in Hwf as [Hk' Hwf]. rewrite elem_of_cons.
    destruct (decide (k' = k)) as [->|Hne].
    + split; [|intros [= ->]; by left].
      intros [[= ->]|Hin]; [done|]. exfalso. apply Hk'.
      apply list_elem_of_fmap. by exists (k, v).
    + rewrite <-IH by done. split; [|by right]. intros [[= ? ?]|?]; done.
Qed.

Lemma in_range_step_elem saved current_ssid l : forall acc e,
  e ∈ fold_left (refresh_in_range_step saved current_ssid) l acc
  <-> e ∈ acc
      \/ exists k info, (k, info) ∈ l
           /\ (if PyStr.truthy k then PyStr.strip k else []) <> []
           /\ (if PyStr.truthy k then PyStr.strip k else []) ∈ saved
           /\ e = entry_of current_ssid (if PyStr.truthy k then PyStr.strip k else []) info.
Proof.
  induction l as [|[k info] l IH]; intros acc e; simpl.
  - split; [by left|]. intros [?|(? & ? & Hin & _)]; [done|]. by apply elem_of_nil in Hin.
  - rewrite IH.
    set (s := if PyStr.truthy k then PyStr.strip k else []).
    destruct (PyStr.truthy s && bool_decide (s ∈ saved)) eqn:Ec.
    + apply andb_true_iff in Ec as [Et Es]. apply truthy_true in Et.
      apply bool_decide_eq_true in Es.
      rewrite elem_of_app, list_elem_of_singleton. split.
      * intros [[?| ->]|(k' & i' & Hin & H)]; [by left| |].
        -- right. exists k, info. split; [apply list_elem_of_here|done].
        -- right. exists k', i'. split; [by apply list_elem_of_further|done].
      * intros [?|(k' & i' & Hin & Hne & Hs & He)]; [left; by left|].
        apply elem_of_cons in Hin as [[= -> ->]|Hin]; [left; by right|].
        right. by exists k', i'.
    + split.
      * intros [?|(k' & i' & Hin & H)]; [by left|].
        right. exists k', i'. split; [by apply list_elem_of_further|done].
      * intros [?|(k' & i' & Hin & Hne & Hs & He)]; [by left|].
        apply elem_of_cons in Hin as [[= -> ->]|Hin]; [|right; by exists k', i'].
        exfalso. apply andb_false_iff in Ec as [Ec|Ec].
        -- fold s in Hne. apply truthy_true in Hne. congruence.
        -- apply bool_decide_eq_false in Ec. done.
Qed.

Lemma in_range_of_task py_int w current_ssid :
  in_range (refresh_task py_int w current_ssid)
  = py_sort in_range_lt (refresh_task_unsorted py_int w current_ssid).
Proof. done. Qed.

Lemma in_range_task_elem py_int w current_ssid e :
  e ∈ in_range (refresh_task py_int w current_ssid)
  <-> exists info,
        PyDict.getitem (refresh_merged (task_nm py_int w) (task_wp py_int w))
          (entry_ssid e) = Some info
        /\ entry_ssid e <> []
        /\ entry_ssid e ∈ refresh_task_saved w
        /\ e = entry_of current_ssid (entry_ssid e) info.
Proof.
  rewrite in_range_of_task, in_range_sort_eq.
  rewrite (py_sort_perm in_range_key key_lt).
  unfold refresh_task_unsorted, refresh_in_range_unsorted.
  rewrite in_range_step_elem.
  pose proof (refresh_merged_keys _ _ (task_nm_keys py_int w) (task_wp_keys py_int w))
    as [Hwf Hstripped].
  rewrite Forall_forall in Hstripped.
  assert (forall k info,
            (k, info) ∈ refresh_merged (task_nm py_int w) (task_wp py_int w) ->
            (if PyStr.truthy k then PyStr.strip k else []) = k) as Hk.
  { intros k info Hin. destruct k as [|c k]; [done|]. simpl PyStr.truthy.
    apply Hstripped. apply list_elem_of_fmap. by exists (c :: k, info). }
  split.
  - intros [H|(k & info & Hin & Hne & Hs & ->)]; [by apply elem_of_nil in H|].
    rewrite (Hk k info Hin) in *. simpl. exists info.
    split; [by apply elem_of_getitem|done].
  - intros (info & Hg & Hne & Hs & He). right.
    apply elem_of_getitem in Hg; [|done].
    exists (entry_ssid e), info. rewrite (Hk _ _ Hg). by repeat split.
Qed.

(** X8. An entry is in [in_range] exactly when its name is not empty, is
    saved and was seen by a scan, and the entry then carries the signal and
    the security flags of the merged scan and is marked current exactly
    when its name is the current SSID. *)
Theorem in_range_is_saved_and_scanned
    (py_int : str -> option Z) (w : wifi_env) (current_ssid : str) (e : network_entry) :
  e ∈ in_range (refresh_task py_int w current_ssid)
  <-> exists info,
        PyDict.getitem (refresh_merged (task_nm py_int w) (task_wp py_int w))
          (entry_ssid e) = Some info
        /\ entry_ssid e <> []
        /\ entry_ssid e ∈ refresh_task_saved w
        /\ entry_signal e = info_signal info
        /\ entry_security e = info_security info
        /\ entry_current e = bool_decide (entry_ssid e = current_ssid).
Proof.
  rewrite in_range_task_elem. split.
  - intros (info & Hg & Hne & Hs & ->). exists info. by repeat split.
  - intros (info & Hg & Hne & Hs & H1 & H2 & H3). exists info.
    repeat split; [done..|]. destruct e. unfold entry_of. simpl in *. by subst.
Qed.

Lemma out_of_range_task_elem py_int w current_ssid x :
  x ∈ out_of_range (refresh_task py_int w current_ssid)
  <-> x ∈ refresh_task_saved w
      /\ (x ∉ entry_ssid <$> in_range (refresh_task py_int w current_ssid))
      /\ (current_ssid <> [] -> x <> current_ssid).
Proof.
  set (r := refresh_task py_int w current_ssid).
  set (names := list_to_set (entry_ssid <$> in_range r) : gset str).
  set (gone := if PyStr.truthy current_ssid then {[ current_ssid ]} else ∅ : gset str).
  assert (out_of_range r
          = py_sort PyStr.ltb (elements ((refresh_task_saved w ∖ names) ∖ gone)))
    as -> by done.
  rewrite (py_sort_perm id PyStr.ltb), elem_of_elements, !elem_of_difference.
  unfold names. rewrite elem_of_list_to_set.
  assert (x ∈ gone <-> current_ssid <> [] /\ x = current_ssid) as ->.
  { unfold gone. destruct current_ssid as [|c cs]; simpl.
    - rewrite elem_of_empty. by split; [|intros [? _]].
    - rewrite elem_of_singleton. by split; [|intros [_ ?]]. }
  split.
  - intros [[? ?] Hc]. repeat split; [done..|]. intros ? ?. by apply Hc.
  - intros (? & ? & Hc). repeat split; [done..|]. intros [? ?]. by apply Hc.
Qed.

Lemma in_range_task_NoDup py_int w current_ssid :
  NoDup (entry_ssid <$> in_range (refresh_task py_int w current_ssid)).
Proof.
  rewrite in_range_of_task, in_range_sort_eq, (py_sort_perm in_range_key key_lt).
  apply in_range_unsorted_NoDup, refresh_merged_keys;
    [apply task_nm_keys|apply task_wp_keys].
Qed.

(** X9. The refresh lists every saved network other than the current one
    exactly once: in [in_range] or in [out_of_range], not in both, and no
    name occurs twice in either list.  Nothing is listed that is not
    saved. *)
Theorem refresh_lists_each_saved_network_once
    (py_int : str -> option Z) (w : wifi_env) (current_ssid : str) :
  let r := refresh_task py_int w current_ssid in
  let names := entry_ssid <$> in_range r in
  (forall s, s ∈ refresh_task_saved w -> s <> current_ssid ->
     (s ∈ names /\ s ∉ out_of_range r) \/ ((s ∉ names) /\ s ∈ out_of_range r))
  /\ NoDup names
  /\ NoDup (out_of_range r)
  /\ (forall s, s ∈ names \/ s ∈ out_of_range r -> s ∈ refresh_task_saved w).
Proof.
  intros r names. split; [|split; [|split]].
  - intros s Hs Hne. destruct (decide (s ∈ names)) as [Hin|Hn].
    + left. split; [done|]. intros Hout.
      by apply out_of_range_task_elem in Hout as (_ & ? & _).
    + right. split; [done|]. apply out_of_range_task_elem. by repeat split.
  - apply in_range_task_NoDup.
  - assert (out_of_range r ≡ₚ elements
              ((refresh_task_saved w ∖ list_to_set names)
               ∖ (if PyStr.truthy current_ssid then {[ current_ssid ]} else ∅)))
      as -> by apply (py_sort_perm id PyStr.ltb).
    apply NoDup_elements.
  - intros s [Hin|Hout].
    + apply list_elem_of_fmap in Hin as (e & -> & He).
      by apply in_range_task_elem in He as (_ & _ & _ & ? & _).
    + by apply out_of_range_task_elem in Hout as [? _].
Qed.

(** ** Busy indicator: counting *)

Lemma busy_run_balance calls : forall s,
  busy_inv s ->
  BUSY_DEPTH s + busy_balance calls <= BUSY_DEPTH (busy_run calls s)
  /\ ((forall k, 0 <= BUSY_DEPTH s + busy_balance (take k calls)) ->
      BUSY_DEPTH (busy_run calls s) = BUSY_DEPTH s + busy_balance calls).
Proof.
  unfold busy_run.
  induction calls as [|c calls IH]; intros s Hs; simpl; [split; [lia|intros; lia]|].
  pose proof (busy_step_inv c s Hs) as Hs'.
  destruct (IH _ Hs') as [Hle Heq].
  assert (BUSY_DEPTH (busy_step c s).1
          = match c with
            | Enter => BUSY_DEPTH s + 1
            | Exit => Z.max 0 (BUSY_DEPTH s - 1)
            end) as Hstep.
  { destruct c; simpl; unfold show_busy_indicator, hide_busy_indicator;
      [by destruct (BUSY_OVERLAY s)|].
    by destruct (BUSY_OVERLAY s && (Z.max 0 (BUSY_DEPTH s - 1) =? 0)). }
  split.
  - rewrite Hstep in Hle. destruct c; lia.
  - intros Hpre. rewrite Heq.
    + rewrite Hstep. pose proof (Hpre 1%nat) as H1. simpl in H1.
      destruct c; lia.
    + intros k. rewrite Hstep. pose proof (Hpre (S k)) as Hk.
      pose proof (Hpre 1%nat) as H1. simpl in Hk, H1. destruct c; lia.
Qed.

(** X10. The depth of the busy indicator is never less than the number of
    shows less the number of hides.  As long as no hide comes without a
    show before it, the depth is that number, and the overlay is on screen
    exactly while it is positive: then the overlay is gone when the last
    operation ends and not before. *)
Theorem busy_depth_counts_operations_in_flight (calls : list busy_call) :
  busy_balance calls <= BUSY_DEPTH (busy_run calls busy_init)
  /\ ((forall k, 0 <= busy_balance (take k calls)) ->
      BUSY_DEPTH (busy_run calls busy_init) = busy_balance calls
      /\ (window_overlay (busy_run calls busy_init) = true
          <-> 0 < busy_balance calls)).
Proof.
  destruct (busy_run_balance calls busy_init busy_init_inv) as [Hle Heq].
  simpl in Hle, Heq. split; [done|]. intros Hpre.
  specialize (Heq Hpre). split; [done|].
  destruct (busy_run_inv calls busy_init busy_init_inv) as (_ & Ho & Hw).
  rewrite Hw, Ho, Heq. done.
Qed.

(** A hide that comes first is forgotten: the count is 0, the overlay is
    on screen. *)
Example busy_hide_before_show :
  busy_balance [Exit; Enter] = 0
  /\ BUSY_DEPTH (busy_run [Exit; Enter] busy_init) = 1
  /\ window_overlay (busy_run [Exit; Enter] busy_init) = true.
Proof. done. Qed.

(** ** State store: applying again *)

Lemma apply_snapshot_loop_store (snap : pydict field value) : forall st fired k,
  PyDict.wf snap ->
  (fold_left
     (fun '(st, fired) '(k, v) =>
        let '(st', n) := setattr st k v in (st', fired ++ n))
     snap (st, fired)).1 k
  = match PyDict.getitem snap k with
    | Some v => if value_eqb (st k) v then st k else v
    | None => st k
    end.
Proof.
  induction snap as [|[k0 v0] snap IH]; intros st fired k Hwf; simpl; [done|].
  apply wf_cons in Hwf as [Hk0 Hwf].
  destruct (setattr st k0 v0) as [st1 n] eqn:E.
  assert (st1 = (setattr st k0 v0).1) as Hst1 by (by rewrite E).
  rewrite IH by done. destruct (decide (k0 = k)) as [->|Hne].
  - apply getitem_None in Hk0. rewrite Hk0, Hst1, setattr_store.
    by rewrite decide_True.
  - assert (st1 k = st k) as ->; [|done].
    rewrite Hst1, setattr_store. rewrite decide_False; [done|]. by intros ->.
Qed.

Lemma apply_snapshot_store st (snap : pydict field value) k :
  PyDict.wf snap ->
  (apply_snapshot st snap).1 k
  = match PyDict.getitem snap k with
    | Some v => if value_eqb (st k) v then st k else v
    | None => st k
    end.
Proof. apply apply_snapshot_loop_store. Qed.

(** X11. Applying a snapshot a second time changes nothing: no property is
    notified and every property keeps its value.  A poll that finds the
    appliance unchanged is silent. *)
Theorem apply_snapshot_twice_is_silent (st : UiState) (snap : pydict field value) :
  PyDict.wf snap ->
  let st' := (apply_snapshot st snap).1 in
  (apply_snapshot st' snap).2 = []
  /\ forall f, (apply_snapshot st' snap).1 f = st' f.
Proof.
  intros Hwf st'.
  assert (forall k v, PyDict.getitem snap k = Some v -> value_eqb (st' k) v = true)
    as Heq.
  { intros k v Hk. unfold st'. rewrite apply_snapshot_store, Hk by done.
    destruct (value_eqb (st k) v) eqn:E; [done|apply value_eqb_refl]. }
  split.
  - destruct (apply_snapshot_spec st' snap Hwf) as (-> & _).
    apply filter_none, Forall_forall. intros [k v] Hin. unfold changes. simpl.
    apply elem_of_getitem in Hin; [|done]. by rewrite (Heq k v Hin).
  - intros f. rewrite apply_snapshot_store by done.
    destruct (PyDict.getitem snap f) as [v|] eqn:Ef; [|done].
    by rewrite (Heq f v Ef).
Qed.

(** The snapshot of the example, applied twice to the defaults. *)
Lemma apply_snapshot_twice_is_silent_witness :
  PyDict.wf snapshot_example
  /\ (let st' := (apply_snapshot UiState_defaults snapshot_example).1 in
      (apply_snapshot st' snapshot_example).2 = []
      /\ forall f, (apply_snapshot st' snapshot_example).1 f = st' f).
Proof.
  assert (PyDict.wf snapshot_example) as Hwf by (by apply (bool_decide_unpack _)).
  split; [done|].
  exact (apply_snapshot_twice_is_silent UiState_defaults snapshot_example Hwf).
Defined.

(** ** What a snapshot holds *)

Lemma or_na_truthy x : or_na x <> [].
Proof.
  destruct x as [[|c s]|]; simpl; done.
Qed.

(** X12. The values of a snapshot agree with each other: the client SSID
    is "Disconnected" whenever the network is OFF, the VPN name is "None"
    exactly when the VPN is OFF, the host name, the SSID and the address of
    the access point are never empty, and the number of clients is a
    natural number. *)
Theorem collect_snapshot_is_consistent
    (py_int : str -> option Z) (st : UiState) (p : probes)
    (snap : pydict field value) :
  collect_snapshot py_int st p = Some snap ->
  ((PyDict.getitem snap net_status = Some (VStr (lit "ON"))
    /\ PyDict.getitem snap client_ssid = Some (VStr (run_cmd (probe_iwgetid p))))
   \/ (PyDict.getitem snap net_status = Some (VStr (lit "OFF"))
       /\ PyDict.getitem snap client_ssid = Some (VStr (lit "Disconnected"))))
  /\ ((PyDict.getitem snap vpn_status = Some (VStr (lit "ON"))
       /\ exists n, PyDict.getitem snap vpn_name = Some (VStr n) /\ n <> lit "None")
      \/ (PyDict.getitem snap vpn_status = Some (VStr (lit "OFF"))
          /\ PyDict.getitem snap vpn_name = Some (VStr (lit "None"))))
  /\ (forall f, f ∈ [hostname; ap_ssid; ip_address] ->
        exists s, PyDict.getitem snap f = Some (VStr s) /\ s <> [])
  /\ (exists n : nat,
        PyDict.getitem snap connected_clients = Some (VNum (inject_Z (Z.of_nat n)))).
Proof.
  unfold collect_snapshot.
  pose proof (or_na_truthy (Some (run_cmd (probe_hostname p)))) as Hhost.
  pose proof (or_na_truthy (probe_hostapd_ssid p)) as Hssid.
  pose proof (or_na_truthy (probe_ap_ip p)) as Hip.
  revert Hhost Hssid Hip.
  generalize (or_na (Some (run_cmd (probe_hostname p)))); intros host.
  generalize (or_na (probe_hostapd_ssid p)); intros apssid.
  generalize (or_na (probe_ap_ip p)); intros apip.
  generalize (run_cmd (probe_iwgetid p)); intros ssid.
  generalize (bool_decide (run_cmd (probe_hostapd p) = lit "active")); intros active.
  generalize (if PyStr.truthy (run_cmd (probe_uptime p))
              then remove_all (lit "up ") (run_cmd (probe_uptime p))
              else lit "N/A"); intros up.
  set (clients := match probe_clients p with
                  | Some (Some n) => inject_Z (Z.of_nat n)
                  | _ => 0%Q
                  end).
  assert (exists n : nat, clients = inject_Z (Z.of_nat n)) as [n Hn].
  { unfold clients. destruct (probe_clients p) as [[n|]|];
      [by exists n|by exists 0%nat..]. }
  rewrite Hn. clear clients Hn.
  set (on := match probe_host_ip p with
             | Some ip => PyStr.truthy ip | None => false end).
  generalize on; clear on; intros on.
  set (temp := py_int (run_cmd (probe_thermal p))).
  generalize temp; clear temp; intros temp.
  set (name := store_str st vpn_name).
  generalize name; clear name; intros name.
  intros Hhost Hssid Hip H.
  destruct (PyStr.truthy (run_cmd (probe_thermal p)));
    [destruct temp; [|done]|];
    destruct (PyStr.truthy (run_cmd (probe_pgrep_openvpn p)));
    injection H as <-;
    (split; [destruct on; [left|right]; by split|]);
    (split; [first [ right; by split
                   | left; split; [done|];
                     destruct (decide (name = lit "None")) as [->|Hname];
                     [ exists (lit "ON"); by split
                     | exists name; split; [|done]; simpl;
                       by rewrite bool_decide_eq_true_2 ] ]|]);
    (split; [|by exists n]);
    intros f Hf; rewrite !elem_of_cons in Hf;
    destruct Hf as [->|[->|[->|Hf]]]; try (by apply elem_of_nil in Hf);
    eexists; (split; [reflexivity|done]).
Qed.

(** The snapshot of the example. *)
Lemma collect_snapshot_is_consistent_witness :
  let p := probes_example in
  let snap := snapshot_example in
  collect_snapshot decimal_int UiState_defaults p = Some snap
  /\ ((PyDict.getitem snap net_status = Some (VStr (lit "ON"))
       /\ PyDict.getitem snap client_ssid = Some (VStr (run_cmd (probe_iwgetid p))))
      \/ (PyDict.getitem snap net_status = Some (VStr (lit "OFF"))
          /\ PyDict.getitem snap client_ssid = Some (VStr (lit "Disconnected"))))
  /\ ((PyDict.getitem snap vpn_status = Some (VStr (lit "ON"))
       /\ exists n, PyDict.getitem snap vpn_name = Some (VStr n) /\ n <> lit "None")
      \/ (PyDict.getitem snap vpn_status = Some (VStr (lit "OFF"))
          /\ PyDict.getitem snap vpn_name = Some (VStr (lit "None"))))
  /\ (forall f, f ∈ [hostname; ap_ssid; ip_address] ->
        exists s, PyDict.getitem snap f = Some (VStr s) /\ s <> [])
  /\ (exists n : nat,
        PyDict.getitem snap connected_clients = Some (VNum (inject_Z (Z.of_nat n)))).
Proof.
  intros p snap.
  assert (collect_snapshot decimal_int UiState_defaults p = Some snap) as Hc
    by (by vm_compute).
  split; [done|].
  exact (collect_snapshot_is_consistent decimal_int UiState_defaults p snap Hc).
Defined.


(** ** Debounced GeoIP trigger, on any timeline *)

Lemma geoip_run_snoc delay evs ev :
  geoip_run delay (evs ++ [ev]) = geoip_step delay (geoip_run delay evs) ev.
Proof. unfold geoip_run. by rewrite fold_left_app. Qed.

Lemma trigger_one_timer delay now a :
  one_timer a ->
  exists id, geoip_pending (trigger_geoip_soon delay now a) = Some id
    /\ timers (trigger_geoip_soon delay now a)
       = [ {| ev_id := id; ev_due := now + delay |} ].
Proof.
  intros Ha. exists (next_id a). split; [done|].
  unfold trigger_geoip_soon. simpl. destruct Ha as [Ht|(id & due & Hp & Ht)].
  - rewrite Ht. by destruct (geoip_pending a).
  - rewrite Hp, Ht. unfold cancel. rewrite filter_cons. simpl.
    by rewrite decide_False by (intros H; by apply H).
Qed.

Lemma tick_one_timer now a : one_timer a -> one_timer (clock_tick now a).
Proof.
  intros [Ht|(id & due & Hp & Ht)]; unfold one_timer, clock_tick; simpl.
  - left. by rewrite Ht.
  - rewrite Ht, filter_cons. simpl. destruct (decide (now < due)); [|by left].
    right. by exists id, due.
Qed.

Lemma geoip_step_one_timer delay a ev :
  one_timer a -> one_timer (geoip_step delay a ev).
Proof.
  intros Ha. destruct ev as [t|t]; simpl; [|by apply tick_one_timer].
  destruct (trigger_one_timer delay t a Ha) as (id & Hp & Ht).
  right. by exists id, (t + delay).
Qed.

Lemma geoip_run_one_timer delay evs : one_timer (geoip_run delay evs).
Proof.
  induction evs as [|ev evs IH] using rev_ind; [by left|].
  rewrite geoip_run_snoc. by apply geoip_step_one_timer.
Qed.

Lemma filter_split_length {A} (P Q : A -> Prop) `{!forall x, Decision (P x)}
    `{!forall x, Decision (Q x)} (l : list A) :
  (forall x, P x <-> ~ Q x) ->
  (length (filter P l) + length (filter Q l) = length l)%nat.
Proof.
  intros HPQ. induction l as [|x l IH]; [done|]. rewrite !filter_cons.
  specialize (HPQ x).
  destruct (decide (P x)), (decide (Q x)); simpl; first [tauto|lia].
Qed.


(** ** GeoIP triggers *)

Lemma dispatch_geoip_lookups now fired : forall a,
  lookups (fold_left (dispatch_geoip now) fired a) = lookups a.
Proof.
  induction fired as [|kv fired IH]; intros a; [done|]. simpl. rewrite IH.
  unfold dispatch_geoip. by destruct (geoip_bound kv.1).
Qed.

Lemma dispatch_geoip_unbound now fired : forall a,
  Forall (fun kv => geoip_bound kv.1 = false) fired ->
  fold_left (dispatch_geoip now) fired a = a.
Proof.
  induction fired as [|kv fired IH]; intros a Hf; [done|].
  apply Forall_cons in Hf as [Hkv Hf]. simpl. rewrite IH by done.
  unfold dispatch_geoip. by rewrite Hkv.
Qed.

Lemma dispatch_geoip_armed now fired : forall a,
  one_timer a ->
  one_timer (fold_left (dispatch_geoip now) fired a)
  /\ (Exists (fun kv => geoip_bound kv.1 = true) fired ->
      exists id, geoip_pending (fold_left (dispatch_geoip now) fired a) = Some id
        /\ timers (fold_left (dispatch_geoip now) fired a)
           = [ {| ev_id := id; ev_due := now + TRIG_DELAY |} ]).
Proof.
  induction fired as [|kv fired IH] using rev_ind; intros a Ha.
  - split; [done|]. intros H. by apply Exists_nil in H.
  - rewrite fold_left_app. simpl. destruct (IH a Ha) as [Hone Hex].
    set (b := fold_left (dispatch_geoip now) fired a) in *.
    unfold dispatch_geoip. destruct (geoip_bound kv.1) eqn:Eb.
    + destruct (trigger_one_timer TRIG_DELAY now b Hone) as (id & Hp & Ht).
      split; [right; by exists id, (now + TRIG_DELAY)|]. intros _. by exists id.
    + split; [done|]. intros H. apply Exists_app in H as [H|H]; [by apply Hex|].
      apply Exists_cons in H as [H|H]; [congruence|by apply Exists_nil in H].
Qed.

(** X15. When a snapshot is applied in the running application, the
    notifications reach the debounce: if none of [net_status],
    [client_ssid], [vpn_status] and [vpn_name] changed, the timers are as
    before; if some did, however many, a single timer is armed, due half a
    second later.  No lookup is made by the applying itself. *)
Theorem apply_snapshot_arms_one_lookup
    (now : Z) (st : UiState) (snap : pydict field value)
    (delay : Z) (evs : list timeline_event) :
  let a := geoip_run delay evs in
  let fired := (apply_snapshot st snap).2 in
  let a' := (apply_snapshot_app now st snap a).2 in
  lookups a' = lookups a
  /\ (Forall (fun kv => geoip_bound kv.1 = false) fired -> a' = a)
  /\ (Exists (fun kv => geoip_bound kv.1 = true) fired ->
      exists id, geoip_pending a' = Some id
        /\ timers a' = [ {| ev_id := id; ev_due := now + 500 |} ]).
Proof.
  simpl. unfold apply_snapshot_app. simpl. split; [apply dispatch_geoip_lookups|].
  split; [apply dispatch_geoip_unbound|].
  apply dispatch_geoip_armed, geoip_run_one_timer.
Qed.

(** ** Access point configuration *)

Lemma after_equals_ssid s :
  startswith (lit "ssid=") s = true -> after_equals s = Some (drop 5 s).
Proof.
  unfold startswith. intros H. apply bool_decide_eq_true in H.
  do 5 (destruct s as [|? s]; [done|]). by injection H as -> -> -> -> ->.
Qed.

Lemma after_equals_interface s :
  startswith (lit "interface=") s = true -> after_equals s = Some (drop 10 s).
Proof.
  unfold startswith. intros H. apply bool_decide_eq_true in H.
  do 10 (destruct s as [|? s]; [done|]).
  by injection H as -> -> -> -> -> -> -> -> -> ->.
Qed.

Lemma startswith_ssid_interface s :
  startswith (lit "ssid=") s = true -> startswith (lit "interface=") s = false.
Proof.
  unfold startswith. intros H. apply bool_decide_eq_true in H.
  do 5 (destruct s as [|? s]; [done|]). by injection H as -> -> -> -> ->.
Qed.

Lemma parse_hostapd_conf_lines_last lines : forall ssid iface,
  parse_hostapd_conf_lines lines ssid iface
  = (from_option Some ssid (last (omap (conf_value (lit "ssid=")) lines)),
     from_option Some iface (last (omap (conf_value (lit "interface=")) lines))).
Proof.
  induction lines as [|line lines IH]; intros ssid iface; [done|].
  cbn [parse_hostapd_conf_lines].
  assert (forall key,
            omap (conf_value key) (line :: lines)
            = match conf_value key line with
              | Some y => y :: omap (conf_value key) lines
              | None => omap (conf_value key) lines
              end) as Hcons by done.
  assert (conf_value (lit "ssid=") line
          = if startswith (lit "ssid=") (PyStr.strip line)
            then Some (drop 5 (PyStr.strip line)) else None) as Hs by done.
  assert (conf_value (lit "interface=") line
          = if startswith (lit "interface=") (PyStr.strip line)
            then Some (drop 10 (PyStr.strip line)) else None) as Hi by done.
  rewrite !Hcons, Hs, Hi.
  destruct (startswith (lit "ssid=") (PyStr.strip line)) eqn:Es.
  - rewrite (after_equals_ssid _ Es), (startswith_ssid_interface _ Es), IH.
    f_equal.
    destruct (omap (conf_value (lit "ssid=")) lines) as [|v vs] eqn:Ev; [done|].
    destruct (proj2 (last_is_Some (v :: vs))) as [x Hx]; [done|].
    match goal with
    | |- context [last (?d :: v :: vs)] =>
        change (last (d :: v :: vs)) with (last (v :: vs))
    end.
    by rewrite Hx.
  - destruct (startswith (lit "interface=") (PyStr.strip line)) eqn:Ei.
    + rewrite (after_equals_interface _ Ei), IH. f_equal.
      destruct (omap (conf_value (lit "interface=")) lines) as [|v vs] eqn:Ev;
        [done|].
      destruct (proj2 (last_is_Some (v :: vs))) as [x Hx]; [done|].
      match goal with
      | |- context [last (?d :: v :: vs)] =>
          change (last (d :: v :: vs)) with (last (v :: vs))
      end.
      by rewrite Hx.
    + apply IH.
Qed.

(** X16. [parse_hostapd_conf] reads the SSID and the interface off the last
    line, once stripped, that starts with [ssid=] and with [interface=]:
    the value is all that follows the key.  Without such a line, or when
    the file cannot be opened, the value is [None]. *)
Theorem parse_hostapd_conf_last_line_wins (conf : option (list str)) :
  parse_hostapd_conf conf
  = match conf with
    | None => (None, None)
    | Some lines =>
        (last (omap (conf_value (lit "ssid=")) lines),
         last (omap (conf_value (lit "interface=")) lines))
    end.
Proof.
  destruct conf as [lines|]; [|done]. simpl.
  rewrite parse_hostapd_conf_lines_last.
  by destruct (last _), (last _).
Qed.

(** The second [ssid=] line of the example wins, with the [=] and the
    space inside its value; the passphrase is no SSID. *)
Example parse_hostapd_conf_example :
  parse_hostapd_conf (Some [ lit "interface=wlan0" ++ [PyStr.LF];
                             lit "ssid=RaspAP" ++ [PyStr.LF];
                             lit "wpa_passphrase=a=b" ++ [PyStr.LF];
                             lit "  ssid=Rasp=AP 2  " ++ [PyStr.LF] ])
  = (Some (lit "Rasp=AP 2"), Some (lit "wlan0")).
Proof. by vm_compute. Qed.

Lemma Qle_bool_refl q : Qle_bool q q = true.
Proof. apply Qle_bool_iff. apply Qle_refl. Qed.

(** X17. [_read_hostapd_cached] reads a version of the file once: a second
    call on the same file returns the same pair and leaves the cache as it
    is.  When the file exists, the pair returned is the one in the cache
    after the call; when it is missing, [(None, None)] is returned and the
    cache is kept.  The modification time in the cache never goes back. *)
Theorem read_hostapd_cached_reads_once (c : hostapd_cache) (f : conf_file) :
  let r := (read_hostapd_cached c f).1 in
  let c' := (read_hostapd_cached c f).2 in
  read_hostapd_cached c' f = (r, c')
  /\ (f <> Missing -> r = (cache_ssid c', cache_iface c'))
  /\ (f = Missing -> r = (None, None) /\ c' = c)
  /\ Qle (cache_mtime c) (cache_mtime c').
Proof.
  destruct f as [|mtime conf]; simpl.
  - split; [done|]. split; [done|]. split; [done|apply Qle_refl].
  - destruct (Qle_bool mtime (cache_mtime c)) eqn:E; simpl.
    + rewrite E. split; [done|]. split; [done|]. split; [done|apply Qle_refl].
    + destruct (parse_hostapd_conf conf) as [ssid iface] eqn:Ep. simpl.
      rewrite Qle_bool_refl. split; [done|]. split; [done|]. split; [done|].
      destruct (Qlt_le_dec (cache_mtime c) mtime) as [Hlt|Hle];
        [by apply Qlt_le_weak|].
      apply Qle_bool_iff in Hle. congruence.
Qed.

(** X18. After [UiState.__init__] the client interface and the access
    point's interface are [wlan0] and [wlan1], one each, whatever
    [hostapd.conf] holds.  The access point is on [wlan0] exactly when the
    file was read and names [wlan0]; no other property leaves its
    default. *)
Theorem interfaces_are_distinct (f : conf_file) :
  let st := (UiState_init f).1 in
  let read := (read_hostapd_cached hostapd_cache_init f).1.2 in
  ((st ap_iface = VStr (lit "wlan0") /\ st host_iface = VStr (lit "wlan1")
    /\ read = Some (lit "wlan0"))
   \/ (st ap_iface = VStr (lit "wlan1") /\ st host_iface = VStr (lit "wlan0")
       /\ read <> Some (lit "wlan0")))
  /\ forall k, k <> ap_iface -> k <> host_iface -> st k = UiState_defaults k.
Proof.
  unfold UiState_init, determine_interfaces. simpl.
  destruct (read_hostapd_cached hostapd_cache_init f) as [[ssid [ap|]] c'];
    simpl; [|split; [right; by repeat split|done]].
  assert (forall v w k, k <> ap_iface -> k <> host_iface ->
            (setattr (setattr UiState_defaults ap_iface v).1 host_iface w).1 k
            = UiState_defaults k) as Hother.
  { intros v w k Hk1 Hk2. rewrite !setattr_store.
    rewrite decide_False by done. by rewrite decide_False by done. }
  destruct (decide (ap = lit "wlan0")) as [->|H0].
  { rewrite (bool_decide_eq_true_2 (lit "wlan0" = lit "wlan0")) by done.
    cbn [orb fst]. split; [by left|apply Hother]. }
  rewrite (bool_decide_eq_false_2 (ap = lit "wlan0")) by done.
  destruct (decide (ap = lit "wlan1")) as [->|H1].
  - rewrite (bool_decide_eq_true_2 (lit "wlan1" = lit "wlan1")) by done.
    cbn [orb fst]. split; [right; by repeat split|apply Hother].
  - rewrite (bool_decide_eq_false_2 (ap = lit "wlan1")) by done. cbn [orb fst].
    split; [|done]. right. repeat split; [done..|]. intros [= ?]. done.
Qed.

(** With the configuration of the example the access point is on [wlan0]
    and the client on [wlan1]. *)
Example interfaces_example :
  (UiState_init hostapd_conf_example).1 ap_iface = VStr (lit "wlan0")
  /\ (UiState_init hostapd_conf_example).1 host_iface = VStr (lit "wlan1").
Proof. by vm_compute. Qed.

(** ** Disconnecting *)

Lemma disconnect_rows_elem py_isdigit rows nid :
  WpaDisableNetwork nid ∈ mjoin (disconnect_row py_isdigit <$> rows)
  <-> py_isdigit nid = true
      /\ exists line, line ∈ rows /\ head (PyStr.split PyStr.TAB line) = Some nid.
Proof.
  rewrite list_elem_of_join. split.
  - intros (l & Hin & Hl). apply list_elem_of_fmap in Hl as (line & -> & Hline).
    unfold disconnect_row in Hin.
    destruct (PyStr.split PyStr.TAB line) as [|p0 ps] eqn:Es;
      [by apply elem_of_nil in Hin|].
    destruct (py_isdigit p0) eqn:Ed; [|by apply elem_of_nil in Hin].
    apply list_elem_of_singleton in Hin as [= ->]. split; [done|].
    exists line. by rewrite Es.
  - intros (Hd & line & Hline & Hh). exists [WpaDisableNetwork nid].
    split; [apply list_elem_of_here|]. apply list_elem_of_fmap. exists line.
    split; [|done]. unfold disconnect_row.
    destruct (PyStr.split PyStr.TAB line) as [|p0 ps]; [done|].
    injection Hh as ->. by rewrite Hd.
Qed.

Lemma disconnect_rows_shape py_isdigit rows :
  Forall (fun c => exists nid, c = WpaDisableNetwork nid)
    (mjoin (disconnect_row py_isdigit <$> rows)).
Proof.
  apply Forall_forall. intros c Hc. apply list_elem_of_join in Hc as (l & Hin & Hl).
  apply list_elem_of_fmap in Hl as (line & -> & _). unfold disconnect_row in Hin.
  destruct (PyStr.split PyStr.TAB line) as [|p0 ps]; [by apply elem_of_nil in Hin|].
  destruct (py_isdigit p0); [|by apply elem_of_nil in Hin].
  apply list_elem_of_singleton in Hin as ->. by exists p0.
Qed.

Lemma disconnect_wpa_cli_rows py_isdigit p :
  disconnect_client_wifi py_isdigit false p
  = [WpaDisconnect; WpaListNetworks]
      ++ mjoin (disconnect_row py_isdigit <$> table_rows p)
      ++ [WpaSaveConfig; IpAddrFlush].
Proof.
  unfold disconnect_client_wifi, table_rows.
  rewrite <-!(assoc_L (++)). by destruct (run_cmd p).
Qed.

(** X19. [disconnect_client_wifi] always ends with flushing the address of
    the interface.  With [nmcli] installed it only asks [nmcli] to
    disconnect.  Without it, [wpa_cli] disconnects, then disables exactly
    the networks whose row of [list_networks] starts with a number, then
    saves the configuration: so every network that
    [get_saved_networks_wpa_cli] reports with a numeric id is disabled. *)
Theorem disconnect_disables_saved_networks
    (py_isdigit : str -> bool) (has_nmcli : bool) (p : proc_result) :
  let cmds := disconnect_client_wifi py_isdigit has_nmcli p in
  last cmds = Some IpAddrFlush
  /\ (has_nmcli = true -> cmds = [NmDeviceDisconnect; IpAddrFlush])
  /\ (has_nmcli = false ->
      (exists disables,
         cmds = [WpaDisconnect; WpaListNetworks] ++ disables
                  ++ [WpaSaveConfig; IpAddrFlush]
         /\ Forall (fun c => exists nid, c = WpaDisableNetwork nid) disables
         /\ forall nid,
              WpaDisableNetwork nid ∈ disables
              <-> py_isdigit nid = true
                  /\ exists line, line ∈ table_rows p
                       /\ head (PyStr.split PyStr.TAB line) = Some nid)
      /\ (forall s nid,
            PyDict.getitem (get_saved_networks_wpa_cli p).2 s = Some nid ->
            py_isdigit nid = true -> WpaDisableNetwork nid ∈ cmds)).
Proof.
  intros cmds. split; [|split].
  - unfold cmds, disconnect_client_wifi. apply last_snoc.
  - by intros ->.
  - intros ->. unfold cmds. rewrite disconnect_wpa_cli_rows. split.
    + exists (mjoin (disconnect_row py_isdigit <$> table_rows p)).
      split; [done|]. split; [apply disconnect_rows_shape|].
      intros nid. apply disconnect_rows_elem.
    + intros s nid Hg Hd. rewrite get_saved_networks_wpa_cli_rows in Hg.
      apply saved_rows_ids in Hg as [Hg|(_ & pre & line & post & Hrows & _ & Hr)];
        [done|].
      do 2 (apply elem_of_cons; right). apply elem_of_app. left.
      apply disconnect_rows_elem. split; [done|]. exists line. split.
      * rewrite Hrows. apply elem_of_app. right. apply list_elem_of_here.
      * unfold saved_row_reading in Hr.
        destruct (PyStr.split PyStr.TAB line) as [|n [|ssid rest]]; [done..|].
        destruct (PyStr.truthy ssid); [|done]. by injection Hr as _ ->.
Qed.

(** ** Toast messages *)

Lemma Forall_filter_keeps {A} (P : A -> Prop) (Q : A -> Prop)
    `{!forall x, Decision (Q x)} (l : list A) :
  Forall P l -> Forall P (filter Q l).
Proof.
  rewrite !Forall_forall. intros Hl x Hx.
  apply list_elem_of_filter in Hx as [_ Hx]. by apply Hl.
Qed.

Lemma toast_init_inv : toast_inv toast_init.
Proof. split; [done|]. split; [done|apply Forall_nil_2]. Qed.

Lemma remove_widget_only o : remove_widget o [o] = [].
Proof. unfold remove_widget. rewrite filter_cons. by rewrite decide_False by (intros H; by apply H). Qed.

Lemma remove_widget_other o c : c <> o -> remove_widget o [c] = [c].
Proof. intros H. unfold remove_widget. rewrite filter_cons. by rewrite decide_True. Qed.

Lemma show_message_inv t d s : toast_inv s -> toast_inv (show_message t d s).
Proof.
  intros (Hw & Ho & Ht). unfold toast_inv, show_message. simpl.
  split; [|split].
  - rewrite Hw. destruct (TOAST_OVERLAY s) as [o|]; [|done]. simpl.
    by rewrite remove_widget_only.
  - intros o [= <-]. lia.
  - apply Forall_app. split; [|apply Forall_singleton; simpl; lia].
    eapply Forall_impl; [exact Ht|]. simpl. intros; lia.
Qed.

Lemma toast_dismiss_inv s o : toast_inv s -> toast_inv (toast_dismiss s o).
Proof.
  intros (Hw & Ho & Ht). unfold toast_inv, toast_dismiss. simpl.
  split; [|split; [|done]].
  - rewrite Hw. destruct (TOAST_OVERLAY s) as [o'|]; [|done]. simpl.
    destruct (decide (o' = o)) as [->|Hne].
    + rewrite bool_decide_eq_true_2 by done. apply remove_widget_only.
    + rewrite bool_decide_eq_false_2 by (intros [= ?]; done).
      by apply remove_widget_other.
  - intros o'. destruct (bool_decide (TOAST_OVERLAY s = Some o)); [done|apply Ho].
Qed.

Lemma toast_dismiss_all_inv ds : forall s,
  toast_inv s -> toast_inv (fold_left toast_dismiss ds s).
Proof.
  induction ds as [|o ds IH]; intros s Hs; [done|]. simpl.
  by apply IH, toast_dismiss_inv.
Qed.

Lemma toast_frame_inv t s : toast_inv s -> toast_inv (toast_frame t s).
Proof.
  intros (Hw & Ho & Ht). apply toast_dismiss_all_inv.
  split; [done|]. split; [done|]. simpl. by apply Forall_filter_keeps.
Qed.

Lemma toast_step_inv s ev : toast_inv s -> toast_inv (toast_step s ev).
Proof. destruct ev; [apply show_message_inv|apply toast_frame_inv]. Qed.

Lemma toast_run_inv evs : toast_inv (toast_run evs).
Proof.
  unfold toast_run. apply fold_left_preserves; [|apply toast_init_inv].
  intros s ev. apply toast_step_inv.
Qed.

(** What a series of dismissals does to the toast on screen. *)
Lemma toast_dismiss_all ds : forall s,
  let s' := fold_left toast_dismiss ds s in
  TOAST_OVERLAY s'
  = match TOAST_OVERLAY s with
    | Some o => if bool_decide (o ∈ ds) then None else Some o
    | None => None
    end
  /\ toast_timers s' = toast_timers s
  /\ toast_next s' = toast_next s.
Proof.
  induction ds as [|d ds IH]; intros s; simpl.
  - split; [|done]. by destruct (TOAST_OVERLAY s).
  - destruct (IH (toast_dismiss s d)) as (-> & -> & ->). split; [|done]. simpl.
    destruct (TOAST_OVERLAY s) as [o|]; [|done].
    destruct (decide (o = d)) as [->|Hne].
    + rewrite bool_decide_eq_true_2 by done.
      rewrite bool_decide_eq_true_2; [done|]. apply list_elem_of_here.
    + rewrite (bool_decide_eq_false_2 (Some o = Some d)) by (by intros [= ?]).
      destruct (decide (o ∈ ds)) as [Hin|Hnin].
      * rewrite !bool_decide_eq_true_2; [done| |done]. by apply list_elem_of_further.
      * rewrite !bool_decide_eq_false_2; [done| |done].
        intros [?|?]%elem_of_cons; done.
Qed.

(** The toast [o] is on screen and its dismissal is armed for [due]. *)
Definition toast_shown (o : nat) (due : Z) (s : toast_state) : Prop :=
  TOAST_OVERLAY s = Some o
  /\ {| ev_id := o; ev_due := due |} ∈ toast_timers s
  /\ Forall (fun e => ev_id e = o -> ev_due e = due) (toast_timers s).

Lemma show_message_shown t d s :
  toast_inv s -> toast_shown (toast_next s) (t + d) (show_message t d s).
Proof.
  intros (_ & _ & Ht). split; [done|]. simpl. split.
  - apply elem_of_app. right. apply list_elem_of_here.
  - apply Forall_app. split; [|by apply Forall_singleton].
    eapply Forall_impl; [exact Ht|]. simpl. intros e He Hid. lia.
Qed.

Lemma toast_frame_early o due u s :
  u < due -> toast_shown o due s -> toast_shown o due (toast_frame u s).
Proof.
  intros Hu (Ho & Hin & Huniq). unfold toast_frame.
  match goal with
  | |- toast_shown _ _ (fold_left _ ?ds ?s0) =>
      destruct (toast_dismiss_all ds s0) as (Hov & Htm & _)
  end.
  unfold toast_shown. rewrite Hov, Htm. simpl. rewrite Ho.
  rewrite bool_decide_eq_false_2.
  - split; [done|]. split; [by apply list_elem_of_filter|by apply Forall_filter_keeps].
  - intros Hd. apply list_elem_of_fmap in Hd as (e & He & Hd).
    apply list_elem_of_filter in Hd as [Hdue Hd].
    rewrite Forall_forall in Huniq. specialize (Huniq e Hd (eq_sym He)). lia.
Qed.

Lemma toast_frame_late o due u s :
  due <= u -> toast_shown o due s -> TOAST_OVERLAY (toast_frame u s) = None.
Proof.
  intros Hu (Ho & Hin & _). unfold toast_frame.
  match goal with
  | |- TOAST_OVERLAY (fold_left _ ?ds ?s0) = _ =>
      destruct (toast_dismiss_all ds s0) as (-> & _)
  end.
  simpl. rewrite Ho. rewrite bool_decide_eq_true_2; [done|].
  apply list_elem_of_fmap. exists {| ev_id := o; ev_due := due |}.
  split; [done|]. by apply list_elem_of_filter.
Qed.

Lemma toast_frame_none u s :
  TOAST_OVERLAY s = None -> TOAST_OVERLAY (toast_frame u s) = None.
Proof.
  intros Ho. unfold toast_frame.
  match goal with
  | |- TOAST_OVERLAY (fold_left _ ?ds ?s0) = _ =>
      destruct (toast_dismiss_all ds s0) as (-> & _)
  end.
  simpl. by rewrite Ho.
Qed.

Lemma toast_frames_none frames : forall s,
  TOAST_OVERLAY s = None ->
  TOAST_OVERLAY (fold_left toast_step (Redraw <$> frames) s) = None.
Proof.
  induction frames as [|u frames IH]; intros s Hs; [done|].
  csimpl. by apply IH, toast_frame_none.
Qed.

Lemma toast_frames_shown o due frames : forall s,
  toast_shown o due s ->
  let s' := fold_left toast_step (Redraw <$> frames) s in
  (Forall (fun u => u < due) frames -> TOAST_OVERLAY s' = Some o)
  /\ (Exists (fun u => due <= u) frames -> TOAST_OVERLAY s' = None).
Proof.
  induction frames as [|u frames IH]; intros s Hs; csimpl.
  - split; [intros _; by destruct Hs|]. intros H. by apply Exists_nil in H.
  - destruct (decide (u < due)) as [Hu|Hu].
    + destruct (IH _ (toast_frame_early o due u s Hu Hs)) as [Hall Hex].
      split.
      * intros H. apply Forall_cons in H as [_ H]. by apply Hall.
      * intros H. apply Exists_cons in H as [H|H]; [lia|by apply Hex].
    + split.
      * intros H. apply Forall_cons in H as [H _]. lia.
      * intros _. apply toast_frames_none.
        apply (toast_frame_late o due); [lia|done].
Qed.


(** Two messages: the dismissal of the first one, at 2000 ms, leaves the
    second one on screen until 4500 ms. *)
Example toast_two_messages :
  let evs := [Toast 0 2000; Redraw 1000; Toast 1500 3000; Redraw 2000] in
  toast_window (toast_run evs) = [1%nat]
  /\ toast_window (toast_run (evs ++ [Redraw 4499])) = [1%nat]
  /\ toast_window (toast_run (evs ++ [Redraw 4500])) = [].
Proof. by vm_compute. Qed.

(** ** Polling *)

Lemma poller_step_inv p c :
  poll_clock p = from_option (fun ev => [(ev, poll_interval p)]) [] (poll_event p) ->
  let p' := poller_step p c in
  poll_clock p' = from_option (fun ev => [(ev, poll_interval p')]) [] (poll_event p')
  /\ poll_interval p' = poll_interval p
  /\ (is_Some (poll_event p') <-> c = Start).
Proof.
  intros Hp. destruct c; simpl; unfold poller_start, poller_stop;
    destruct (poll_event p) as [ev|] eqn:Ev; simpl.
  - rewrite Ev. by repeat split.
  - rewrite Hp. simpl. by repeat split.
  - rewrite Hp. simpl. rewrite filter_cons, decide_False by (simpl; intros H; by apply H).
    repeat split; [by intros [? ?]|done].
  - rewrite Ev. repeat split; [done|by intros [? ?]|done].
Qed.

(** X21. However [start] and [stop] are called, the poller has at most one
    interval timer on the Clock: it has one exactly when the last call was
    [start], and then its period is the configured interval without its
    fraction, and at least one second. *)
Theorem poller_has_at_most_one_timer (interval_sec : Q) (calls : list poller_call) :
  let p := poller_run interval_sec calls in
  1 <= poll_interval p
  /\ poll_interval p = Z.max 1 (int_of_number interval_sec)
  /\ poll_clock p = from_option (fun ev => [(ev, poll_interval p)]) [] (poll_event p)
  /\ (is_Some (poll_event p) <-> last calls = Some Start).
Proof.
  simpl.
  assert (poll_interval (poller_run interval_sec calls)
          = Z.max 1 (int_of_number interval_sec)
          /\ poll_clock (poller_run interval_sec calls)
             = from_option (fun ev => [(ev, poll_interval (poller_run interval_sec calls))])
                 [] (poll_event (poller_run interval_sec calls))
          /\ (is_Some (poll_event (poller_run interval_sec calls))
              <-> last calls = Some Start)) as (Hi & Hc & Hl).
  { induction calls as [|c calls (Hi & Hc & Hl)] using rev_ind.
    - repeat split; [by intros [? ?]|done].
    - unfold poller_run. rewrite fold_left_app. simpl. fold (poller_run interval_sec calls).
      destruct (poller_step_inv _ c Hc) as (Hc' & Hi' & Hl').
      split; [by rewrite Hi'|]. split; [done|]. rewrite last_snoc, Hl'.
      split; [by intros ->|by intros [= ->]]. }
  split; [lia|done].
Qed.

(** Half a second is polled every second, 2.9 seconds every two. *)
Example poller_intervals :
  poll_interval (StatePoller (1 # 2)) = 1
  /\ poll_interval (StatePoller 2) = 2
  /\ poll_interval (StatePoller (29 # 10)) = 2
  /\ poll_clock (poller_run 2 [Start; Start; Stop; Start]) = [(1%nat, 2)].
Proof. by vm_compute. Qed.

(** ** Wi-Fi screen: jobs and the busy indicator *)

Lemma show_busy_indicator_depth b :
  BUSY_DEPTH (show_busy_indicator b).1 = BUSY_DEPTH b + 1.
Proof. unfold show_busy_indicator. by destruct (BUSY_OVERLAY b). Qed.

Lemma hide_busy_indicator_depth b :
  BUSY_DEPTH (hide_busy_indicator b).1 = Z.max 0 (BUSY_DEPTH b - 1).
Proof.
  unfold hide_busy_indicator.
  by destruct (BUSY_OVERLAY b && (Z.max 0 (BUSY_DEPTH b - 1) =? 0)).
Qed.

Lemma delete_app_l {A} (l k : list A) n :
  (n < length l)%nat -> delete n (l ++ k) = delete n l ++ k.
Proof.
  revert n. induction l as [|x l IH]; intros n Hn; simpl in *; [lia|].
  destruct n as [|n]; [done|]. simpl. f_equal. apply IH. lia.
Qed.

Lemma wifi_session_init_inv : wifi_session_inv wifi_session_init.
Proof. split; [apply busy_init_inv|]. split; [done|]. simpl. apply Forall_nil_2. Qed.

Lemma wifi_begin_connecting op s :
  ui_connecting (ws_ui s) = true -> wifi_begin op s = None.
Proof.
  intros H. destruct op; simpl;
    unfold refresh_networks_begin, on_disconnect_begin, connect_to_begin;
    by rewrite H.
Qed.

Lemma wifi_begin_idle op s :
  ui_connecting (ws_ui s) = false ->
  exists sc, wifi_begin op s = Some sc
    /\ ui_busy (ws_ui sc) = (show_busy_indicator (ui_busy (ws_ui s))).1
    /\ ui_connecting (ws_ui sc) = is_connect op.
Proof.
  intros H. destruct op; simpl;
    unfold refresh_networks_begin, on_disconnect_begin, connect_to_begin;
    rewrite H; eexists; (split; [reflexivity|]); simpl; by rewrite ?H.
Qed.

(** A job other than the connection attempt ends. *)
Lemma wifi_session_other_ends s n op sc :
  wifi_session_inv s ->
  sess_pending s !! n = Some op -> is_connect op = false ->
  ui_busy (ws_ui sc) = (hide_busy_indicator (ui_busy (ws_ui (sess_screen s)))).1 ->
  ui_connecting (ws_ui sc) = ui_connecting (ws_ui (sess_screen s)) ->
  wifi_session_inv {| sess_screen := sc; sess_pending := delete n (sess_pending s) |}.
Proof.
  intros (Hb & Hd & Hc) Hn Hop Hbusy Hconn. unfold wifi_session_inv. simpl.
  rewrite Hbusy, Hconn.
  assert (n < length (sess_pending s))%nat as Hlt by (by eapply lookup_lt_Some).
  split; [apply (busy_step_inv Exit _ Hb)|]. split.
  - rewrite hide_busy_indicator_depth, Hd, length_delete by done. lia.
  - destruct (ui_connecting (ws_ui (sess_screen s))).
    + destruct Hc as (pre & ssid & Hp & Hpre). rewrite Hp in Hn |- *.
      apply lookup_snoc_Some in Hn as [[Hn' _]|[_ <-]]; [|done].
      exists (delete n pre), ssid. split; [by apply delete_app_l|].
      by apply Forall_delete.
    + by apply Forall_delete.
Qed.

Lemma wifi_step_inv s ev : wifi_session_inv s -> wifi_session_inv (wifi_step s ev).
Proof.
  intros Hs. pose proof Hs as (Hb & Hd & Hc). destruct ev as [op|n o|n o|n o]; simpl.
  - destruct (ui_connecting (ws_ui (sess_screen s))) eqn:Econn.
    + by rewrite wifi_begin_connecting.
    + destruct (wifi_begin_idle op _ Econn) as (sc & -> & Hbusy & Hconn).
      unfold wifi_session_inv. simpl. rewrite Hbusy, Hconn.
      split; [apply (busy_step_inv Enter _ Hb)|]. split.
      * rewrite show_busy_indicator_depth, Hd, length_app. simpl. lia.
      * destruct op; simpl.
        -- apply Forall_app. split; [done|by apply Forall_singleton].
        -- apply Forall_app. split; [done|by apply Forall_singleton].
        -- by exists (sess_pending s), ssid.
  - destruct (sess_pending s !! n) as [[| |ssid]|] eqn:En; try done.
    by apply (wifi_session_other_ends s n OpRefresh).
  - destruct (sess_pending s !! n) as [[| |ssid]|] eqn:En; try done.
    by apply (wifi_session_other_ends s n OpDisconnect).
  - destruct (sess_pending s !! n) as [[| |ssid]|] eqn:En; try done.
    unfold wifi_session_inv. simpl.
    assert (n < length (sess_pending s))%nat as Hlt by (by eapply lookup_lt_Some).
    split; [apply (busy_step_inv Exit _ Hb)|]. split.
    + rewrite hide_busy_indicator_depth, Hd, length_delete by done. lia.
    + destruct (ui_connecting (ws_ui (sess_screen s))).
      * destruct Hc as (pre & ssid' & Hp & Hpre). rewrite Hp in En |- *.
        apply lookup_snoc_Some in En as [[Hn' En]|[-> _]].
        -- rewrite Forall_forall in Hpre.
           by specialize (Hpre _ (list_elem_of_lookup_2 _ _ _ En)).
        -- rewrite (delete_middle pre [] (OpConnect ssid')). by rewrite app_nil_r.
      * rewrite Forall_forall in Hc.
        by specialize (Hc _ (list_elem_of_lookup_2 _ _ _ En)).
Qed.

Lemma wifi_run_inv evs : wifi_session_inv (wifi_run evs).
Proof.
  unfold wifi_run. apply fold_left_preserves; [|apply wifi_session_init_inv].
  intros s ev. apply wifi_step_inv.
Qed.

(** X22. On the Wi-Fi screen, whatever is pressed and in whatever order the
    jobs end, the depth of the busy indicator is the number of jobs in
    flight, so the overlay is on screen exactly while a job is in flight.
    [_connecting] is set exactly while a connection attempt is in flight;
    there is never more than one, and while it lasts every refresh,
    disconnect and connect request is dropped. *)
Theorem wifi_screen_is_busy_while_jobs_run (evs : list wifi_event) :
  let s := wifi_run evs in
  let u := ws_ui (sess_screen s) in
  BUSY_DEPTH (ui_busy u) = Z.of_nat (length (sess_pending s))
  /\ (window_overlay (ui_busy u) = true <-> sess_pending s <> [])
  /\ (ui_connecting u = true <-> exists ssid, OpConnect ssid ∈ sess_pending s)
  /\ (length (filter (fun op => is_connect op = true) (sess_pending s)) <= 1)%nat
  /\ (ui_connecting u = true -> forall op, wifi_step s (Press op) = s).
Proof.
  intros s u. destruct (wifi_run_inv evs) as ((_ & Ho & Hw) & Hd & Hc).
  fold s in Ho, Hw, Hd, Hc. fold u in Ho, Hw, Hd, Hc.
  assert (forall l : list wifi_op,
            Forall (fun op => is_connect op = false) l ->
            filter (fun op => is_connect op = true) l = []) as Hnone.
  { intros l Hl. apply filter_none. eapply Forall_impl; [exact Hl|].
    intros op Hop. simpl in *. congruence. }
  split; [done|]. split; [|split; [|split]].
  - rewrite Hw, Ho, Hd. destruct (sess_pending s); simpl; [split; [lia|done]|].
    split; [done|lia].
  - destruct (ui_connecting u).
    + destruct Hc as (pre & ssid & -> & _). split; [|done]. intros _.
      exists ssid. apply elem_of_app. right. apply list_elem_of_here.
    + split; [done|]. intros (ssid & Hin). rewrite Forall_forall in Hc.
      by specialize (Hc _ Hin).
  - destruct (ui_connecting u).
    + destruct Hc as (pre & ssid & -> & Hpre).
      rewrite filter_app, (Hnone _ Hpre). simpl. lia.
    + rewrite (Hnone _ Hc). simpl. lia.
  - intros Hconn op. simpl. by rewrite wifi_begin_connecting.
Qed.

(** A refresh, a connection attempt during it, a refresh that is dropped,
    and the two jobs ending: the overlay stays until the second one ends. *)
Example wifi_session_example :
  let evs := [Press OpRefresh; Press (OpConnect (lit "Home")); Press OpRefresh] in
  sess_pending (wifi_run evs) = [OpRefresh; OpConnect (lit "Home")]
  /\ window_overlay (ui_busy (ws_ui (sess_screen
       (wifi_run (evs ++ [ConnectEnds 1 (inr true)]))))) = true
  /\ window_overlay (ui_busy (ws_ui (sess_screen
       (wifi_run (evs ++ [ConnectEnds 1 (inr true);
                          RefreshEnds 0 (inl (RuntimeError []))]))))) = false.
Proof. by vm_compute. Qed.

(** ** Wi-Fi screen: the rows of a refresh *)

Lemma omap_row_connects_buttons (items : list network_entry) :
  omap row_connects (network_button <$> items)
  = entry_ssid <$> filter (fun e => entry_current e = false) items.
Proof.
  induction items as [|e items IH]; [done|]. csimpl. rewrite filter_cons.
  destruct (entry_current e) eqn:Ec; simpl; [done|]. f_equal. exact IH.
Qed.

Lemma omap_row_connects_out (out : list str) :
  omap row_connects (OutOfRangeButton <$> out) = [].
Proof. induction out as [|s out IH]; [done|]. by csimpl. Qed.

Lemma omap_row_ssid_buttons (items : list network_entry) :
  omap row_ssid (network_button <$> items) = entry_ssid <$> items.
Proof. induction items as [|e items IH]; [done|]. csimpl. by rewrite IH. Qed.

Lemma omap_row_ssid_out (out : list str) : omap row_ssid (OutOfRangeButton <$> out) = out.
Proof. induction out as [|s out IH]; [done|]. csimpl. by rewrite IH. Qed.

Lemma refresh_rows_connects r :
  omap row_connects (refresh_rows (Some r) None)
  = entry_ssid <$> filter (fun e => entry_current e = false) (in_range r).
Proof.
  unfold refresh_rows.
  destruct (in_range r) as [|e items] eqn:Ei, (out_of_range r) as [|s out] eqn:Eo;
    try done.
  - rewrite app_nil_l. csimpl. by rewrite omap_row_connects_out.
  - rewrite app_nil_r. apply omap_row_connects_buttons.
  - rewrite omap_app, omap_row_connects_buttons. csimpl.
    rewrite (omap_row_connects_out out). by rewrite app_nil_r.
Qed.

Lemma refresh_rows_ssids r :
  omap row_ssid (refresh_rows (Some r) None)
  = (entry_ssid <$> in_range r) ++ out_of_range r.
Proof.
  unfold refresh_rows.
  destruct (in_range r) as [|e items] eqn:Ei, (out_of_range r) as [|s out] eqn:Eo;
    try done.
  - rewrite app_nil_l. csimpl. by rewrite omap_row_ssid_out.
  - rewrite !app_nil_r. apply omap_row_ssid_buttons.
  - rewrite omap_app, omap_row_ssid_buttons. csimpl.
    by rewrite (omap_row_ssid_out out).
Qed.

(** X23. After a refresh the grid offers a connection to exactly the
    networks that are saved, were seen by a scan and are not the current
    one.  The networks that the grid shows are those of [in_range], in
    that order, and then those of [out_of_range]; none is shown twice. *)
Theorem refresh_rows_offer_saved_networks_in_range
    (py_int : str -> option Z) (w : wifi_env) (current_ssid : str) :
  let r := refresh_task py_int w current_ssid in
  let rows := refresh_rows (Some r) None in
  (forall s,
     s ∈ omap row_connects rows
     <-> s <> [] /\ s ∈ refresh_task_saved w /\ s <> current_ssid
         /\ is_Some (PyDict.getitem
                       (refresh_merged (task_nm py_int w) (task_wp py_int w)) s))
  /\ omap row_ssid rows = (entry_ssid <$> in_range r) ++ out_of_range r
  /\ NoDup (omap row_ssid rows).
Proof.
  intros r rows. unfold rows. rewrite refresh_rows_connects, refresh_rows_ssids.
  split; [|split; [done|]].
  - intros s. rewrite list_elem_of_fmap. split.
    + intros (e & -> & He). apply list_elem_of_filter in He as [Hc He].
      apply in_range_task_elem in He as (info & Hg & Hne & Hs & Heq).
      repeat split; [done..| |by exists info].
      rewrite Heq in Hc. simpl in Hc. by apply bool_decide_eq_false in Hc.
    + intros (Hne & Hs & Hcur & info & Hg).
      exists (entry_of current_ssid s info). split; [done|].
      apply list_elem_of_filter. split.
      * simpl. by apply bool_decide_eq_false.
      * apply in_range_task_elem. exists info. by repeat split.
  - apply NoDup_app. split; [apply in_range_task_NoDup|]. split.
    + intros s Hin Hout.
      by apply out_of_range_task_elem in Hout as (_ & ? & _).
    + assert (out_of_range r ≡ₚ elements
                ((refresh_task_saved w
                    ∖ list_to_set (entry_ssid <$> in_range r))
                 ∖ (if PyStr.truthy current_ssid then {[ current_ssid ]} else ∅)))
        as -> by apply (py_sort_perm id PyStr.ltb).
      apply NoDup_elements.
Qed.

(** ** VPN screen *)

Lemma setattr_str st k s : (setattr st k (VStr s)).1 k = VStr s.
Proof.
  rewrite setattr_store, decide_True by done.
  destruct (st k) as [t|q] eqn:E; simpl; [|done].
  destruct (decide (t = s)) as [->|Hne].
  - by rewrite bool_decide_eq_true_2.
  - by rewrite bool_decide_eq_false_2.
Qed.

Lemma setattr_other st k v f : f <> k -> (setattr st k v).1 f = st f.
Proof. intros H. rewrite setattr_store. by rewrite decide_False. Qed.

(** The VPN entries of a snapshot. *)
Lemma collect_snapshot_vpn py_int st p snap :
  collect_snapshot py_int st p = Some snap ->
  let running := PyStr.truthy (run_cmd (probe_pgrep_openvpn p)) in
  PyDict.getitem snap vpn_status
  = Some (VStr (if running then lit "ON" else lit "OFF"))
  /\ PyDict.getitem snap vpn_name
     = Some (VStr (if running
                   then if bool_decide (store_str st vpn_name <> lit "None")
                        then store_str st vpn_name else lit "ON"
                   else lit "None")).
Proof.
  unfold collect_snapshot.
  generalize (or_na (Some (run_cmd (probe_hostname p)))); intros host.
  generalize (or_na (probe_hostapd_ssid p)); intros apssid.
  generalize (or_na (probe_ap_ip p)); intros apip.
  generalize (store_str st vpn_name); intros name.
  destruct (PyStr.truthy (run_cmd (probe_thermal p)));
    [destruct (py_int (run_cmd (probe_thermal p))); [|done]|];
    destruct (PyStr.truthy (run_cmd (probe_pgrep_openvpn p)));
    by intros [= <-].
Qed.

Lemma toggle_vpn_done_store vpn_file display_name u :
  let u' := toggle_vpn_done vpn_file display_name (Some true, None) u in
  vpn_STATE u' vpn_name = VStr display_name
  /\ vpn_STATE u' vpn_status = VStr (lit "ON")
  /\ forall f, f <> vpn_name -> f <> vpn_status -> vpn_STATE u' f = vpn_STATE u f.
Proof.
  unfold toggle_vpn_done. simpl.
  destruct (setattr (vpn_STATE u) vpn_name (VStr display_name)) as [st1 n1] eqn:E1.
  destruct (setattr st1 vpn_status (VStr (lit "ON"))) as [st2 n2] eqn:E2. simpl.
  assert (st1 = (setattr (vpn_STATE u) vpn_name (VStr display_name)).1) as Hst1
    by (by rewrite E1).
  assert (st2 = (setattr st1 vpn_status (VStr (lit "ON"))).1) as Hst2
    by (by rewrite E2).
  split; [|split].
  - rewrite Hst2, setattr_other by done. rewrite Hst1. apply setattr_str.
  - rewrite Hst2. apply setattr_str.
  - intros f H1 H2. rewrite Hst2, setattr_other by done.
    rewrite Hst1. by apply setattr_other.
Qed.

(** X24. A VPN that [toggle_vpn] started is shown as ON under its display
    name, and a poll that finds [openvpn] running changes neither property
    and notifies nobody of them (a profile named "None" apart); a poll that
    finds no [openvpn] turns the VPN OFF and its name to "None".  When the
    profile's file is missing, [openvpn] is killed all the same, nothing is
    started, the store is left as it was and an error is shown. *)
Theorem toggle_vpn_name_survives_polling
    (py_int : str -> option Z) (u : vpn_ui) (vpn_file display_name : str)
    (p : probes) :
  let started := toggle_vpn_task true vpn_file in
  let u' := toggle_vpn_done vpn_file display_name (completion_args started.1) u in
  let st' := vpn_STATE u' in
  let failed := toggle_vpn_task false vpn_file in
  let u0 := toggle_vpn_done vpn_file display_name (completion_args failed.1) u in
  started.2 = [KillallOpenvpn; OpenvpnDaemon vpn_file]
  /\ st' vpn_name = VStr display_name
  /\ st' vpn_status = VStr (lit "ON")
  /\ (forall snap, collect_snapshot py_int st' p = Some snap ->
        (run_cmd (probe_pgrep_openvpn p) <> [] -> display_name <> lit "None" ->
           (apply_snapshot st' snap).1 vpn_name = VStr display_name
           /\ (apply_snapshot st' snap).1 vpn_status = VStr (lit "ON")
           /\ Forall (fun kv => kv.1 <> vpn_name /\ kv.1 <> vpn_status)
                (apply_snapshot st' snap).2)
        /\ (run_cmd (probe_pgrep_openvpn p) = [] ->
              (apply_snapshot st' snap).1 vpn_name = VStr (lit "None")
              /\ (apply_snapshot st' snap).1 vpn_status = VStr (lit "OFF")))
  /\ failed.2 = [KillallOpenvpn]
  /\ vpn_STATE u0 = vpn_STATE u
  /\ vpn_fired u0 = vpn_fired u
  /\ vpn_effects u0
     = vpn_effects u
         ++ [VpnShowMessage (lit "Error")
               (lit "Failed to start VPN:" ++ [PyStr.LF] ++ vpn_file) true].
Proof.
  intros started u' st' failed u0.
  destruct (toggle_vpn_done_store vpn_file display_name u) as (Hname & Hstatus & _).
  change (toggle_vpn_done vpn_file display_name (Some true, None) u) with u' in *.
  fold st' in Hname, Hstatus.
  split; [done|]. split; [done|]. split; [done|]. split; [|by repeat split].
  intros snap Hc.
  pose proof (collect_snapshot_wf _ _ _ _ Hc) as Hwf.
  destruct (collect_snapshot_vpn _ _ _ _ Hc) as [Hs Hn].
  assert (store_str st' vpn_name = display_name) as Hstr
    by (unfold store_str; by rewrite Hname).
  rewrite Hstr in Hn. split.
  - intros Hrun Hnone.
    assert (PyStr.truthy (run_cmd (probe_pgrep_openvpn p)) = true) as Ht
      by (by destruct (run_cmd (probe_pgrep_openvpn p))).
    rewrite Ht in Hs, Hn. rewrite bool_decide_eq_true_2 in Hn by done.
    rewrite !apply_snapshot_store, Hs, Hn, Hname, Hstatus by done.
    rewrite !value_eqb_refl. split; [done|]. split; [done|].
    destruct (apply_snapshot_spec st' snap Hwf) as (-> & _).
    apply Forall_forall. intros [k v] Hkv.
    apply list_elem_of_filter in Hkv as [Hch Hin]. unfold changes in Hch.
    simpl in *. apply elem_of_getitem in Hin; [|done].
    split; intros ->.
    + rewrite Hn in Hin. injection Hin as <-.
      by rewrite Hname, value_eqb_refl in Hch.
    + rewrite Hs in Hin. injection Hin as <-.
      by rewrite Hstatus, value_eqb_refl in Hch.
  - intros Hrun. rewrite Hrun in Hs, Hn. simpl in Hs, Hn.
    rewrite !apply_snapshot_store, Hs, Hn, Hname, Hstatus by done. simpl.
    split; [|done].
    destruct (decide (display_name = lit "None")) as [->|Hne].
    + by rewrite bool_decide_eq_true_2.
    + by rewrite bool_decide_eq_false_2.
Qed.

(** The profile Home is started from the defaults; the next poll finds
    [openvpn] and leaves the two properties alone. *)
Example toggle_vpn_example :
  let u' := toggle_vpn_done (lit "home.ovpn") (lit "Home") (Some true, None)
              vpn_ui_busy in
  vpn_fired u' = [(vpn_name, VStr (lit "Home")); (vpn_status, VStr (lit "ON"))]
  /\ window_overlay (vpn_busy u') = false
  /\ exists snap,
       collect_snapshot decimal_int (vpn_STATE u') probes_vpn_example = Some snap
       /\ (apply_snapshot (vpn_STATE u') snap).2.*1
          = [net_status; client_ssid; ap_status; hostname; uptime; ap_ssid;
             ip_address].
Proof.
  split; [by vm_compute|]. split; [by vm_compute|].
  eexists. split; [by vm_compute|]. by vm_compute.
Qed.

(** X25. [disconnect_vpn] marks the VPN as OFF with the name "None"
    whatever its job did.  If a poll then still finds [openvpn] running,
    the VPN is shown as ON again, under the name "ON": the name of the
    profile is lost. *)
Theorem disconnect_vpn_forgets_the_profile
    (py_int : str -> option Z) (u : vpn_ui)
    (args : option bool * option vpn_exn) (p : probes) :
  let u' := disconnect_vpn_done args u in
  let st' := vpn_STATE u' in
  st' vpn_name = VStr (lit "None")
  /\ st' vpn_status = VStr (lit "OFF")
  /\ (forall f, f <> vpn_name -> f <> vpn_status -> st' f = vpn_STATE u f)
  /\ (forall snap, collect_snapshot py_int st' p = Some snap ->
        run_cmd (probe_pgrep_openvpn p) <> [] ->
        (apply_snapshot st' snap).1 vpn_name = VStr (lit "ON")
        /\ (apply_snapshot st' snap).1 vpn_status = VStr (lit "ON")).
Proof.
  intros u' st'.
  assert (st' vpn_name = VStr (lit "None")
          /\ st' vpn_status = VStr (lit "OFF")
          /\ forall f, f <> vpn_name -> f <> vpn_status -> st' f = vpn_STATE u f)
    as (Hname & Hstatus & Hother).
  { unfold st', u', disconnect_vpn_done.
    destruct (setattr (vpn_STATE u) vpn_name (VStr (lit "None"))) as [st1 n1] eqn:E1.
    destruct (setattr st1 vpn_status (VStr (lit "OFF"))) as [st2 n2] eqn:E2. simpl.
    assert (st1 = (setattr (vpn_STATE u) vpn_name (VStr (lit "None"))).1) as Hst1
      by (by rewrite E1).
    assert (st2 = (setattr st1 vpn_status (VStr (lit "OFF"))).1) as Hst2
      by (by rewrite E2).
    split; [|split].
    - rewrite Hst2, setattr_other by done. rewrite Hst1. apply setattr_str.
    - rewrite Hst2. apply setattr_str.
    - intros f H1 H2. rewrite Hst2, setattr_other by done.
      rewrite Hst1. by apply setattr_other. }
  split; [done|]. split; [done|]. split; [done|].
  intros snap Hc Hrun.
  pose proof (collect_snapshot_wf _ _ _ _ Hc) as Hwf.
  destruct (collect_snapshot_vpn _ _ _ _ Hc) as [Hs Hn].
  assert (store_str st' vpn_name = lit "None") as Hstr
    by (unfold store_str; by rewrite Hname).
  rewrite Hstr in Hn.
  assert (PyStr.truthy (run_cmd (probe_pgrep_openvpn p)) = true) as Ht
    by (by destruct (run_cmd (probe_pgrep_openvpn p))).
  rewrite Ht in Hs, Hn. rewrite bool_decide_eq_false_2 in Hn by (intros H; by apply H).
  by rewrite !apply_snapshot_store, Hs, Hn, Hname, Hstatus.
Qed.

(** ** Saved networks of [wpa_supplicant.conf] *)

Lemma rstrip_snoc (l : str) c :
  PyStr.isspace c = false -> PyStr.rstrip (l ++ [c]) = l ++ [c].
Proof.
  intros Hc. induction l as [|x l IH]; simpl; [by rewrite Hc|].
  rewrite IH. by destruct (l ++ [c]) eqn:E; [destruct l|].
Qed.

Lemma strip_fixed c (l : str) d :
  PyStr.isspace c = false -> PyStr.isspace d = false ->
  PyStr.strip (c :: l ++ [d]) = c :: l ++ [d].
Proof.
  intros Hc Hd. unfold PyStr.strip. cbn [PyStr.lstrip]. rewrite Hc.
  exact (rstrip_snoc (c :: l) d Hd).
Qed.

Lemma unlines_cons l l' ls :
  unlines (l :: l' :: ls) = l ++ PyStr.LF :: unlines (l' :: ls).
Proof.
  simpl. generalize l'. clear l'. revert l.
  induction ls as [|x ls IH]; intros l l'; simpl; [done|].
  rewrite IH. rewrite (IH l'). by rewrite <-!(assoc_L (++)).
Qed.

Lemma splitlines_from_app l : forall cur s,
  Forall (fun c => PyStr.islinebreak c = false) l ->
  PyStr.splitlines_from cur (l ++ s) = PyStr.splitlines_from (cur ++ l) s.
Proof.
  induction l as [|c l IH]; intros cur s Hl; [by rewrite app_nil_r|].
  apply Forall_cons in Hl as [Hc Hl]. simpl. rewrite Hc, IH by done.
  by rewrite <-(assoc_L (++)).
Qed.

Lemma splitlines_from_LF cur s :
  PyStr.splitlines_from cur (PyStr.LF :: s) = cur :: PyStr.splitlines_from [] s.
Proof. by destruct s. Qed.

(** Lines without line breaks, the last one not empty, are read back from
    the text that joins them. *)
Lemma splitlines_unlines ls :
  Forall (fun l => Forall (fun c => PyStr.islinebreak c = false) l) ls ->
  last ls <> Some [] ->
  PyStr.splitlines (unlines ls) = ls.
Proof.
  unfold PyStr.splitlines.
  induction ls as [|l ls IH]; intros Hls Hlast; [done|].
  apply Forall_cons in Hls as [Hl Hls]. destruct ls as [|l' ls].
  - simpl. rewrite <-(app_nil_r l) at 1. rewrite splitlines_from_app by done.
    simpl. by destruct l.
  - rewrite unlines_cons, splitlines_from_app, splitlines_from_LF by done.
    simpl. f_equal. by apply IH.
Qed.

Lemma endswith_snoc (l : str) c : endswith [c] (l ++ [c]) = true.
Proof.
  unfold endswith. apply bool_decide_eq_true. rewrite length_app. simpl.
  replace (length l + 1 - 1)%nat with (length l) by lia.
  by rewrite drop_app_length.
Qed.

Lemma slice_1_m1_quoted c (s : str) d : slice_1_m1 (c :: s ++ [d]) = s.
Proof.
  unfold slice_1_m1. simpl. rewrite length_app. simpl.
  replace (length s + 1 - 1)%nat with (length s) by lia.
  rewrite drop_0. by rewrite take_app_length.
Qed.

(** One block adds its name. *)
Lemma from_conf_lines_block s rest block ssids :
  plain_ssid s ->
  from_conf_lines (network_block s ++ rest) block ssids
  = from_conf_lines rest false ({[ s ]} ∪ ssids).
Proof.
  intros (Hne & Hstrip & _). unfold network_block.
  rewrite <-!app_comm_cons, app_nil_l.
  cbn [from_conf_lines].
  assert (PyStr.strip (lit "network={") = lit "network={") as -> by done.
  assert (startswith (lit "network={") (lit "network={") = true) as -> by done.
  set (line := lit "ssid=" ++ QUOTE :: s ++ [QUOTE]).
  assert (PyStr.strip (PyStr.TAB :: line) = line) as ->.
  { unfold PyStr.strip.
    assert (PyStr.lstrip (PyStr.TAB :: line) = line) as -> by done.
    apply (rstrip_snoc (lit "ssid=" ++ QUOTE :: s) QUOTE). done. }
  assert (startswith (lit "network={") line = false) as -> by done.
  assert (startswith (lit "}") line = false) as -> by done.
  assert (startswith (lit "ssid=") line = true) as Hs by done.
  rewrite Hs, (after_equals_ssid _ Hs). cbn [andb].
  change (drop 5 line) with (QUOTE :: s ++ [QUOTE]).
  rewrite (strip_fixed QUOTE s QUOTE) by done.
  assert (startswith [QUOTE] (QUOTE :: s ++ [QUOTE]) = true) as -> by done.
  assert (endswith [QUOTE] (QUOTE :: s ++ [QUOTE]) = true) as ->
    by exact (endswith_snoc (QUOTE :: s) QUOTE).
  cbn [andb].
  rewrite slice_1_m1_quoted, Hstrip.
  destruct s as [|c s]; [done|]. cbn [PyStr.truthy].
  assert (PyStr.strip (PyStr.TAB :: lit "key_mgmt=NONE") = lit "key_mgmt=NONE")
    as -> by done.
  assert (PyStr.strip (lit "}") = lit "}") as -> by done.
  done.
Qed.

Lemma from_conf_lines_blocks ssids : forall block acc,
  Forall plain_ssid ssids ->
  ssids <> [] \/ block = false ->
  from_conf_lines (mjoin (network_block <$> ssids)) block acc
  = Some (list_to_set ssids ∪ acc).
Proof.
  induction ssids as [|s ssids IH]; intros block acc Hall Hb.
  - destruct Hb as [? | ->]; [done|]. simpl. f_equal.
    symmetry. apply (left_id_L ∅ (∪)).
  - apply Forall_cons in Hall as [Hs Hall].
    change (mjoin (network_block <$> s :: ssids))
      with (network_block s ++ mjoin (network_block <$> ssids)).
    rewrite from_conf_lines_block by done.
    rewrite IH by (done || by right). f_equal.
    rewrite list_to_set_cons, (comm_L (∪) {[ s ]} (list_to_set ssids)).
    by rewrite (assoc_L (∪)).
Qed.

Lemma from_conf_lines_total lines : forall block acc,
  (forall s, s ∈ acc -> PyStr.strip s = s) ->
  exists X, from_conf_lines lines block acc = Some X
            /\ forall s, s ∈ X -> PyStr.strip s = s.
Proof.
  induction lines as [|line lines IH]; intros block acc Hacc; simpl;
    [by exists acc|].
  destruct (startswith (lit "network={") (PyStr.strip line)); [by apply IH|].
  destruct (block && startswith (lit "}") (PyStr.strip line)); [by apply IH|].
  destruct (block && startswith (lit "ssid=") (PyStr.strip line)) eqn:E;
    [|by apply IH].
  apply andb_true_iff in E as [_ E]. rewrite (after_equals_ssid _ E).
  match goal with
  | |- context [PyStr.truthy ?v] => destruct (PyStr.truthy v); [|by apply IH]
  end.
  apply IH. intros s [Hs|Hs]%elem_of_union; [|by apply Hacc].
  apply elem_of_singleton in Hs as ->. apply strip_idem.
Qed.

Lemma network_block_plain s :
  Forall (fun c => PyStr.islinebreak c = false) s ->
  Forall (fun l => Forall (fun c => PyStr.islinebreak c = false) l)
    (network_block s).
Proof.
  intros Hs. unfold network_block.
  apply Forall_cons. split; [by apply (bool_decide_unpack _)|].
  apply Forall_cons. split.
  { apply Forall_cons. split; [done|]. apply Forall_app. split.
    - by apply (bool_decide_unpack _).
    - apply Forall_cons. split; [done|]. apply Forall_app. split; [done|].
      by apply Forall_singleton. }
  apply Forall_cons. split; [by apply (bool_decide_unpack _)|].
  apply Forall_cons. split; [by apply (bool_decide_unpack _)|].
  apply Forall_nil_2.
Qed.

Lemma network_blocks_plain ssids :
  Forall plain_ssid ssids ->
  Forall (fun l => Forall (fun c => PyStr.islinebreak c = false) l)
    (mjoin (network_block <$> ssids))
  /\ last (mjoin (network_block <$> ssids)) <> Some [].
Proof.
  induction ssids as [|s ssids IH]; intros Hall; [split; [apply Forall_nil_2|done]|].
  apply Forall_cons in Hall as [(_ & _ & Hs) Hall].
  destruct (IH Hall) as [Hlines Hlast].
  change (mjoin (network_block <$> s :: ssids))
    with (network_block s ++ mjoin (network_block <$> ssids)).
  split.
  - apply Forall_app. split; [by apply network_block_plain|done].
  - destruct (mjoin (network_block <$> ssids)) as [|x xs] eqn:E.
    + by rewrite app_nil_r.
    + unfold network_block. rewrite <-!app_comm_cons, app_nil_l.
      match goal with
      | |- last (?a :: ?b :: ?c :: ?d :: x :: xs) <> _ =>
          change (last (a :: b :: c :: d :: x :: xs)) with (last (x :: xs))
      end.
      done.
Qed.

(** X26. [get_saved_networks_from_conf] never fails, and the names that it
    returns are stripped.  It reads back what [wpa_supplicant] wrote: from
    a file made of one network block for each of some names, none empty,
    with white space at its ends or with a line break, it returns exactly
    those names, quotation marks inside a name included. *)
Theorem get_saved_networks_from_conf_reads_blocks :
  (forall content, exists X,
      get_saved_networks_from_conf content = Some X
      /\ forall s, s ∈ X -> PyStr.strip s = s)
  /\ (forall ssids,
        Forall plain_ssid ssids ->
        get_saved_networks_from_conf
          (Some (unlines (mjoin (network_block <$> ssids))))
        = Some (list_to_set ssids)).
Proof.
  split.
  - intros [c|]; simpl.
    + apply from_conf_lines_total. intros s Hs. by apply elem_of_empty in Hs.
    + exists ∅. split; [done|]. intros s Hs. by apply elem_of_empty in Hs.
  - intros ssids Hall. simpl.
    destruct (network_blocks_plain ssids Hall) as [Hlines Hlast].
    rewrite splitlines_unlines by done.
    rewrite from_conf_lines_blocks by (done || by right).
    f_equal. apply (right_id_L ∅ (∪)).
Qed.

(** Two blocks, one name with quotation marks in it; a name outside a
    block is not read, and a quoted blank gives the empty name. *)
Example get_saved_networks_from_conf_example :
  get_saved_networks_from_conf
    (Some (unlines (lit "ssid=Outside"
                      :: network_block (lit "Home")
                      ++ network_block (lit "My " ++ QUOTE :: lit "2" ++ [QUOTE]))))
  = Some {[ lit "Home"; lit "My " ++ QUOTE :: lit "2" ++ [QUOTE] ]}
  /\ get_saved_networks_from_conf
       (Some (unlines (network_block (lit " "))))
     = Some {[ [] ]}.
Proof. split; by vm_compute. Qed.
